(** * Order and payment lifecycle of the ShopEase backend

    A shallow embedding of the order routes ([routes/orders.js]), the payment
    routes ([routes/payments.js]) and the [Payment] / [Order] Mongoose models,
    then of the cart routes ([routes/cart.js]), the cart, wishlist, inventory,
    review and slug code of the [User] and [Product] models and the card
    number check of the checkout page, followed by the properties proved of
    them.

    Conventions of the embedding.
    - A JavaScript [Number] that holds money or a rating is a binary64
      floating-point value ([Num]), with the arithmetic and the comparisons
      of IEEE 754; integer quantities are [Z]; a [Date] is its millisecond
      timestamp ([Z]).  A string is the list of its code units, taken below
      256.
    - The [orders] and [payments] collections are lists in insertion order and
      a document's [_id] is its position, so [findById] is list lookup, a
      first [save] appends and [findOne] returns the first match.  Products
      and carts are finite maps keyed by [_id].
    - A route is modelled from the point where [validationResult] has
      accepted the request, and a request body is the value the handler
      reads from [req.body].  Values the validators restrict to an
      enumeration are given the enumeration as their type.  Where a
      validator accepts a value without converting it and the handler is
      sensitive to its type, both forms are modelled: the quantity of a cart
      request is a number or a string.
    - [Date.now()], [new Date()] and the random suffix of an order id are
      arguments of the operation; requests are handled one after the other.
    - A handler returns its HTTP response together with the database it
      leaves behind; an exception caught by the handler's [try]/[catch] is the
      500 response, with the writes made before the throw kept.
    - [save] runs the model's pre-save hook and the validators of the paths
      written.  Modelled are: for a new order, the validators of its lines,
      its pricing and its two addresses, and the unique index of
      [orderId]; for a product, [min: 0] of [inventory.quantity]; for a
      cart, [min: 1] of a line's quantity; for a new payment, the [gateway]
      enum; for a refund, its amount and [maxlength] of its reason; for a
      review, its rating, [maxlength] of its comment and the bounds of
      [ratings.average].  Stored documents satisfy the validators of the
      paths that an operation does not write.
    - The confirmation e-mail of an order is sent inside its own
      [try]/[catch] and touches neither the response nor the database. *)

From Stdlib Require Import ZArith QArith Qround SpecFloat String Ascii List Bool Lia.
From stdpp Require Import base gmap strings list pretty.
Import ListNotations.

(** ** Responses *)

Inductive Response (A : Type) : Type :=
| Success (code : nat) (message : string) (data : A)
| Failure (code : nat) (message : string).
Arguments Success {A} code message data.
Arguments Failure {A} code message.

Definition isSuccess {A} (r : Response A) : bool :=
  match r with Success _ _ _ => true | Failure _ _ => false end.

(** An optional field that holds a value (a [Date] or an object is always
    truthy in JavaScript). *)
Definition isSet {A} (x : option A) : bool :=
  match x with Some _ => true | None => false end.

(** ** Numbers *)

(** A JavaScript [Number] is a binary64 floating-point value: a signed zero,
    an infinity, [NaN], or a finite value [m * 2^e].  Arithmetic rounds to
    nearest, ties to even; a comparison with [NaN] is false. *)
Definition Num := spec_float.

Module Num.
Definition add : Num → Num → Num := SFadd 53 1024.
Definition sub : Num → Num → Num := SFsub 53 1024.
Definition mul : Num → Num → Num := SFmul 53 1024.
Definition div : Num → Num → Num := SFdiv 53 1024.
(** [x < y], [x <= y] and [x === y]. *)
Definition ltb : Num → Num → bool := SFltb.
Definition leb : Num → Num → bool := SFleb.
Definition eqb : Num → Num → bool := SFeqb.
(** The Number nearest to an integer, and the value of a decimal literal
    [m / d], such as [0.075]. *)
Definition ofZ (z : Z) : Num := binary_normalize 53 1024 z 0 false.
Definition decimal (m : Z) (d : positive) : Num := div (ofZ m) (ofZ (Z.pos d)).
Definition isNaN (x : Num) : bool :=
  match x with S754_nan => true | _ => false end.
(** The magnitude of a finite value [m * 2^e], as an exact rational. *)
Definition magnitude (m : positive) (e : Z) : Q :=
  match e with
  | Z0 => inject_Z (Z.pos m)
  | Z.pos p => inject_Z (Z.pos m * 2 ^ Z.pos p)
  | Z.neg p => Z.pos m # (2 ^ p)
  end.
(** The exact value of a finite Number. *)
Definition value (x : Num) : option Q :=
  match x with
  | S754_zero _ => Some 0%Q
  | S754_finite s m e =>
      Some (if s then Qopp (magnitude m e) else magnitude m e)
  | _ => None
  end.
End Num.

(** [Number::toString] of a finite integer [x >= 10^21] whose value is [v]
    and has [n] digits: the fewest digits [s] with which [s * 10^(n-k)] is
    again [x] (the nearer one when two numbers of [k] digits are, the even
    one when they are equally near), tried from [k] digits upwards. *)
Fixpoint shortestDigits (fuel : nat) (k : Z) (x : Num) (v : Z) (n : Z)
  : option (Z * Z) :=
  match fuel with
  | O => None
  | S fuel' =>
      let p := (10 ^ (n - k))%Z in
      let lo := (v / p)%Z in
      let hi := (lo + 1)%Z in
      let okLo := Num.eqb (Num.ofZ (lo * p)) x in
      let okHi := Num.eqb (Num.ofZ (hi * p)) x in
      let pick (s : Z) :=
        if (s =? 10 ^ k)%Z then Some (10 ^ (k - 1), n + 1)%Z else Some (s, n) in
      if okLo && okHi then
        let dLo := (v - lo * p)%Z in
        let dHi := (hi * p - v)%Z in
        if (dLo <? dHi)%Z then pick lo
        else if (dHi <? dLo)%Z then pick hi
        else if Z.even lo then pick lo else pick hi
      else if okLo then pick lo
      else if okHi then pick hi
      else shortestDigits fuel' (k + 1) x v n
  end.

(** The exponential notation [d.ddde+N] of such a Number. *)
Definition exponential (x : Num) (v : Z) : string :=
  let n := Z.of_nat (String.length (pretty v)) in
  match shortestDigits 17 1 x v n with
  | Some (s, n') =>
      match pretty s with
      | String d EmptyString => String d "e+" +:+ pretty (n' - 1)%Z
      | String d rest => String d ("." +:+ rest) +:+ "e+" +:+ pretty (n' - 1)%Z
      | EmptyString => ""
      end
  | None => ""
  end.

(** Two decimals of a non-negative rational: the integer nearest to
    [100 v], the larger one on a tie. *)
Definition fixed2 (v : Q) : string :=
  let n := Qfloor (v * 100 + (1 # 2)) in
  pretty (n / 100)%Z +:+ "."
  +:+ (if (n mod 100 <? 10)%Z then "0" else "") +:+ pretty (n mod 100)%Z.

(** [x.toFixed(2)]: the sign, then two decimals of the exact magnitude, or
    [ToString] of a magnitude from 10^21 on. *)
Definition toFixed2 (x : Num) : string :=
  match x with
  | S754_nan => "NaN"
  | S754_infinity s => if s then "-Infinity" else "Infinity"
  | S754_zero _ => "0.00"
  | S754_finite s m e =>
      let v := Num.magnitude m e in
      (if s then "-" else "")
      +:+ (if Qle_bool (inject_Z (10 ^ 21)) v
           then exponential (S754_finite false m e) (Qfloor v)
           else fixed2 v)
  end.

(** ** Patterns *)

(** Regular expressions, matched against a whole string by derivatives. *)
Inductive Regex :=
| Empty
| Class (accepts : ascii → bool)
| Seq (r s : Regex)
| Alt (r s : Regex)
| Star (r : Regex)
| Never.

Fixpoint nullable (r : Regex) : bool :=
  match r with
  | Empty => true
  | Class _ => false
  | Seq r s => nullable r && nullable s
  | Alt r s => nullable r || nullable s
  | Star _ => true
  | Never => false
  end.

Fixpoint derive (c : ascii) (r : Regex) : Regex :=
  match r with
  | Empty => Never
  | Class accepts => if accepts c then Empty else Never
  | Seq r s =>
      if nullable r then Alt (Seq (derive c r) s) (derive c s)
      else Seq (derive c r) s
  | Alt r s => Alt (derive c r) (derive c s)
  | Star r => Seq (derive c r) (Star r)
  | Never => Never
  end.

(** [/^r$/.test(s)]. *)
Definition test (r : Regex) (s : string) : bool :=
  nullable (fold_left (λ r c, derive c r) (list_ascii_of_string s) r).

Definition Plus (r : Regex) : Regex := Seq r (Star r).
Definition Opt (r : Regex) : Regex := Alt Empty r.
Definition Char (c : ascii) : Regex := Class (Ascii.eqb c).

(** [\w]. *)
Definition wordChar (c : ascii) : bool :=
  let n := N_of_ascii c in
  ((48 <=? n)%N && (n <=? 57)%N) || ((65 <=? n)%N && (n <=? 90)%N)
  || ((97 <=? n)%N && (n <=? 122)%N) || (n =? 95)%N.

(** [/^\w+([.-]?\w+)*@\w+([.-]?\w+)*(\.\w{2,3})+$/], the [match] validator
    of the e-mail paths of the Order schema. *)
Definition emailPattern : Regex :=
  let word := Class wordChar in
  let name :=
    Seq (Plus word)
      (Star (Seq (Opt (Class (λ c, Ascii.eqb c "." || Ascii.eqb c "-")))
               (Plus word))) in
  Seq name
    (Seq (Char "@")
       (Seq name
          (Plus (Seq (Char ".") (Seq word (Seq word (Opt word))))))).

(** How a model method or a [save] fails: it throws an [Error] with a
    message, or the validator of a path refuses the document. *)
Inductive Rejection :=
| Thrown (message : string)
| Invalid (path : string).

(** ** Data model *)

Module Inventory.
Record t := mk { quantity : Z; trackInventory : bool }.
End Inventory.

(** The fields of the [Product] model that the order, cart and payment
    routes read and write.  Of [status] only [active] is ever tested. *)
Module Product.
Inductive Status := active | inactive | draft | archived.
Record t := mk {
  title : string;
  price : Num;
  status : Status;
  inventory : Inventory.t
}.
Definition setQuantity (q : Z) (p : t) : t :=
  mk (title p) (price p) (status p)
     (Inventory.mk q (Inventory.trackInventory (inventory p))).
End Product.

#[global] Instance product_status_eq_dec : EqDecision Product.Status.
Proof. solve_decision. Defined.

(** A field of an address as Mongoose's [String] cast leaves it: absent
    ([undefined] or [null]), a string (a number or a boolean is cast to the
    string it prints as), or a value the cast refuses (an array or an
    object). *)
Inductive Field :=
| Absent
| Text (s : string)
| Uncastable.

Module Address.
Record t := mk {
  firstName : Field;
  lastName : Field;
  email : Field;
  phone : Field;
  address : Field;
  city : Field;
  state : Field;
  postalCode : Field
}.
End Address.

(** The validators of a [String] path: [required] refuses an absent value
    and the empty string, [maxlength] and [match] let an absent value pass,
    and [match] the empty string too.  A value that could not be cast fails
    the validation of its path. *)
Definition required (f : Field) : bool :=
  match f with
  | Text s => negb (String.eqb s "")
  | Absent | Uncastable => false
  end.

Definition maxlength (n : nat) (f : Field) : bool :=
  match f with
  | Text s => (String.length s <=? n)%nat
  | Absent => true
  | Uncastable => false
  end.

Definition matches (r : Regex) (f : Field) : bool :=
  match f with
  | Text s => String.eqb s "" || test r s
  | Absent => true
  | Uncastable => false
  end.

(** The [shippingAddress] and [billingAddress] paths of the Order schema. *)
Definition shippingAddressValid (a : Address.t) : bool :=
  required (Address.firstName a) && maxlength 50 (Address.firstName a)
  && required (Address.lastName a) && maxlength 50 (Address.lastName a)
  && required (Address.email a) && matches emailPattern (Address.email a)
  && required (Address.phone a) && maxlength 15 (Address.phone a)
  && required (Address.address a) && maxlength 200 (Address.address a)
  && required (Address.city a) && maxlength 50 (Address.city a)
  && required (Address.state a) && maxlength 50 (Address.state a)
  && maxlength 10 (Address.postalCode a).

Definition billingAddressValid (a : Address.t) : bool :=
  maxlength 50 (Address.firstName a)
  && maxlength 50 (Address.lastName a)
  && matches emailPattern (Address.email a)
  && maxlength 15 (Address.phone a)
  && maxlength 200 (Address.address a)
  && maxlength 50 (Address.city a)
  && maxlength 50 (Address.state a)
  && maxlength 10 (Address.postalCode a).

(** [body('paymentMethod').isIn([...])] and the order schema's enum. *)
Inductive Method := card | bank_transfer | flutterwave | paystack.

#[global] Instance method_eq_dec : EqDecision Method.
Proof. solve_decision. Defined.

Definition methodName (m : Method) : string :=
  match m with
  | card => "card"
  | bank_transfer => "bank_transfer"
  | flutterwave => "flutterwave"
  | paystack => "paystack"
  end.

Module OrderItem.
Record t := mk {
  product : nat;
  title : string;
  price : Num;
  quantity : Z;
  itemTotal : Num
}.
End OrderItem.

Module Pricing.
Record t := mk { subtotal : Num; tax : Num; shipping : Num; total : Num }.
End Pricing.

Module Order.
Inductive Status := pending | processing | shipped | delivered | cancelled.
Record t := mk {
  orderId : string;
  user : nat;
  items : list OrderItem.t;
  pricing : Pricing.t;
  shippingAddress : Address.t;
  billingAddress : Address.t;
  paymentMethod : Method;
  status : Status;
  trackingNumber : option string;
  notes : option string;
  cancellationReason : option string;
  cancelledAt : option Z;
  shippedAt : option Z;
  deliveredAt : option Z
}.
Definition setStatus (s : Status) (o : t) : t :=
  mk (orderId o) (user o) (items o) (pricing o) (shippingAddress o)
     (billingAddress o) (paymentMethod o) s (trackingNumber o) (notes o)
     (cancellationReason o) (cancelledAt o) (shippedAt o) (deliveredAt o).
Definition setCancellationReason (x : option string) (o : t) : t :=
  mk (orderId o) (user o) (items o) (pricing o) (shippingAddress o)
     (billingAddress o) (paymentMethod o) (status o) (trackingNumber o)
     (notes o) x (cancelledAt o) (shippedAt o) (deliveredAt o).
Definition setCancelledAt (x : option Z) (o : t) : t :=
  mk (orderId o) (user o) (items o) (pricing o) (shippingAddress o)
     (billingAddress o) (paymentMethod o) (status o) (trackingNumber o)
     (notes o) (cancellationReason o) x (shippedAt o) (deliveredAt o).
Definition setShippedAt (x : option Z) (o : t) : t :=
  mk (orderId o) (user o) (items o) (pricing o) (shippingAddress o)
     (billingAddress o) (paymentMethod o) (status o) (trackingNumber o)
     (notes o) (cancellationReason o) (cancelledAt o) x (deliveredAt o).
Definition setDeliveredAt (x : option Z) (o : t) : t :=
  mk (orderId o) (user o) (items o) (pricing o) (shippingAddress o)
     (billingAddress o) (paymentMethod o) (status o) (trackingNumber o)
     (notes o) (cancellationReason o) (cancelledAt o) (shippedAt o) x.
End Order.

#[global] Instance order_status_eq_dec : EqDecision Order.Status.
Proof. solve_decision. Defined.

(** [orderSchema.pre('save')]: when the status was modified, the first
    arrival at [shipped], [delivered] or [cancelled] is time-stamped. *)
Definition orderPreSave (now : Z) (statusModified : bool) (o : Order.t) : Order.t :=
  if statusModified then
    if bool_decide (Order.status o = Order.shipped) && negb (isSet (Order.shippedAt o))
    then Order.setShippedAt (Some now) o
    else if bool_decide (Order.status o = Order.delivered) && negb (isSet (Order.deliveredAt o))
    then Order.setDeliveredAt (Some now) o
    else if bool_decide (Order.status o = Order.cancelled) && negb (isSet (Order.cancelledAt o))
    then Order.setCancelledAt (Some now) o
    else o
  else o.

Module CartItem.
Record t := mk { product : nat; quantity : Z }.
End CartItem.

Module Cart.
Record t := mk { items : list CartItem.t; lastUpdated : option Z }.
End Cart.

(** What the handlers read of a Flutterwave charge ([data] of the webhook
    payload and of the verification response).  The correlation reference
    is [None] when the payload has none or has [null]; [amount] is the Number
    a comparison coerces it to, [NaN] when it is missing. *)
Module FlwData.
Record t := mk {
  status : string;
  tx_ref : option string;
  id : string;
  amount : Num;
  currency : string
}.
End FlwData.

(** What the handlers read of a Paystack transaction, with the same reading
    of [reference] and [amount]; [amount] is in kobo. *)
Module PaystackData.
Record t := mk {
  status : string;
  reference : option string;
  id : string;
  amount : Num;
  currency : string
}.
End PaystackData.

(** Values stored under [metadata] (a [Mixed] field). *)
Inductive MetaValue :=
| MNum (x : Num)
| MStr (s : string)
| MFlutterwave (d : FlwData.t)
| MPaystack (d : PaystackData.t).

Module Refund.
Record t := mk {
  amount : Num;
  reason : string;
  processedBy : option nat;
  refundedAt : Z
}.
End Refund.

Module Fees.
Record t := mk { gateway : Num; processing : Num; total : Num }.
End Fees.

Module PaymentError.
Record t := mk { code : option string; message : option string }.
End PaymentError.

(** The [Payment] model.  [cardDetails], [webhookData], [ipAddress] and
    [userAgent] are written by none of the modelled operations and are left
    out.  [method] and [gateway] are strings: the initiation route stores the
    request's method name as the gateway. *)
Module Payment.
Inductive Status :=
| pending | processing | completed | failed | cancelled | refunded
| partially_refunded.
Record t := mk {
  order : nat;
  user : nat;
  amount : Num;
  currency : string;
  method : string;
  gateway : string;
  gatewayReference : option string;
  gatewayTransactionId : option string;
  status : Status;
  metadata : gmap string MetaValue;
  refunds : list Refund.t;
  fees : Fees.t;
  error : option PaymentError.t;
  initiatedAt : Z;
  completedAt : option Z;
  failedAt : option Z
}.
Definition setGatewayReference (x : option string) (p : t) : t :=
  mk (order p) (user p) (amount p) (currency p) (method p) (gateway p) x
     (gatewayTransactionId p) (status p) (metadata p) (refunds p) (fees p)
     (error p) (initiatedAt p) (completedAt p) (failedAt p).
Definition setGatewayTransactionId (x : option string) (p : t) : t :=
  mk (order p) (user p) (amount p) (currency p) (method p) (gateway p)
     (gatewayReference p) x (status p) (metadata p) (refunds p) (fees p)
     (error p) (initiatedAt p) (completedAt p) (failedAt p).
Definition setStatus (x : Status) (p : t) : t :=
  mk (order p) (user p) (amount p) (currency p) (method p) (gateway p)
     (gatewayReference p) (gatewayTransactionId p) x (metadata p)
     (refunds p) (fees p) (error p) (initiatedAt p) (completedAt p)
     (failedAt p).
Definition setMetadata (x : gmap string MetaValue) (p : t) : t :=
  mk (order p) (user p) (amount p) (currency p) (method p) (gateway p)
     (gatewayReference p) (gatewayTransactionId p) (status p) x
     (refunds p) (fees p) (error p) (initiatedAt p) (completedAt p)
     (failedAt p).
Definition setRefunds (x : list Refund.t) (p : t) : t :=
  mk (order p) (user p) (amount p) (currency p) (method p) (gateway p)
     (gatewayReference p) (gatewayTransactionId p) (status p) (metadata p)
     x (fees p) (error p) (initiatedAt p) (completedAt p) (failedAt p).
Definition setFees (x : Fees.t) (p : t) : t :=
  mk (order p) (user p) (amount p) (currency p) (method p) (gateway p)
     (gatewayReference p) (gatewayTransactionId p) (status p) (metadata p)
     (refunds p) x (error p) (initiatedAt p) (completedAt p) (failedAt p).
Definition setError (x : option PaymentError.t) (p : t) : t :=
  mk (order p) (user p) (amount p) (currency p) (method p) (gateway p)
     (gatewayReference p) (gatewayTransactionId p) (status p) (metadata p)
     (refunds p) (fees p) x (initiatedAt p) (completedAt p) (failedAt p).
Definition setCompletedAt (x : option Z) (p : t) : t :=
  mk (order p) (user p) (amount p) (currency p) (method p) (gateway p)
     (gatewayReference p) (gatewayTransactionId p) (status p) (metadata p)
     (refunds p) (fees p) (error p) (initiatedAt p) x (failedAt p).
Definition setFailedAt (x : option Z) (p : t) : t :=
  mk (order p) (user p) (amount p) (currency p) (method p) (gateway p)
     (gatewayReference p) (gatewayTransactionId p) (status p) (metadata p)
     (refunds p) (fees p) (error p) (initiatedAt p) (completedAt p) x.
End Payment.

#[global] Instance payment_status_eq_dec : EqDecision Payment.Status.
Proof. solve_decision. Defined.

(** The database. *)
Record Db := mkDb {
  products : gmap nat Product.t;
  orders : list Order.t;
  payments : list Payment.t;
  carts : gmap nat Cart.t
}.

Definition setProducts (x : gmap nat Product.t) (db : Db) : Db :=
  mkDb x (orders db) (payments db) (carts db).
Definition setOrders (x : list Order.t) (db : Db) : Db :=
  mkDb (products db) x (payments db) (carts db).
Definition setPayments (x : list Payment.t) (db : Db) : Db :=
  mkDb (products db) (orders db) x (carts db).
Definition setCarts (x : gmap nat Cart.t) (db : Db) : Db :=
  mkDb (products db) (orders db) (payments db) x.

(** ** Methods of the Product model *)

Module ProductModel.

(** The virtual [isAvailable]. *)
Definition isAvailable (p : Product.t) : bool :=
  bool_decide (Product.status p = Product.active)
  && (negb (Inventory.trackInventory (Product.inventory p))
      || (0 <? Inventory.quantity (Product.inventory p))%Z).

(** [save] of a product whose inventory was touched: the validator
    [min: 0] of [inventory.quantity]. *)
Definition save (p : Product.t) : Rejection + Product.t :=
  if (Inventory.quantity (Product.inventory p) <? 0)%Z
  then inl (Invalid "inventory.quantity") else inr p.

(** The method [updateInventory]. *)
Definition updateInventory (quantityChange : Z) (p : Product.t)
  : Rejection + Product.t :=
  if Inventory.trackInventory (Product.inventory p) then
    let p1 :=
      Product.setQuantity
        (Inventory.quantity (Product.inventory p) + quantityChange)%Z p in
    if (Inventory.quantity (Product.inventory p1) <? 0)%Z
    then inl (Thrown "Insufficient inventory")
    else save p1
  else save p.

End ProductModel.

(** ** Order routes *)

Module ReqItem.
Record t := mk { productId : nat; quantity : Z }.
End ReqItem.

Module CreateOrderBody.
Record t := mk {
  items : list ReqItem.t;
  shippingAddress : Address.t;
  billingAddress : option Address.t;
  paymentMethod : Method
}.
End CreateOrderBody.

(** The three checks made on one requested item; the error is the message of
    the 400 response. *)
Definition checkItem (ps : gmap nat Product.t) (item : ReqItem.t)
  : string + Product.t :=
  match ps !! ReqItem.productId item with
  | None => inl ("Product " +:+ pretty (ReqItem.productId item) +:+ " not found")
  | Some product =>
      if negb (bool_decide (Product.status product = Product.active)) then
        inl ("Product " +:+ Product.title product +:+ " is not available")
      else if Inventory.trackInventory (Product.inventory product)
              && (Inventory.quantity (Product.inventory product)
                  <? ReqItem.quantity item)%Z then
        inl ("Insufficient inventory for " +:+ Product.title product
             +:+ ". Available: "
             +:+ pretty (Inventory.quantity (Product.inventory product)))
      else inr product
  end.

Definition orderItemOf (product : Product.t) (item : ReqItem.t) : OrderItem.t :=
  OrderItem.mk (ReqItem.productId item) (Product.title product)
    (Product.price product) (ReqItem.quantity item)
    (Num.mul (Product.price product) (Num.ofZ (ReqItem.quantity item))).

(** The validation loop: returns at the first item that fails, otherwise
    accumulates [subtotal] and [orderItems]. *)
Fixpoint validateItems (ps : gmap nat Product.t) (items : list ReqItem.t)
    (subtotal : Num) (orderItems : list OrderItem.t)
  : string + (Num * list OrderItem.t) :=
  match items with
  | [] => inr (subtotal, orderItems)
  | item :: rest =>
      match checkItem ps item with
      | inl message => inl message
      | inr product =>
          let line := orderItemOf product item in
          validateItems ps rest (Num.add subtotal (OrderItem.itemTotal line))
            (orderItems ++ [line])
      end
  end.

(** The inventory loop after the order is saved.  Each [product.save()] is a
    write of its own; [false] reports a throw: [findById] returned [null], on
    which [product.inventory] throws, or [save] refused a quantity that went
    below zero.  The writes made before the throw stay. *)
Fixpoint updateInventory (ps : gmap nat Product.t) (items : list ReqItem.t)
  : gmap nat Product.t * bool :=
  match items with
  | [] => (ps, true)
  | item :: rest =>
      match ps !! ReqItem.productId item with
      | None => (ps, false)
      | Some product =>
          if Inventory.trackInventory (Product.inventory product) then
            match ProductModel.save
                    (Product.setQuantity
                       (Inventory.quantity (Product.inventory product)
                        - ReqItem.quantity item)%Z product) with
            | inr saved =>
                updateInventory (<[ReqItem.productId item := saved]> ps) rest
            | inl _ => (ps, false)
            end
          else updateInventory ps rest
      end
  end.

(** [subtotal * 0.075], [subtotal > 50000 ? 0 : 2500] and
    [subtotal + tax + shipping]. *)
Definition computePricing (subtotal : Num) : Pricing.t :=
  let tax := Num.mul subtotal (Num.decimal 75 1000) in
  let shipping :=
    if Num.ltb (Num.ofZ 50000) subtotal then Num.ofZ 0 else Num.ofZ 2500 in
  Pricing.mk subtotal tax shipping (Num.add (Num.add subtotal tax) shipping).

(** A Number path with the validator [min]: the value can be cast, which
    [NaN] cannot, and is not below [min]. *)
Definition numberAtLeast (min : Z) (x : Num) : bool :=
  Num.leb (Num.ofZ min) x.

(** The validators of one element of [items] and of [pricing]. *)
Definition orderItemAccepted (line : OrderItem.t) : bool :=
  negb (String.eqb (OrderItem.title line) "")
  && numberAtLeast 0 (OrderItem.price line)
  && (1 <=? OrderItem.quantity line)%Z
  && numberAtLeast 0 (OrderItem.itemTotal line).

Definition pricingAccepted (p : Pricing.t) : bool :=
  numberAtLeast 0 (Pricing.subtotal p)
  && numberAtLeast 0 (Pricing.tax p)
  && numberAtLeast 0 (Pricing.shipping p)
  && numberAtLeast 0 (Pricing.total p).

(** What [order.save()] validates of a new order: its lines, its pricing
    and its two addresses.  The unique index of [orderId] is checked on the
    insert. *)
Definition orderSchemaAccepts (o : Order.t) : bool :=
  forallb orderItemAccepted (Order.items o)
  && pricingAccepted (Order.pricing o)
  && shippingAddressValid (Order.shippingAddress o)
  && billingAddressValid (Order.billingAddress o).

Definition orderIdInUse (orderId : string) (os : list Order.t) : bool :=
  existsb (λ o, String.eqb (Order.orderId o) orderId) os.

(** [`ORD-${Date.now()}-${...}`], with the random suffix [rnd]. *)
Definition orderIdOf (now : Z) (rnd : string) : string :=
  "ORD-" +:+ pretty now +:+ "-" +:+ rnd.

(** [POST /api/orders].  A throw of [order.save()] leaves the database as
    it was; a throw in the inventory loop leaves the order and the writes
    made so far. *)
Definition createOrder (now : Z) (rnd : string) (user : nat)
    (body : CreateOrderBody.t) (db : Db) : Response Order.t * Db :=
  match validateItems (products db) (CreateOrderBody.items body)
          (Num.ofZ 0) [] with
  | inl message => (Failure 400 message, db)
  | inr (subtotal, orderItems) =>
      let order :=
        Order.mk (orderIdOf now rnd) user orderItems
          (computePricing subtotal)
          (CreateOrderBody.shippingAddress body)
          (match CreateOrderBody.billingAddress body with
           | Some billing => billing
           | None => CreateOrderBody.shippingAddress body
           end)
          (CreateOrderBody.paymentMethod body) Order.pending
          None None None None None None in
      if negb (orderSchemaAccepts order)
         || orderIdInUse (Order.orderId order) (orders db) then
        (Failure 500 "Server error creating order", db)
      else
        let db1 := setOrders (orders db ++ [orderPreSave now true order]) db in
        let '(ps, ok) :=
          updateInventory (products db1) (CreateOrderBody.items body) in
        let db2 := setProducts ps db1 in
        if ok then
          (Success 201 "Order created successfully"
             (orderPreSave now true order),
           setCarts (<[user := Cart.mk [] (Some now)]> (carts db2)) db2)
        else (Failure 500 "Server error creating order", db2)
  end.

(** A string operand of [||] or [if]: the empty string and [undefined] are
    falsy. *)
Definition truthy (x : option string) : bool :=
  match x with
  | Some s => negb (String.eqb s "")
  | None => false
  end.

(** [order.save()] on a stored order [old]: [isModified('status')] compares
    with the stored value, then the pre-save hook runs. *)
Definition savedOrder (now : Z) (old o : Order.t) : Order.t :=
  orderPreSave now (negb (bool_decide (Order.status old = Order.status o))) o.

(** The restore loop of the cancel route; a line whose product is gone is
    skipped. *)
Fixpoint restoreInventory (ps : gmap nat Product.t) (items : list OrderItem.t)
  : gmap nat Product.t :=
  match items with
  | [] => ps
  | item :: rest =>
      match ps !! OrderItem.product item with
      | Some product =>
          if Inventory.trackInventory (Product.inventory product) then
            restoreInventory
              (<[OrderItem.product item :=
                   Product.setQuantity
                     (Inventory.quantity (Product.inventory product)
                      + OrderItem.quantity item)%Z product]> ps)
              rest
          else restoreInventory ps rest
      | None => restoreInventory ps rest
      end
  end.

Definition cancellable (s : Order.Status) : bool :=
  bool_decide (s = Order.pending) || bool_decide (s = Order.processing).

(** [PUT /api/orders/:id/cancel]; [user] is [req.user._id]. *)
Definition cancelOrder (now : Z) (user : nat) (id : nat)
    (reason : option string) (db : Db) : Response Order.t * Db :=
  match orders db !! id with
  | None => (Failure 404 "Order not found", db)
  | Some order =>
      if negb (bool_decide (Order.user order = user)) then
        (Failure 403 "Access denied", db)
      else if negb (cancellable (Order.status order)) then
        (Failure 400 "Order cannot be cancelled at this stage", db)
      else
        let ps := restoreInventory (products db) (Order.items order) in
        let order1 := Order.setStatus Order.cancelled order in
        let order2 :=
          Order.setCancellationReason
            (Some (if truthy reason then default "" reason
                   else "Cancelled by user")) order1 in
        let order3 := Order.setCancelledAt (Some now) order2 in
        let saved := savedOrder now order order3 in
        (Success 200 "Order cancelled successfully" saved,
         setOrders (<[id := saved]> (orders db)) (setProducts ps db))
  end.


(** ** The Payment model's hooks and methods *)

(** [paymentSchema.pre('save')]. *)
Definition paymentPreSave (now : Z) (statusModified : bool) (p : Payment.t)
  : Payment.t :=
  let p1 :=
    Payment.setFees
      (Fees.mk (Fees.gateway (Payment.fees p)) (Fees.processing (Payment.fees p))
         (Num.add (Fees.gateway (Payment.fees p))
            (Fees.processing (Payment.fees p))))
      p in
  if statusModified then
    if bool_decide (Payment.status p1 = Payment.completed)
       && negb (isSet (Payment.completedAt p1))
    then Payment.setCompletedAt (Some now) p1
    else if (bool_decide (Payment.status p1 = Payment.failed)
             || bool_decide (Payment.status p1 = Payment.cancelled))
            && negb (isSet (Payment.failedAt p1))
    then Payment.setFailedAt (Some now) p1
    else p1
  else p1.

(** [payment.save()] on a stored payment [old]. *)
Definition savedPayment (now : Z) (old p : Payment.t) : Payment.t :=
  paymentPreSave now (negb (bool_decide (Payment.status old = Payment.status p))) p.

(** The schema's [gateway] enum, checked when a document is saved. *)
Definition gatewayEnum : list string :=
  ["flutterwave"; "paystack"; "paypal"; "stripe"; "manual"].

Definition totalRefunded (p : Payment.t) : Num :=
  fold_left (λ total refund, Num.add total (Refund.amount refund))
    (Payment.refunds p) (Num.ofZ 0).

Definition netAmount (p : Payment.t) : Num :=
  Num.sub (Num.sub (Payment.amount p) (Fees.total (Payment.fees p)))
    (totalRefunded p).

Definition isRefundable (p : Payment.t) : bool :=
  (bool_decide (Payment.status p = Payment.completed)
   || bool_decide (Payment.status p = Payment.partially_refunded))
  && Num.ltb (totalRefunded p) (Payment.amount p).

Definition markCompleted (now : Z) (gatewayTransactionId : option string)
    (metadata : gmap string MetaValue) (p : Payment.t) : Payment.t :=
  let p1 := Payment.setCompletedAt (Some now)
              (Payment.setStatus Payment.completed p) in
  let p2 :=
    if truthy gatewayTransactionId
    then Payment.setGatewayTransactionId gatewayTransactionId p1 else p1 in
  let p3 :=
    if bool_decide (0 < size metadata)
    then Payment.setMetadata (metadata ∪ Payment.metadata p2) p2 else p2 in
  savedPayment now p p3.

Definition markFailed (now : Z) (errorCode errorMessage : option string)
    (p : Payment.t) : Payment.t :=
  let p1 := Payment.setFailedAt (Some now) (Payment.setStatus Payment.failed p) in
  let p2 :=
    if truthy errorCode || truthy errorMessage
    then Payment.setError (Some (PaymentError.mk errorCode errorMessage)) p1
    else p1 in
  savedPayment now p p2.

(** [addRefund].  The two guards throw; the status test runs after the
    push, where the virtual [totalRefunded] already counts the new refund;
    the closing [save] validates the refund pushed, at position [i] of
    [refunds]: an [amount] that is [NaN] cannot be cast, and the [reason] is
    held to 500 characters.  A throw or a refused [save] leaves the stored
    document as it was. *)
Definition addRefund (now : Z) (amount : Num) (reason : string)
    (processedBy : option nat) (p : Payment.t) : Rejection + Payment.t :=
  if Num.leb amount (Num.ofZ 0) then
    inl (Thrown "Refund amount must be greater than 0")
  else if Num.ltb (Payment.amount p) (Num.add (totalRefunded p) amount) then
    inl (Thrown "Total refund amount cannot exceed payment amount")
  else
    let i := length (Payment.refunds p) in
    let p1 :=
      Payment.setRefunds
        (Payment.refunds p ++ [Refund.mk amount reason processedBy now]) p in
    let p2 :=
      if Num.leb (Payment.amount p1) (Num.add (totalRefunded p1) amount)
      then Payment.setStatus Payment.refunded p1
      else Payment.setStatus Payment.partially_refunded p1 in
    if Num.isNaN amount then
      inl (Invalid ("refunds." +:+ pretty i +:+ ".amount"))
    else if negb (String.length reason <=? 500)%nat then
      inl (Invalid ("refunds." +:+ pretty i +:+ ".reason"))
    else inr (savedPayment now p p2).

(** ** Payment routes *)

Module PaymentData.
Record t := mk {
  paymentId : nat;
  amount : Num;
  currency : string;
  orderId : string;
  reference : option string
}.
End PaymentData.

(** The filter of the duplicate check:
    [{ order, status: { $in: ['pending', 'processing', 'completed'] } }]. *)
Definition blocksInitiation (orderId : nat) (p : Payment.t) : Prop :=
  Payment.order p = orderId
  ∧ Payment.status p
    ∈ [Payment.pending; Payment.processing; Payment.completed].

#[global] Instance blocksInitiation_dec orderId p :
  Decision (blocksInitiation orderId p).
Proof. unfold blocksInitiation. apply _. Defined.

(** [POST /api/payments/initiate].  The gateway configuration returned to
    the client is reduced to the correlation reference it carries. *)
Definition initiatePayment (now : Z) (user : nat) (orderId : nat)
    (method : Method) (db : Db) : Response PaymentData.t * Db :=
  match orders db !! orderId with
  | None => (Failure 404 "Order not found", db)
  | Some order =>
      if negb (bool_decide (Order.user order = user)) then
        (Failure 403 "Access denied", db)
      else if negb (bool_decide (Order.status order = Order.pending)) then
        (Failure 400 "Order is not eligible for payment", db)
      else if isSet (list_find (blocksInitiation orderId) (payments db)) then
        (Failure 400 "Payment already initiated for this order", db)
      else
        let payment :=
          Payment.mk orderId user (Pricing.total (Order.pricing order)) "NGN"
            (methodName method)
            (if bool_decide (method = card) then "flutterwave"
             else methodName method)
            None None Payment.pending ∅ []
            (Fees.mk (Num.ofZ 0) (Num.ofZ 0) (Num.ofZ 0)) None now None None in
        if negb (bool_decide (Payment.gateway payment ∈ gatewayEnum)) then
          (Failure 500 "Server error initiating payment", db)
        else
          let paymentId := length (payments db) in
          let created := paymentPreSave now true payment in
          let final :=
            match method with
            | flutterwave | paystack =>
                savedPayment now created
                  (Payment.setGatewayReference
                     (Some ("shopease-" +:+ pretty orderId +:+ "-" +:+ pretty now))
                     created)
            | bank_transfer =>
                savedPayment now created
                  (Payment.setStatus Payment.processing
                     (Payment.setGatewayReference
                        (Some ("TXN-" +:+ pretty orderId +:+ "-" +:+ pretty now))
                        created))
            | card => created
            end in
          (Success 200 "Payment initiated successfully"
             (PaymentData.mk paymentId (Payment.amount created)
                (Payment.currency created) (Order.orderId order)
                (Payment.gatewayReference final)),
           setPayments (payments db ++ [final]) db)
  end.

(** An HTTP call to a provider: it throws ([Unreachable]) or answers. *)
Inductive GatewayReply (A : Type) : Type :=
| Unreachable
| Replied (data : A).
Arguments Unreachable {A}.
Arguments Replied {A} data.

(** [response.data.data] of Paystack's verification call, as the helper
    reads it: a [status] flag and a nested [data] that may be absent. *)
Module PaystackVerify.
Record t := mk { status : bool; data : option PaystackData.t }.
End PaystackVerify.

(** The providers, as functions of the stored correlation reference. *)
Record Gateways := mkGateways {
  flutterwaveVerify : option string → GatewayReply FlwData.t;
  paystackVerify : option string → GatewayReply PaystackVerify.t
}.

Module VerificationResult.
Record t := mk {
  verified : bool;
  message : string;
  transactionId : option string;
  metadata : gmap string MetaValue
}.
End VerificationResult.

Definition verifyFlutterwavePayment (world : Gateways) (payment : Payment.t)
  : VerificationResult.t :=
  match flutterwaveVerify world (Payment.gatewayReference payment) with
  | Replied data =>
      if String.eqb (FlwData.status data) "successful"
         && Num.leb (Payment.amount payment) (FlwData.amount data)
      then
        VerificationResult.mk true "" (Some (FlwData.id data))
          (<["flutterwaveData" := MFlutterwave data]>
             (<["amount" := MNum (FlwData.amount data)]>
                (<["currency" := MStr (FlwData.currency data)]> ∅)))
      else VerificationResult.mk false "Payment verification failed" None ∅
  | Unreachable =>
      VerificationResult.mk false "Payment verification service unavailable"
        None ∅
  end.

Definition verifyPaystackPayment (world : Gateways) (payment : Payment.t)
  : VerificationResult.t :=
  match paystackVerify world (Payment.gatewayReference payment) with
  | Replied data =>
      if PaystackVerify.status data then
        match PaystackVerify.data data with
        | Some tx =>
            if String.eqb (PaystackData.status tx) "success"
               && Num.leb (Payment.amount payment)
                    (Num.div (PaystackData.amount tx) (Num.ofZ 100))
            then
              VerificationResult.mk true "" (Some (PaystackData.id tx))
                (<["paystackData" := MPaystack tx]>
                   (<["amount" :=
                        MNum (Num.div (PaystackData.amount tx) (Num.ofZ 100))]>
                      (<["currency" := MStr (PaystackData.currency tx)]> ∅)))
            else VerificationResult.mk false "Payment verification failed" None ∅
        | None =>
            VerificationResult.mk false
              "Payment verification service unavailable" None ∅
        end
      else VerificationResult.mk false "Payment verification failed" None ∅
  | Unreachable =>
      VerificationResult.mk false "Payment verification service unavailable"
        None ∅
  end.

Module VerifiedData.
Record t := mk {
  paymentId : nat;
  paymentStatus : Payment.Status;
  amount : Num;
  orderId : nat;
  orderStatus : Order.Status
}.
End VerifiedData.

(** [POST /api/payments/verify/:paymentId]. *)
Definition verifyPayment (now : Z) (world : Gateways) (user : nat)
    (paymentId : nat) (db : Db) : Response VerifiedData.t * Db :=
  match payments db !! paymentId with
  | None => (Failure 404 "Payment not found", db)
  | Some payment =>
      if negb (bool_decide (Payment.user payment = user)) then
        (Failure 403 "Access denied", db)
      else
        let verificationResult :=
          if String.eqb (Payment.gateway payment) "flutterwave" then
            verifyFlutterwavePayment world payment
          else if String.eqb (Payment.gateway payment) "paystack" then
            verifyPaystackPayment world payment
          else if String.eqb (Payment.method payment) "bank_transfer" then
            VerificationResult.mk false
              "Bank transfer payments require manual verification" None ∅
          else VerificationResult.mk false "Payment verification failed" None ∅ in
        if VerificationResult.verified verificationResult then
          let completed :=
            markCompleted now (VerificationResult.transactionId verificationResult)
              (VerificationResult.metadata verificationResult) payment in
          let db1 := setPayments (<[paymentId := completed]> (payments db)) db in
          match orders db1 !! Payment.order payment with
          | None => (Failure 500 "Server error verifying payment", db1)
          | Some order =>
              let saved :=
                savedOrder now order (Order.setStatus Order.processing order) in
              (Success 200 "Payment verified successfully"
                 (VerifiedData.mk paymentId (Payment.status completed)
                    (Payment.amount completed) (Payment.order payment)
                    (Order.status saved)),
               setOrders (<[Payment.order payment := saved]> (orders db1)) db1)
          end
        else
          let failed :=
            markFailed now None
              (Some (VerificationResult.message verificationResult)) payment in
          (Failure 400 (VerificationResult.message verificationResult),
           setPayments (<[paymentId := failed]> (payments db)) db)
  end.

(** ** Webhooks *)

(** [process.env], as far as the webhook handlers read it. *)
Record Env := mkEnv {
  FLUTTERWAVE_SECRET_HASH : option string;
  PAYSTACK_SECRET_KEY : option string
}.

(** The body of a Paystack event. *)
Module PaystackEvent.
Record t := mk { event : string; data : option PaystackData.t }.
End PaystackEvent.

(** The steps shared by both handlers once a successful charge is
    recognised: look the payment up by its correlation reference and, when it
    is still [pending], complete it and move its order to [processing].  The
    query [{ gatewayReference: reference }] with no reference selects the
    payments that have none. *)
Definition reconcile (now : Z) (reference : option string)
    (gatewayTransactionId : option string) (metadata : gmap string MetaValue)
    (db : Db) : Db :=
  match list_find (λ p, Payment.gatewayReference p = reference)
          (payments db) with
  | Some (i, payment) =>
      if bool_decide (Payment.status payment = Payment.pending) then
        let completed :=
          markCompleted now gatewayTransactionId metadata payment in
        let db1 := setPayments (<[i := completed]> (payments db)) db in
        match orders db1 !! Payment.order payment with
        | Some order =>
            setOrders
              (<[Payment.order payment :=
                   savedOrder now order
                     (Order.setStatus Order.processing order)]> (orders db1))
              db1
        | None => db1
        end
      else db
  | None => db
  end.

(** [POST /api/payments/webhook/flutterwave].  [signature] is the
    [verif-hash] header; [body] is the [data] of the parsed payload, [None]
    when [JSON.parse] throws or the payload has no [data]. *)
Definition webhookFlutterwave (now : Z) (env : Env) (signature : option string)
    (body : option FlwData.t) (db : Db) : Response unit * Db :=
  if negb (truthy signature)
     || negb (bool_decide (signature = FLUTTERWAVE_SECRET_HASH env)) then
    (Failure 401 "Invalid signature", db)
  else
    match body with
    | None => (Failure 500 "Webhook processing failed", db)
    | Some data =>
        if String.eqb (FlwData.status data) "successful" then
          (Success 200 "success" (),
           reconcile now (FlwData.tx_ref data) (Some (FlwData.id data))
             (<["flutterwaveData" := MFlutterwave data]>
                (<["amount" := MNum (FlwData.amount data)]>
                   (<["currency" := MStr (FlwData.currency data)]> ∅)))
             db)
        else (Success 200 "success" (), db)
    end.

Section Paystack.

(** [createHmac('sha512', secret).update(JSON.stringify(body)).digest('hex')]. *)
Variable hmacSha512Hex : string → PaystackEvent.t → string.

(** [POST /api/payments/webhook/paystack].  [signature] is the
    [x-paystack-signature] header; without a configured secret
    [createHmac] throws. *)
Definition webhookPaystack (now : Z) (env : Env) (signature : option string)
    (body : PaystackEvent.t) (db : Db) : Response unit * Db :=
  match PAYSTACK_SECRET_KEY env with
  | None => (Failure 500 "Webhook processing failed", db)
  | Some secret =>
      if negb (bool_decide (Some (hmacSha512Hex secret body) = signature)) then
        (Failure 401 "Invalid signature", db)
      else if String.eqb (PaystackEvent.event body) "charge.success" then
        match PaystackEvent.data body with
        | None => (Failure 500 "Webhook processing failed", db)
        | Some data =>
            (Success 200 "success" (),
             reconcile now (PaystackData.reference data)
               (Some (PaystackData.id data))
               (<["paystackData" := MPaystack data]>
                  (<["amount" :=
                       MNum (Num.div (PaystackData.amount data) (Num.ofZ 100))]>
                     (<["currency" := MStr (PaystackData.currency data)]> ∅)))
               db)
        end
      else (Success 200 "success" (), db)
  end.

(** A delivery to one of the two webhook endpoints. *)
Inductive Delivery :=
| ToFlutterwave (signature : option string) (body : option FlwData.t)
| ToPaystack (signature : option string) (body : PaystackEvent.t).

Definition handleWebhook (now : Z) (env : Env) (d : Delivery) (db : Db)
  : Response unit * Db :=
  match d with
  | ToFlutterwave signature body => webhookFlutterwave now env signature body db
  | ToPaystack signature body => webhookPaystack now env signature body db
  end.

(** The header differs from the value derived from the pre-shared secret. *)
Definition signatureMismatch (env : Env) (d : Delivery) : Prop :=
  match d with
  | ToFlutterwave signature _ => signature ≠ FLUTTERWAVE_SECRET_HASH env
  | ToPaystack signature body =>
      ∃ secret, PAYSTACK_SECRET_KEY env = Some secret
                ∧ signature ≠ Some (hmacSha512Hex secret body)
  end.

(** The header is the value derived from the pre-shared secret. *)
Definition validlySigned (env : Env) (d : Delivery) : Prop :=
  match d with
  | ToFlutterwave signature _ =>
      ∃ secret, secret ≠ "" ∧ FLUTTERWAVE_SECRET_HASH env = Some secret
                ∧ signature = Some secret
  | ToPaystack signature body =>
      ∃ secret, PAYSTACK_SECRET_KEY env = Some secret
                ∧ signature = Some (hmacSha512Hex secret body)
  end.

(** The correlation reference of a charge-succeeded event. *)
Definition chargeSucceeded (d : Delivery) (reference : option string) : Prop :=
  match d with
  | ToFlutterwave _ body =>
      ∃ data, body = Some data ∧ FlwData.status data = "successful"
              ∧ FlwData.tx_ref data = reference
  | ToPaystack _ body =>
      ∃ data, PaystackEvent.event body = "charge.success"
              ∧ PaystackEvent.data body = Some data
              ∧ PaystackData.reference data = reference
  end.

End Paystack.

(** ** Specification vocabulary for order creation *)

(** Quantity requested of product [pid] over the whole request. *)
Fixpoint ordered (pid : nat) (items : list ReqItem.t) : Z :=
  match items with
  | [] => 0
  | item :: rest =>
      ((if bool_decide (ReqItem.productId item = pid)
        then ReqItem.quantity item else 0) + ordered pid rest)%Z
  end.

(** Effect on one product of taking [d] units out of tracked stock. *)
Definition takeStock (d : Z) (p : Product.t) : Product.t :=
  if Inventory.trackInventory (Product.inventory p)
  then Product.setQuantity (Inventory.quantity (Product.inventory p) - d)%Z p
  else p.

Definition itemValid (ps : gmap nat Product.t) (item : ReqItem.t) : Prop :=
  ∃ p, ps !! ReqItem.productId item = Some p
       ∧ Product.status p = Product.active
       ∧ (Inventory.trackInventory (Product.inventory p) = true →
          (ReqItem.quantity item <= Inventory.quantity (Product.inventory p))%Z).

(** The request asks of no tracked product more, over all its lines, than
    is in stock. *)
Definition withinStock (ps : gmap nat Product.t) (items : list ReqItem.t)
  : Prop :=
  ∀ pid p,
    ps !! pid = Some p →
    Inventory.trackInventory (Product.inventory p) = true →
    pid ∈ map ReqItem.productId items →
    (ordered pid items <= Inventory.quantity (Product.inventory p))%Z.

(** The order lines that the request asks for. *)
Definition linesOf (ps : gmap nat Product.t) (items : list ReqItem.t)
  : list OrderItem.t :=
  omap (λ item, (λ p, orderItemOf p item) <$> ps !! ReqItem.productId item)
    items.

(** [order.save()] accepts the order that the request makes: the Order
    schema accepts its lines, its pricing and its two addresses, and its
    order id is not in use. *)
Definition savesOrder (now : Z) (rnd : string) (body : CreateOrderBody.t)
    (db : Db) : Prop :=
  forallb orderItemAccepted
    (linesOf (products db) (CreateOrderBody.items body)) = true
  ∧ pricingAccepted
      (computePricing
         (fold_left Num.add
            (map OrderItem.itemTotal
               (linesOf (products db) (CreateOrderBody.items body)))
            (Num.ofZ 0))) = true
  ∧ shippingAddressValid (CreateOrderBody.shippingAddress body) = true
  ∧ billingAddressValid
      (default (CreateOrderBody.shippingAddress body)
         (CreateOrderBody.billingAddress body)) = true
  ∧ orderIdInUse (orderIdOf now rnd) (orders db) = false.

(** The requests that [createOrder] carries through: every item validates,
    every quantity is at least 1 (the route's validator), no tracked product
    is asked for beyond its stock, and the order can be saved. *)
Definition accepted (now : Z) (rnd : string) (body : CreateOrderBody.t)
    (db : Db) : Prop :=
  Forall (itemValid (products db)) (CreateOrderBody.items body)
  ∧ Forall (λ item, (1 <= ReqItem.quantity item)%Z) (CreateOrderBody.items body)
  ∧ withinStock (products db) (CreateOrderBody.items body)
  ∧ savesOrder now rnd body db.

(** An order line is the snapshot of its requested item. *)
Definition snapshotOf (ps : gmap nat Product.t) (item : ReqItem.t)
    (line : OrderItem.t) : Prop :=
  ∃ p, ps !! ReqItem.productId item = Some p
       ∧ OrderItem.product line = ReqItem.productId item
       ∧ OrderItem.title line = Product.title p
       ∧ OrderItem.price line = Product.price p
       ∧ OrderItem.quantity line = ReqItem.quantity item
       ∧ OrderItem.itemTotal line
         = Num.mul (Product.price p) (Num.ofZ (ReqItem.quantity item)).


(** Why an item is refused, with the message that names it. *)
Definition rejection (ps : gmap nat Product.t) (item : ReqItem.t)
    (message : string) : Prop :=
  match ps !! ReqItem.productId item with
  | None =>
      message = "Product " +:+ pretty (ReqItem.productId item) +:+ " not found"
  | Some p =>
      (Product.status p ≠ Product.active
       ∧ message = "Product " +:+ Product.title p +:+ " is not available")
      ∨ (Product.status p = Product.active
         ∧ Inventory.trackInventory (Product.inventory p) = true
         ∧ (Inventory.quantity (Product.inventory p) < ReqItem.quantity item)%Z
         ∧ message
           = "Insufficient inventory for " +:+ Product.title p
             +:+ ". Available: "
             +:+ pretty (Inventory.quantity (Product.inventory p)))
  end.

(** ** Concrete scenarios *)

Definition marina : Address.t :=
  Address.mk (Text "Ada") (Text "Obi") (Text "ada@example.com")
    (Text "08012345678") (Text "12 Marina Road") (Text "Lagos") (Text "Lagos")
    Absent.

Definition ikeja : Address.t :=
  Address.mk (Text "Ada") (Text "Obi") (Text "ada@example.com")
    (Text "08012345678") (Text "3 Allen Avenue") (Text "Ikeja") (Text "Lagos")
    (Text "100271").

Definition productA : Product.t :=
  Product.mk "Product A" (Num.ofZ 10000) Product.active (Inventory.mk 5 true).

Definition productB : Product.t :=
  Product.mk "Product B" (Num.ofZ 30000) Product.active (Inventory.mk 1 true).

Definition shopDb : Db :=
  mkDb (<[1 := productA]> (<[2 := productB]> ∅)) [] [] ∅.

(** Two units of product A. *)
Definition cartA : CreateOrderBody.t :=
  CreateOrderBody.mk [ReqItem.mk 1 2] marina None card.

(** The same request from an address whose e-mail has a four-letter
    top-level domain, and with such an address for billing only. *)
Definition marinaInfo : Address.t :=
  Address.mk (Text "Ada") (Text "Obi") (Text "ada@example.info")
    (Text "08012345678") (Text "12 Marina Road") (Text "Lagos") (Text "Lagos")
    Absent.

Definition cartInfo : CreateOrderBody.t :=
  CreateOrderBody.mk [ReqItem.mk 1 2] marinaInfo None card.

Definition cartBilledInfo : CreateOrderBody.t :=
  CreateOrderBody.mk [ReqItem.mk 1 2] marina (Some marinaInfo) card.

(** Three units of product A on each of two lines; five are in stock. *)
Definition cartTwice : CreateOrderBody.t :=
  CreateOrderBody.mk [ReqItem.mk 1 3; ReqItem.mk 1 3] marina None card.

(** A shop with one product at 1999, and a request for one unit of it. *)
Definition productC : Product.t :=
  Product.mk "Product C" (Num.ofZ 1999) Product.active (Inventory.mk 10 true).

Definition shopC : Db := mkDb (<[3 := productC]> ∅) [] [] ∅.

Definition cartC : CreateOrderBody.t :=
  CreateOrderBody.mk [ReqItem.mk 3 1] marina None card.

(** Two units of product A, then three of product B, which has one left. *)
Definition cartAB : CreateOrderBody.t :=
  CreateOrderBody.mk [ReqItem.mk 1 2; ReqItem.mk 2 3] marina (Some ikeja) card.




(** An order of user 7 for two units of product A, in a given status. *)
Definition orderOfA (status : Order.Status) : Order.t :=
  Order.mk "ORD-1700000000000-K3F9Q" 7
    [OrderItem.mk 1 "Product A" (Num.ofZ 10000) 2 (Num.ofZ 20000)]
    (Pricing.mk (Num.ofZ 20000) (Num.ofZ 1500) (Num.ofZ 2500) (Num.ofZ 24000))
    marina marina card status None None None None None None.

(** The shop after that order was placed: three units of product A left. *)
Definition shopWith (status : Order.Status) : Db :=
  mkDb (<[1 := Product.setQuantity 3 productA]> (<[2 := productB]> ∅))
    [orderOfA status] [] ∅.

(** A Flutterwave payment of user 7 for that order. *)
Definition paymentOfA (status : Payment.Status) : Payment.t :=
  Payment.mk 0 7 (Num.ofZ 24000) "NGN" "flutterwave" "flutterwave"
    (Some "shopease-0-1700000100000") None status ∅ []
    (Fees.mk (Num.ofZ 0) (Num.ofZ 0) (Num.ofZ 0)) None 1700000100000 None None.

Definition paidShop (orderStatus : Order.Status)
    (paymentStatus : Payment.Status) : Db :=
  mkDb (<[1 := Product.setQuantity 3 productA]> (<[2 := productB]> ∅))
    [orderOfA orderStatus] [paymentOfA paymentStatus] ∅.

Definition liveEnv : Env := mkEnv (Some "whsec-hash") (Some "sk-live-key").

(** The provider's report of the successful charge for that payment. *)
Definition chargeA : FlwData.t :=
  FlwData.mk "successful" (Some "shopease-0-1700000100000") "4975363"
    (Num.ofZ 24000) "NGN".

(** A stand-in digest for the scenarios: key and event name, concatenated. *)
Definition toyDigest (secret : string) (body : PaystackEvent.t) : string :=
  secret +:+ ":" +:+ PaystackEvent.event body.

(** A world in which neither provider can be reached. *)
Definition offline : Gateways :=
  mkGateways (λ _, Unreachable) (λ _, Unreachable).

Definition isInr {A B} (x : A + B) : bool :=
  match x with inr _ => true | inl _ => false end.

(** A sequence of [addRefund] calls on one payment, each with its amount and
    reason; a call that throws leaves the document as it was. *)
Fixpoint applyRefunds (now : Z) (requests : list (Num * string)) (p : Payment.t)
  : Payment.t :=
  match requests with
  | [] => p
  | (amount, reason) :: rest =>
      match addRefund now amount reason None p with
      | inr p' => applyRefunds now rest p'
      | inl _ => applyRefunds now rest p
      end
  end.

(** A world in which Flutterwave reports the successful charge. *)
Definition online : Gateways :=
  mkGateways (λ _, Replied chargeA) (λ _, Unreachable).

(** * Further operations *)

(** ** Card number check of the checkout page *)

(** [parseInt(c, 10)] of one character; [None] is [NaN]. *)
Definition parseDigit (c : ascii) : option Z :=
  let n := Z.of_N (N_of_ascii c) in
  if (48 <=? n)%Z && (n <=? 57)%Z then Some (n - 48)%Z else None.

(** The loop of [luhnCheck], over the characters from the last to the first;
    once [sum] is [NaN] it stays [NaN]. *)
Fixpoint luhnLoop (chars : list ascii) (sum : option Z) (shouldDouble : bool)
  : option Z :=
  match chars with
  | [] => sum
  | c :: rest =>
      let digit :=
        if shouldDouble then
          match parseDigit c with
          | Some d => Some (if (9 <? d * 2)%Z then d * 2 - 9 else d * 2)%Z
          | None => None
          end
        else parseDigit c in
      let sum' :=
        match sum, digit with
        | Some s, Some d => Some (s + d)%Z
        | _, _ => None
        end in
      luhnLoop rest sum' (negb shouldDouble)
  end.

Definition luhnCheck (cardNumber : string) : bool :=
  match luhnLoop (rev (list_ascii_of_string cardNumber)) (Some 0%Z) false with
  | Some sum => (sum mod 10 =? 0)%Z
  | None => false
  end.

(** Every character is one of [0] to [9]. *)
Definition allDigits (s : string) : Prop :=
  Forall (λ c, is_Some (parseDigit c)) (list_ascii_of_string s).

(** Contribution of digit [d] at a doubled or plain position, and the sum of
    the contributions of a list of digits read from the last one. *)
Definition luhnWeight (double : bool) (d : Z) : Z :=
  if double then (if (9 <? d * 2)%Z then d * 2 - 9 else d * 2)%Z else d.

Fixpoint luhnSum (digits : list Z) (double : bool) : Z :=
  match digits with
  | [] => 0
  | d :: rest => (luhnWeight double d + luhnSum rest (negb double))%Z
  end.

(** ** Methods of the User model *)

(** The cart and wishlist methods of the User model, on the parts of the
    document they touch.  A cart line's [addedAt], which nothing reads, is
    not represented. *)
Module UserModel.

(** [save] of a user whose cart was touched: the validator [min: 1] of a
    line's [quantity]. *)
Definition save (c : Cart.t) : Rejection + Cart.t :=
  if forallb (λ item, (1 <=? CartItem.quantity item)%Z) (Cart.items c)
  then inr c else inl (Invalid "cart.items.quantity").

(** [addToCart(productId, quantity = 1)]. *)
Definition addToCart (now : Z) (productId : nat) (quantity : option Z)
    (c : Cart.t) : Rejection + Cart.t :=
  let quantity := default 1%Z quantity in
  match list_find (λ item, CartItem.product item = productId) (Cart.items c) with
  | Some (i, item) =>
      save (Cart.mk
              (<[i := CartItem.mk (CartItem.product item)
                        (CartItem.quantity item + quantity)%Z]> (Cart.items c))
              (Some now))
  | None =>
      save (Cart.mk (Cart.items c ++ [CartItem.mk productId quantity])
              (Some now))
  end.

Definition removeFromCart (now : Z) (productId : nat) (c : Cart.t)
  : Rejection + Cart.t :=
  save (Cart.mk
          (filter (λ item, CartItem.product item ≠ productId) (Cart.items c))
          (Some now)).

Definition updateCartItemQuantity (now : Z) (productId : nat) (quantity : Z)
    (c : Cart.t) : Rejection + Cart.t :=
  match list_find (λ item, CartItem.product item = productId) (Cart.items c) with
  | Some (i, item) =>
      if (quantity <=? 0)%Z then removeFromCart now productId c
      else
        save (Cart.mk
                (<[i := CartItem.mk (CartItem.product item) quantity]>
                   (Cart.items c))
                (Some now))
  | None => inl (Thrown "Item not found in cart")
  end.

Definition clearCart (now : Z) (c : Cart.t) : Rejection + Cart.t :=
  save (Cart.mk [] (Some now)).

(** [getCartTotal]; [None] when a line's product is gone, on which
    [item.product.price] throws. *)
Fixpoint cartTotal (ps : gmap nat Product.t) (items : list CartItem.t)
    (total : Num) : option Num :=
  match items with
  | [] => Some total
  | item :: rest =>
      match ps !! CartItem.product item with
      | Some product =>
          cartTotal ps rest
            (Num.add total
               (Num.mul (Product.price product)
                  (Num.ofZ (CartItem.quantity item))))
      | None => None
      end
  end.

Definition getCartTotal (ps : gmap nat Product.t) (c : Cart.t) : option Num :=
  cartTotal ps (Cart.items c) (Num.ofZ 0).

Definition addToWishlist (productId : nat) (wishlist : list nat) : list nat :=
  if bool_decide (productId ∈ wishlist) then wishlist
  else wishlist ++ [productId].

Definition removeFromWishlist (productId : nat) (wishlist : list nat)
  : list nat :=
  filter (λ id, id ≠ productId) wishlist.

End UserModel.

(** Quantity of product [pid] over the lines of a cart. *)
Fixpoint inCart (pid : nat) (items : list CartItem.t) : Z :=
  match items with
  | [] => 0
  | item :: rest =>
      ((if bool_decide (CartItem.product item = pid)
        then CartItem.quantity item else 0) + inCart pid rest)%Z
  end.

(** The cart has one line per product. *)
Definition oneLinePerProduct (items : list CartItem.t) : Prop :=
  NoDup (map CartItem.product items).

(** ** Cart routes *)

(** A cart line with its product populated, as the cart responses show
    it. *)
Module CartEntry.
Record t := mk {
  productId : nat;
  product : Product.t;
  quantity : Z;
  itemTotal : Num
}.
End CartEntry.

Module CartSummary.
Record t := mk {
  subtotal : string;
  tax : string;
  shipping : string;
  total : string;
  totalItems : Z
}.
End CartSummary.

Module CartView.
Record t := mk { items : list CartEntry.t; summary : CartSummary.t }.
End CartView.

Module CartRoutes.

(** The loop of [GET /api/cart]: the lines whose populated product exists,
    is active and is in stock or untracked. *)
Fixpoint validCartItems (ps : gmap nat Product.t) (items : list CartItem.t)
  : list CartEntry.t :=
  match items with
  | [] => []
  | item :: rest =>
      match ps !! CartItem.product item with
      | Some product =>
          if bool_decide (Product.status product = Product.active)
             && ((0 <? Inventory.quantity (Product.inventory product))%Z
                 || negb (Inventory.trackInventory (Product.inventory product)))
          then
            CartEntry.mk (CartItem.product item) product (CartItem.quantity item)
              (Num.mul (Product.price product)
                 (Num.ofZ (CartItem.quantity item)))
            :: validCartItems ps rest
          else validCartItems ps rest
      | None => validCartItems ps rest
      end
  end.

(** [GET /api/cart]; the user is looked up by [req.user._id]. *)
Definition getCart (now : Z) (user : nat) (db : Db)
  : Response CartView.t * Db :=
  match carts db !! user with
  | None => (Failure 404 "User not found", db)
  | Some cart =>
      let valid := validCartItems (products db) (Cart.items cart) in
      let subtotal :=
        fold_left (λ s e, Num.add s (CartEntry.itemTotal e)) valid
          (Num.ofZ 0) in
      let totalItems :=
        fold_left (λ n e, (n + CartEntry.quantity e)%Z) valid 0%Z in
      let db' :=
        if bool_decide (length valid ≠ length (Cart.items cart)) then
          setCarts
            (<[user :=
                 Cart.mk
                   (map (λ e, CartItem.mk (CartEntry.productId e)
                                (CartEntry.quantity e)) valid)
                   (Some now)]> (carts db)) db
        else db in
      let tax := Num.mul subtotal (Num.decimal 75 1000) in
      let shipping :=
        if Num.ltb (Num.ofZ 50000) subtotal then Num.ofZ 0 else Num.ofZ 2500 in
      let total := Num.add (Num.add subtotal tax) shipping in
      (Success 200 ""
         (CartView.mk valid
            (CartSummary.mk (toFixed2 subtotal) (toFixed2 tax)
               (toFixed2 shipping) (toFixed2 total) totalItems)),
       db')
  end.

(** After the cart is saved it is populated and the line of [productId] is
    looked for from the front; a line met on the way whose product is gone
    makes [item.product._id] throw ([None]). *)
Fixpoint findPopulated (ps : gmap nat Product.t) (productId : nat)
    (items : list CartItem.t) : option CartEntry.t :=
  match items with
  | [] => None
  | item :: rest =>
      match ps !! CartItem.product item with
      | None => None
      | Some product =>
          if bool_decide (CartItem.product item = productId) then
            Some (CartEntry.mk (CartItem.product item) product
                    (CartItem.quantity item)
                    (Num.mul (Product.price product)
                       (Num.ofZ (CartItem.quantity item))))
          else findPopulated ps productId rest
      end
  end.

(** The [quantity] of a request body, which [isInt] validates but does not
    convert: a JSON number with an integer value, or a string. *)
Inductive Quantity :=
| Number (z : Z)
| Numeral (s : string).

Fixpoint digitsValue (chars : list ascii) (value : Z) : option Z :=
  match chars with
  | [] => Some value
  | c :: rest =>
      match parseDigit c with
      | Some d => digitsValue rest (10 * value + d)%Z
      | None => None
      end
  end.

(** [Number(s)] of a string of digits with an optional sign in front;
    [None] is [NaN], which is also what a sign anywhere else gives. *)
Definition integerOf (s : string) : option Z :=
  match list_ascii_of_string s with
  | [] => None
  | c :: rest =>
      if Ascii.eqb c "+" then
        match rest with [] => None | _ => digitsValue rest 0 end
      else if Ascii.eqb c "-" then
        match rest with [] => None | _ => Z.opp <$> digitsValue rest 0 end
      else digitsValue (c :: rest) 0
  end.

(** The Number a comparison or a Mongoose cast makes of a quantity, and the
    text a template literal or a [+] with a string makes of it. *)
Definition quantityValue (q : Quantity) : option Z :=
  match q with
  | Number z => Some z
  | Numeral s => integerOf s
  end.

Definition quantityText (q : Quantity) : string :=
  match q with
  | Number z => pretty z
  | Numeral s => s
  end.

(** [isInt({ min, max })]: the text is an integer, read as a Number, within
    the bounds. *)
Definition isInt (min max : Z) (q : Quantity) : bool :=
  match quantityValue q with
  | Some z => (min <=? z)%Z && (z <=? max)%Z
  | None => false
  end.

(** [existing + quantity]: the sum of two Numbers, or the digits of the
    existing quantity followed by the string, read back as a Number where
    one is needed ([None] when that is [NaN]). *)
Definition plusQuantity (existing : Z) (q : Quantity) : option Z :=
  match q with
  | Number z => Some (existing + z)%Z
  | Numeral s => integerOf (pretty existing +:+ s)
  end.

(** [POST /api/cart], with its quantity validator.  A new quantity that is
    [NaN] passes the stock test, cannot be cast when it is assigned, and
    makes [save] throw. *)
Definition addItem (now : Z) (user : nat) (productId : nat)
    (quantity : Quantity) (db : Db) : Response CartEntry.t * Db :=
  match quantityValue quantity with
  | None => (Failure 400 "Validation failed", db)
  | Some requested =>
      if negb (isInt 1 99 quantity) then (Failure 400 "Validation failed", db)
      else
        match products db !! productId with
        | None => (Failure 404 "Product not found", db)
        | Some product =>
            let stock := Inventory.quantity (Product.inventory product) in
            let tracked := Inventory.trackInventory (Product.inventory product) in
            if negb (bool_decide (Product.status product = Product.active)) then
              (Failure 400 "Product is not available", db)
            else if tracked && (stock <? requested)%Z then
              (Failure 400
                 ("Only " +:+ pretty stock +:+ " items available in stock"), db)
            else
              match carts db !! user with
              | None => (Failure 500 "Server error adding item to cart", db)
              | Some cart =>
                  let saved (items : list CartItem.t) :=
                    let db' :=
                      setCarts (<[user := Cart.mk items (Some now)]> (carts db))
                        db in
                    match findPopulated (products db) productId items with
                    | Some entry =>
                        (Success 201 "Item added to cart successfully" entry, db')
                    | None =>
                        (Failure 500 "Server error adding item to cart", db')
                    end in
                  match list_find (λ item, CartItem.product item = productId)
                          (Cart.items cart) with
                  | Some (i, line) =>
                      let newQuantity :=
                        plusQuantity (CartItem.quantity line) quantity in
                      if tracked
                         && match newQuantity with
                            | Some n => (stock <? n)%Z
                            | None => false
                            end then
                        (Failure 400
                           ("Cannot add " +:+ quantityText quantity
                            +:+ " more items. Only "
                            +:+ pretty (stock - CartItem.quantity line)%Z
                            +:+ " additional items available"), db)
                      else
                        match newQuantity with
                        | Some n =>
                            saved (<[i := CartItem.mk (CartItem.product line) n]>
                                     (Cart.items cart))
                        | None =>
                            (Failure 500 "Server error adding item to cart", db)
                        end
                  | None =>
                      saved (Cart.items cart ++ [CartItem.mk productId requested])
                  end
              end
        end
  end.

(** [PUT /api/cart/:productId], with its quantity validator.  Only the
    Number 0 is [=== 0]; a quantity below 1 that reaches the assignment is
    refused by the validator [min: 1] when the cart is saved. *)
Definition updateItem (now : Z) (user : nat) (productId : nat)
    (quantity : Quantity) (db : Db) : Response unit * Db :=
  match quantityValue quantity with
  | None => (Failure 400 "Validation failed", db)
  | Some requested =>
      if negb (isInt 0 99 quantity) then (Failure 400 "Validation failed", db)
      else
        match carts db !! user with
        | None => (Failure 500 "Server error updating cart", db)
        | Some cart =>
            match list_find (λ item, CartItem.product item = productId)
                    (Cart.items cart) with
            | None => (Failure 404 "Item not found in cart", db)
            | Some (i, line) =>
                if match quantity with
                   | Number z => (z =? 0)%Z
                   | Numeral _ => false
                   end then
                  (Success 200 "Item removed from cart" (),
                   setCarts
                     (<[user := Cart.mk (delete i (Cart.items cart)) (Some now)]>
                        (carts db)) db)
                else
                  match products db !! productId with
                  | None => (Failure 400 "Product is no longer available", db)
                  | Some product =>
                      if negb (bool_decide
                                 (Product.status product = Product.active))
                      then (Failure 400 "Product is no longer available", db)
                      else if Inventory.trackInventory (Product.inventory product)
                              && (Inventory.quantity (Product.inventory product)
                                  <? requested)%Z
                      then
                        (Failure 400
                           ("Only "
                            +:+ pretty
                                  (Inventory.quantity (Product.inventory product))
                            +:+ " items available in stock"), db)
                      else if (requested <? 1)%Z then
                        (Failure 500 "Server error updating cart", db)
                      else
                        (Success 200 "Cart updated successfully" (),
                         setCarts
                           (<[user :=
                                Cart.mk
                                  (<[i := CartItem.mk (CartItem.product line)
                                            requested]> (Cart.items cart))
                                  (Some now)]> (carts db)) db)
                  end
            end
        end
  end.

(** [DELETE /api/cart/:productId]. *)
Definition removeItem (now : Z) (user : nat) (productId : nat) (db : Db)
  : Response unit * Db :=
  match carts db !! user with
  | None => (Failure 500 "Server error removing item from cart", db)
  | Some cart =>
      match list_find (λ item, CartItem.product item = productId)
              (Cart.items cart) with
      | None => (Failure 404 "Item not found in cart", db)
      | Some (i, line) =>
          (Success 200 "Item removed from cart successfully" (),
           setCarts
             (<[user := Cart.mk (delete i (Cart.items cart)) (Some now)]>
                (carts db)) db)
      end
  end.

(** [DELETE /api/cart]. *)
Definition clearCart (now : Z) (user : nat) (db : Db) : Response unit * Db :=
  match carts db !! user with
  | None => (Failure 500 "Server error clearing cart", db)
  | Some cart =>
      (Success 200 "Cart cleared successfully" (),
       setCarts (<[user := Cart.mk [] (Some now)]> (carts db)) db)
  end.



End CartRoutes.

(** The cart line an entry of a cart response was read from, and the item
    that orders it. *)
Definition lineOf (e : CartEntry.t) : CartItem.t :=
  CartItem.mk (CartEntry.productId e) (CartEntry.quantity e).

Definition requestOf (e : CartEntry.t) : ReqItem.t :=
  ReqItem.mk (CartEntry.productId e) (CartEntry.quantity e).

(** ** Reviews and slug of the Product model *)

Module Review.
Record t := mk {
  user : nat;
  rating : Num;
  comment : option string;
  createdAt : Z
}.
End Review.

Module Ratings.
Record t := mk { average : Num; count : Z }.
End Ratings.

(** The [reviews] and [ratings] paths of a product document, which only
    [addReview] touches. *)
Module Reviewed.
Record t := mk { reviews : list Review.t; ratings : Ratings.t }.
End Reviewed.

(** The validators [min: 1] and [max: 5] of a review's [rating]. *)
Definition ratingValid (r : Review.t) : Prop :=
  Num.leb (Num.ofZ 1) (Review.rating r) = true
  ∧ Num.leb (Review.rating r) (Num.ofZ 5) = true.

(** The method [addReview] with the [save] that ends it.  The review
    written at position [i] is validated under the paths [reviews.i.rating]
    (a rating that is not a number is [NaN] and fails there too) and
    [reviews.i.comment], the new average under [ratings.average]. *)
Definition addReview (now : Z) (userId : nat) (rating : Num)
    (comment : option string) (p : Reviewed.t) : Rejection + Reviewed.t :=
  let '(i, reviews) :=
    match list_find (λ review, Review.user review = userId) (Reviewed.reviews p) with
    | Some (i, existingReview) =>
        (i, <[i := Review.mk (Review.user existingReview) rating comment now]>
              (Reviewed.reviews p))
    | None =>
        (length (Reviewed.reviews p),
         Reviewed.reviews p ++ [Review.mk userId rating comment now])
    end in
  let count := Z.of_nat (length reviews) in
  let average :=
    Num.div
      (fold_left (λ sum review, Num.add sum (Review.rating review)) reviews
         (Num.ofZ 0))
      (Num.ofZ (Z.of_nat (length reviews))) in
  if negb (Num.leb (Num.ofZ 1) rating && Num.leb rating (Num.ofZ 5)) then
    inl (Invalid ("reviews." +:+ pretty i +:+ ".rating"))
  else if negb (match comment with
                | Some text => (String.length text <=? 500)%nat
                | None => true
                end) then
    inl (Invalid ("reviews." +:+ pretty i +:+ ".comment"))
  else if negb (Num.leb (Num.ofZ 0) average && Num.leb average (Num.ofZ 5)) then
    inl (Invalid "ratings.average")
  else inr (Reviewed.mk reviews (Ratings.mk average count)).

(** The characters of a title are its code units; the slug is modelled for
    titles of code units below 256.  There [toLowerCase] changes, besides
    [A] to [Z], only letters that the first [replace] deletes, so it is
    written out for [A] to [Z]; [\s] matches the code units 9 to 13, 32 and
    160. *)
Definition toLowerCase (c : ascii) : ascii :=
  let n := N_of_ascii c in
  if (65 <=? n)%N && (n <=? 90)%N then ascii_of_N (n + 32) else c.

Definition isAlnum (c : ascii) : bool :=
  let n := N_of_ascii c in
  ((48 <=? n)%N && (n <=? 57)%N)
  || ((65 <=? n)%N && (n <=? 90)%N)
  || ((97 <=? n)%N && (n <=? 122)%N).

Definition isSpace (c : ascii) : bool :=
  let n := N_of_ascii c in
  ((9 <=? n)%N && (n <=? 13)%N) || (n =? 32)%N || (n =? 160)%N.

(** [replace(/\s+/g, '-')]: each maximal run of white space becomes one
    hyphen; [inRun] tells that the previous character was white space. *)
Fixpoint hyphenate (chars : list ascii) (inRun : bool) : list ascii :=
  match chars with
  | [] => []
  | c :: rest =>
      if isSpace c then
        if inRun then hyphenate rest true
        else "-"%char :: hyphenate rest true
      else c :: hyphenate rest false
  end.

(** The slug the pre-save hook of the Product model derives from a title. *)
Definition slugOf (title : string) : string :=
  string_of_list_ascii
    (take 50
       (hyphenate
          (List.filter (λ c, isAlnum c || isSpace c)
             (map toLowerCase (list_ascii_of_string title)))
          false)).

(** The pre-save hook, on the [seo.slug] path. *)
Definition productPreSave (titleModified : bool) (title : string)
    (slug : option string) : option string :=
  if titleModified && negb (truthy slug) then Some (slugOf title) else slug.

(** A character a slug may hold: [a] to [z], [0] to [9] or the hyphen. *)
Definition slugChar (c : ascii) : bool :=
  let n := N_of_ascii c in
  ((48 <=? n)%N && (n <=? 57)%N) || ((97 <=? n)%N && (n <=? 122)%N)
  || (n =? 45)%N.

Fixpoint noDoubleHyphen (chars : list ascii) : bool :=
  match chars with
  | c :: (d :: _) as rest =>
      negb (Ascii.eqb c "-" && Ascii.eqb d "-") && noDoubleHyphen rest
  | _ => true
  end.

(** ** Reading orders and payments back *)

(** [GET /api/orders/:id]; [isAdmin] is [req.user.isAdmin].  The order is
    answered with the product of each line populated, [None] where the
    product is gone. *)
Definition getOrder (user : nat) (isAdmin : bool) (id : nat) (db : Db)
  : Response (Order.t * list (option Product.t)) :=
  match orders db !! id with
  | None => Failure 404 "Order not found"
  | Some order =>
      if negb (bool_decide (Order.user order = user)) && negb isAdmin then
        Failure 403 "Access denied"
      else
        Success 200 ""
          (order, map (λ item, products db !! OrderItem.product item)
                    (Order.items order))
  end.

(** [GET /api/payments/:id], answered with the order populated. *)
Definition getPayment (user : nat) (isAdmin : bool) (id : nat) (db : Db)
  : Response (Payment.t * option Order.t) :=
  match payments db !! id with
  | None => Failure 404 "Payment not found"
  | Some payment =>
      if negb (bool_decide (Payment.user payment = user)) && negb isAdmin then
        Failure 403 "Access denied"
      else Success 200 "" (payment, orders db !! Payment.order payment)
  end.

(** * Verified properties *)

(** ** Order creation *)

Lemma checkItem_valid ps item :
  itemValid ps item →
  ∃ p, ps !! ReqItem.productId item = Some p ∧ checkItem ps item = inr p.
Proof.
  intros (p & Hp & Hact & Hq). exists p. split; [done|].
  unfold checkItem. rewrite Hp, Hact. simpl.
  destruct (Inventory.trackInventory (Product.inventory p)) eqn:Ht; simpl; [|done].
  specialize (Hq eq_refl).
  destruct (Z.ltb_spec (Inventory.quantity (Product.inventory p))
              (ReqItem.quantity item)); [lia|done].
Qed.

Lemma checkItem_inr ps item p :
  checkItem ps item = inr p → itemValid ps item.
Proof.
  unfold checkItem. destruct (ps !! ReqItem.productId item) as [q|] eqn:Hq; [|done].
  case_bool_decide as Hact; simpl; [|done].
  destruct (Inventory.trackInventory (Product.inventory q)) eqn:Ht; simpl.
  - destruct (Z.ltb_spec (Inventory.quantity (Product.inventory q))
                (ReqItem.quantity item)); [done|].
    intros [= <-]. exists q. repeat split; [done..|]. intros _; lia.
  - intros [= <-]. exists q. repeat split; [done..|]. rewrite Ht. done.
Qed.

Lemma validateItems_valid ps items :
  Forall (itemValid ps) items →
  ∀ subtotal acc,
  ∃ lines,
    validateItems ps items subtotal acc
    = inr (fold_left Num.add (map OrderItem.itemTotal lines) subtotal,
           acc ++ lines)
    ∧ Forall2 (snapshotOf ps) items lines.
Proof.
  induction 1 as [|item items Hv _ IH]; intros subtotal acc.
  - exists []. simpl. rewrite app_nil_r. split; [done|constructor].
  - destruct (checkItem_valid _ _ Hv) as (p & Hp & Hc).
    cbn [validateItems]. rewrite Hc.
    destruct (IH (Num.add subtotal (OrderItem.itemTotal (orderItemOf p item)))
                 (acc ++ [orderItemOf p item])) as (lines & -> & HF).
    exists (orderItemOf p item :: lines). split.
    + simpl. by rewrite <- app_assoc.
    + constructor; [|done]. exists p. by repeat split.
Qed.

(** The first failing item decides the response. *)
Lemma validateItems_invalid ps items :
  Exists (λ item, ¬ itemValid ps item) items →
  ∀ subtotal acc,
  ∃ item message,
    item ∈ items ∧ checkItem ps item = inl message
    ∧ validateItems ps items subtotal acc = inl message.
Proof.
  induction items as [|item items IH]; intros HE subtotal acc.
  - inversion HE.
  - cbn [validateItems]. destruct (checkItem ps item) as [message|p] eqn:Hc.
    + exists item, message. repeat split; [left|done].
    + assert (Exists (λ item, ¬ itemValid ps item) items) as HE'.
      { inversion HE as [? ? Hn|]; subst; [|done].
        exfalso. apply Hn. by eapply checkItem_inr. }
      destruct (IH HE' (Num.add subtotal (OrderItem.itemTotal (orderItemOf p item)))
                   (acc ++ [orderItemOf p item]))
        as (item' & message & Hin & Hc' & ->).
      exists item', message. repeat split; [by right|done].
Qed.

(** When the validation loop passes, every item was valid. *)
Lemma validateItems_inr ps items :
  ∀ subtotal acc result,
    validateItems ps items subtotal acc = inr result →
    Forall (itemValid ps) items.
Proof.
  induction items as [|item items IH]; intros subtotal acc result Hv;
    [constructor|].
  cbn [validateItems] in Hv.
  destruct (checkItem ps item) as [message|p] eqn:Hc; [done|].
  constructor; [by eapply checkItem_inr|by eapply IH].
Qed.

Lemma takeStock_zero p : takeStock 0 p = p.
Proof.
  unfold takeStock, Product.setQuantity.
  destruct p as [t pr st [q tr]]; simpl. destruct tr; [|done].
  by rewrite Z.sub_0_r.
Qed.

Lemma takeStock_add d1 d2 p :
  takeStock d2 (takeStock d1 p) = takeStock (d1 + d2) p.
Proof.
  unfold takeStock, Product.setQuantity.
  destruct p as [t pr st [q tr]]; simpl. destruct tr; simpl; [|done].
  do 2 f_equal. lia.
Qed.

Lemma ordered_nonneg pid items :
  Forall (λ item, (1 <= ReqItem.quantity item)%Z) items →
  (0 <= ordered pid items)%Z.
Proof.
  induction 1 as [|item items Hq _ IH]; cbn [ordered]; [lia|].
  case_bool_decide; lia.
Qed.

(** One step of the inventory loop, as a change of the whole catalogue. *)
Lemma takeStock_step (ps : gmap nat Product.t) item p :
  ps !! ReqItem.productId item = Some p →
  ∀ pid,
    (if Inventory.trackInventory (Product.inventory p)
     then <[ReqItem.productId item :=
              Product.setQuantity
                (Inventory.quantity (Product.inventory p)
                 - ReqItem.quantity item)%Z p]> ps
     else ps) !! pid
    = takeStock (if bool_decide (ReqItem.productId item = pid)
                 then ReqItem.quantity item else 0) <$> ps !! pid.
Proof.
  intros Hp pid. case_bool_decide as Heq.
  - subst pid. rewrite Hp. simpl. unfold takeStock.
    destruct (Inventory.trackInventory (Product.inventory p));
      [by rewrite lookup_insert_eq|done].
  - assert (ps !! pid = takeStock 0 <$> ps !! pid) as E0.
    { destruct (ps !! pid); simpl; [|done]. by rewrite takeStock_zero. }
    destruct (Inventory.trackInventory (Product.inventory p));
      [by rewrite lookup_insert_ne|done].
Qed.

(** The inventory loop goes through when no tracked product is asked for
    beyond its stock, and then every product lost what was ordered of it. *)
Lemma updateInventory_spec items :
  ∀ ps : gmap nat Product.t,
  Forall (λ item, is_Some (ps !! ReqItem.productId item)) items →
  Forall (λ item, (1 <= ReqItem.quantity item)%Z) items →
  withinStock ps items →
  ∃ ps' : gmap nat Product.t,
    updateInventory ps items = (ps', true)
    ∧ ∀ pid, ps' !! pid = takeStock (ordered pid items) <$> ps !! pid.
Proof.
  induction items as [|item items IH]; intros ps HF Hpos Hstock.
  - exists ps. split; [done|]. intros pid. simpl.
    destruct (ps !! pid); simpl; [|done]. by rewrite takeStock_zero.
  - inversion HF as [|? ? [p Hp] HF']; subst.
    inversion Hpos as [|? ? Hq Hpos']; subst.
    pose proof (takeStock_step ps item p Hp) as H1.
    set (ps1 := if Inventory.trackInventory (Product.inventory p)
                then <[ReqItem.productId item :=
                         Product.setQuantity
                           (Inventory.quantity (Product.inventory p)
                            - ReqItem.quantity item)%Z p]> ps
                else ps) in H1.
    assert (Forall (λ item, is_Some (ps1 !! ReqItem.productId item)) items) as HF1.
    { eapply Forall_impl; [exact HF'|]. intros it [q Hq']. simpl.
      rewrite H1, Hq'. by eexists. }
    assert (withinStock ps1 items) as Hstock1.
    { intros pid q Hq' Htr Hin. rewrite H1 in Hq'.
      destruct (ps !! pid) as [q0|] eqn:Hq0; [|done].
      injection Hq' as <-.
      assert (Inventory.trackInventory (Product.inventory q0) = true) as Htr0.
      { revert Htr. unfold takeStock.
        destruct (Inventory.trackInventory (Product.inventory q0)) eqn:E;
          [done|]. by rewrite E. }
      assert (pid ∈ map ReqItem.productId (item :: items)) as Hin'
        by (cbn [map]; by right).
      pose proof (Hstock pid q0 Hq0 Htr0 Hin') as Hle. cbn [ordered] in Hle.
      unfold takeStock. rewrite Htr0. cbn. lia. }
    destruct (IH ps1 HF1 Hpos' Hstock1) as (ps' & Hu & Hl).
    exists ps'. split.
    + cbn [updateInventory]. rewrite Hp. unfold ps1 in Hu.
      destruct (Inventory.trackInventory (Product.inventory p)) eqn:Htr;
        [|done].
      unfold ProductModel.save. cbn [Product.inventory Product.setQuantity
                                     Inventory.quantity].
      assert (ReqItem.productId item
              ∈ map ReqItem.productId (item :: items)) as Hin
        by (cbn [map]; by left).
      pose proof (Hstock _ p Hp Htr Hin) as Hle. cbn [ordered] in Hle.
      rewrite bool_decide_eq_true_2 in Hle by done.
      pose proof (ordered_nonneg (ReqItem.productId item) items Hpos').
      destruct (Z.ltb_spec (Inventory.quantity (Product.inventory p)
                            - ReqItem.quantity item) 0); [lia|done].
    + intros pid. rewrite Hl, H1.
      destruct (ps !! pid); simpl; [|done]. by rewrite takeStock_add.
Qed.

Lemma snapshot_itemTotal ps (items : list ReqItem.t) (lines : list OrderItem.t) :
  Forall2 (snapshotOf ps) items lines →
  map OrderItem.itemTotal lines
  = map (λ l, Num.mul (OrderItem.price l) (Num.ofZ (OrderItem.quantity l))) lines.
Proof.
  induction 1 as [|item line items lines (p & _ & _ & _ & Hpr & Hq & Ht) _ IH];
    [done|].
  simpl. rewrite IH, Ht, Hpr, Hq. done.
Qed.

Lemma orderPreSave_pending now (o : Order.t) :
  Order.status o = Order.pending → orderPreSave now true o = o.
Proof. intros H. unfold orderPreSave. rewrite H. done. Qed.

Lemma ordered_not_in pid items :
  pid ∉ map ReqItem.productId items → ordered pid items = 0%Z.
Proof.
  induction items as [|item items IH]; intros Hin; [done|].
  cbn [map] in Hin. apply not_elem_of_cons in Hin as [Hne Hin].
  cbn [ordered]. rewrite bool_decide_eq_false_2 by congruence.
  by rewrite IH.
Qed.

(** Conversely, a loop that went through stayed within the stock. *)
Lemma updateInventory_true items :
  ∀ ps ps' : gmap nat Product.t,
  updateInventory ps items = (ps', true) →
  withinStock ps items.
Proof.
  induction items as [|item items IH]; intros ps ps' Hu pid q Hq Htr Hin.
  - by apply elem_of_nil in Hin.
  - cbn [updateInventory] in Hu.
    destruct (ps !! ReqItem.productId item) as [p|] eqn:Hp; [|done].
    cbn [ordered].
    destruct (Inventory.trackInventory (Product.inventory p)) eqn:Htrp.
    + unfold ProductModel.save in Hu.
      cbn [Product.inventory Product.setQuantity Inventory.quantity] in Hu.
      destruct (Z.ltb_spec (Inventory.quantity (Product.inventory p)
                            - ReqItem.quantity item) 0) as [|Hge]; [done|].
      pose proof (IH _ _ Hu) as Hrest.
      case_bool_decide as Heq.
      * subst pid. rewrite Hp in Hq. injection Hq as <-.
        destruct (decide (ReqItem.productId item
                          ∈ map ReqItem.productId items)) as [Hin'|Hin'].
        -- pose proof (Hrest (ReqItem.productId item) _
                         (lookup_insert_eq _ _ _) Htrp Hin') as Hle.
           cbn in Hle. lia.
        -- rewrite (ordered_not_in _ _ Hin'). lia.
      * cbn [map] in Hin. apply elem_of_cons in Hin as [->|Hin]; [done|].
        assert (<[ReqItem.productId item :=
                    Product.setQuantity
                      (Inventory.quantity (Product.inventory p)
                       - ReqItem.quantity item)%Z p]> ps !! pid = Some q) as Hq'
          by (by rewrite lookup_insert_ne).
        pose proof (Hrest pid q Hq' Htr Hin). lia.
    + pose proof (IH _ _ Hu) as Hrest.
      case_bool_decide as Heq.
      * subst pid. rewrite Hp in Hq. injection Hq as <-. congruence.
      * cbn [map] in Hin. apply elem_of_cons in Hin as [->|Hin]; [done|].
        pose proof (Hrest pid q Hq Htr Hin). lia.
Qed.

Lemma snapshot_linesOf ps (items : list ReqItem.t) (lines : list OrderItem.t) :
  Forall2 (snapshotOf ps) items lines → lines = linesOf ps items.
Proof.
  induction 1 as [|item line items lines (p & Hp & H1 & H2 & H3 & H4 & H5) _ IH];
    [done|].
  unfold linesOf. cbn [omap list_omap]. rewrite Hp. cbn. f_equal; [|exact IH].
  destruct line. cbn in *. unfold orderItemOf. congruence.
Qed.

(** What [createOrder] does with a request whose items validate: a refused
    [order.save()] changes nothing; otherwise the order is stored and the
    inventory loop decides the answer. *)
Lemma createOrder_run now rnd user body db :
  Forall (itemValid (products db)) (CreateOrderBody.items body) →
  ∃ lines,
    Forall2 (snapshotOf (products db)) (CreateOrderBody.items body) lines
    ∧ let order :=
        Order.mk (orderIdOf now rnd) user lines
          (computePricing
             (fold_left Num.add (map OrderItem.itemTotal lines) (Num.ofZ 0)))
          (CreateOrderBody.shippingAddress body)
          (default (CreateOrderBody.shippingAddress body)
             (CreateOrderBody.billingAddress body))
          (CreateOrderBody.paymentMethod body) Order.pending
          None None None None None None in
      createOrder now rnd user body db
      = if negb (forallb orderItemAccepted
                   (linesOf (products db) (CreateOrderBody.items body))
                 && pricingAccepted
                      (computePricing
                         (fold_left Num.add
                            (map OrderItem.itemTotal
                               (linesOf (products db)
                                  (CreateOrderBody.items body)))
                            (Num.ofZ 0)))
                 && shippingAddressValid (CreateOrderBody.shippingAddress body)
                 && billingAddressValid
                      (default (CreateOrderBody.shippingAddress body)
                         (CreateOrderBody.billingAddress body)))
           || orderIdInUse (orderIdOf now rnd) (orders db)
        then (Failure 500 "Server error creating order", db)
        else
          let updated :=
            updateInventory (products db) (CreateOrderBody.items body) in
          if updated.2 then
            (Success 201 "Order created successfully" order,
             mkDb updated.1 (orders db ++ [order]) (payments db)
               (<[user := Cart.mk [] (Some now)]> (carts db)))
          else
            (Failure 500 "Server error creating order",
             mkDb updated.1 (orders db ++ [order]) (payments db) (carts db)).
Proof.
  intros Hvalid.
  destruct (validateItems_valid _ _ Hvalid (Num.ofZ 0) [])
    as (lines & Hv & Hsnap).
  exists lines. split; [done|]. cbv zeta.
  unfold createOrder. rewrite Hv. simpl app.
  unfold orderSchemaAccepts.
  cbn [Order.shippingAddress Order.billingAddress Order.orderId Order.items
       Order.pricing].
  rewrite <- (snapshot_linesOf _ _ _ Hsnap).
  replace (match CreateOrderBody.billingAddress body with
           | Some billing => billing
           | None => CreateOrderBody.shippingAddress body
           end)
    with (default (CreateOrderBody.shippingAddress body)
            (CreateOrderBody.billingAddress body))
    by (by destruct (CreateOrderBody.billingAddress body)).
  destruct (negb _ || _); [done|].
  rewrite orderPreSave_pending by done.
  cbn [products setOrders].
  by destruct (updateInventory _ _) as [ps []].
Qed.

Lemma savesOrder_guard now rnd body db :
  savesOrder now rnd body db
  ↔ negb (forallb orderItemAccepted
            (linesOf (products db) (CreateOrderBody.items body))
          && pricingAccepted
               (computePricing
                  (fold_left Num.add
                     (map OrderItem.itemTotal
                        (linesOf (products db) (CreateOrderBody.items body)))
                     (Num.ofZ 0)))
          && shippingAddressValid (CreateOrderBody.shippingAddress body)
          && billingAddressValid
               (default (CreateOrderBody.shippingAddress body)
                  (CreateOrderBody.billingAddress body)))
    || orderIdInUse (orderIdOf now rnd) (orders db) = false.
Proof.
  unfold savesOrder.
  destruct (forallb _ _), (pricingAccepted _), (shippingAddressValid _),
    (billingAddressValid _), (orderIdInUse _ _); cbn; split; try done;
    by intros (? & ? & ? & ? & ?).
Qed.

(** What an accepted request produces, in closed form. *)
Lemma createOrder_valid now rnd user body db :
  accepted now rnd body db →
  ∃ lines ps',
    let order :=
      Order.mk (orderIdOf now rnd) user lines
        (computePricing
           (fold_left Num.add (map OrderItem.itemTotal lines) (Num.ofZ 0)))
        (CreateOrderBody.shippingAddress body)
        (default (CreateOrderBody.shippingAddress body)
           (CreateOrderBody.billingAddress body))
        (CreateOrderBody.paymentMethod body) Order.pending
        None None None None None None in
    createOrder now rnd user body db
    = (Success 201 "Order created successfully" order,
       mkDb ps' (orders db ++ [order]) (payments db)
         (<[user := Cart.mk [] (Some now)]> (carts db)))
    ∧ Forall2 (snapshotOf (products db)) (CreateOrderBody.items body) lines
    ∧ ∀ pid,
        ps' !! pid
        = takeStock (ordered pid (CreateOrderBody.items body))
            <$> products db !! pid.
Proof.
  intros (Hvalid & Hpos & Hstock & Hsave).
  destruct (createOrder_run now rnd user body db Hvalid)
    as (lines & Hsnap & Hrun).
  destruct (updateInventory_spec (CreateOrderBody.items body) (products db))
    as (ps' & Hu & Hlook); [|done|done|].
  { eapply Forall_impl; [exact Hvalid|]. intros item (p & Hp & _). by eexists. }
  exists lines, ps'. split_and!; [|done..].
  cbv zeta in Hrun |- *. rewrite Hrun.
  apply savesOrder_guard in Hsave. rewrite Hsave, Hu. done.
Qed.

(** A request is carried through only if it is an accepted one, the
    validator of the quantities apart. *)
Lemma createOrder_success now rnd user body db :
  isSuccess (createOrder now rnd user body db).1 = true →
  Forall (itemValid (products db)) (CreateOrderBody.items body)
  ∧ withinStock (products db) (CreateOrderBody.items body)
  ∧ savesOrder now rnd body db.
Proof.
  intros Hok.
  assert (Forall (itemValid (products db)) (CreateOrderBody.items body))
    as Hvalid.
  { unfold createOrder in Hok.
    destruct (validateItems _ _ _ _) as [message|result] eqn:Hv; [done|].
    by eapply validateItems_inr. }
  split; [done|].
  destruct (createOrder_run now rnd user body db Hvalid)
    as (lines & Hsnap & Hrun).
  cbv zeta in Hrun. rewrite Hrun in Hok.
  destruct (negb _ || _) eqn:Hguard; [done|].
  apply savesOrder_guard in Hguard.
  destruct (updateInventory _ _) as [ps' ok] eqn:Hu. destruct ok; [|done].
  split; [|done]. by eapply updateInventory_true.
Qed.

(** C1, as the code has it.  When every requested item validates against
    the catalogue, every quantity is at least 1, no tracked product is asked
    for beyond its stock over all the lines of the request, the Order schema
    accepts the order made (its lines, its pricing and its two addresses)
    and the order id is not in use, [createOrder] answers 201 and appends a
    [pending] order whose lines are snapshots of the requested items, each
    with the line total price times quantity, whose subtotal is the sum of
    the line totals, whose tax is the subtotal times 0.075, whose shipping
    is 0 for a subtotal above 50000 and 2500 otherwise, and whose total is
    subtotal + tax + shipping, all in the arithmetic of JavaScript Numbers;
    every product's tracked stock goes down by the quantity ordered of it
    and untracked stock is untouched.  A single line of quantity 2 at price
    10000 gives 20000 / 1500 / 2500 / 24000.  Conversely, a request that is
    answered 201 has items that validate, stays within the stock and makes
    an order that [order.save()] accepts. *)
Theorem createOrder_prices_and_reserves now rnd user body db :
  (accepted now rnd body db →
   ∃ order db',
     createOrder now rnd user body db
     = (Success 201 "Order created successfully" order, db')
     ∧ orders db' = orders db ++ [order]
     ∧ Order.status order = Order.pending
     ∧ Forall2 (snapshotOf (products db)) (CreateOrderBody.items body)
         (Order.items order)
     ∧ Pricing.subtotal (Order.pricing order)
       = fold_left Num.add
           (map (λ l, Num.mul (OrderItem.price l)
                        (Num.ofZ (OrderItem.quantity l)))
              (Order.items order))
           (Num.ofZ 0)
     ∧ Pricing.tax (Order.pricing order)
       = Num.mul (Pricing.subtotal (Order.pricing order)) (Num.decimal 75 1000)
     ∧ Pricing.shipping (Order.pricing order)
       = (if Num.ltb (Num.ofZ 50000) (Pricing.subtotal (Order.pricing order))
          then Num.ofZ 0 else Num.ofZ 2500)
     ∧ Pricing.total (Order.pricing order)
       = Num.add
           (Num.add (Pricing.subtotal (Order.pricing order))
              (Pricing.tax (Order.pricing order)))
           (Pricing.shipping (Order.pricing order))
     ∧ (∀ pid,
          products db' !! pid
          = takeStock (ordered pid (CreateOrderBody.items body))
              <$> products db !! pid)
     ∧ (∀ pid p,
          CreateOrderBody.items body = [ReqItem.mk pid 2] →
          products db !! pid = Some p →
          Product.price p = Num.ofZ 10000 →
          Pricing.subtotal (Order.pricing order) = Num.ofZ 20000
          ∧ Pricing.tax (Order.pricing order) = Num.ofZ 1500
          ∧ Pricing.shipping (Order.pricing order) = Num.ofZ 2500
          ∧ Pricing.total (Order.pricing order) = Num.ofZ 24000))
  ∧ (isSuccess (createOrder now rnd user body db).1 = true →
     Forall (itemValid (products db)) (CreateOrderBody.items body)
     ∧ withinStock (products db) (CreateOrderBody.items body)
     ∧ savesOrder now rnd body db).
Proof.
  split; [|apply createOrder_success].
  intros Hacc.
  destruct (createOrder_valid now rnd user body db Hacc)
    as (lines & ps' & Hrun & Hsnap & Hstock).
  eexists _, _. split; [exact Hrun|].
  cbn [orders products Order.status Order.items Order.pricing].
  rewrite (snapshot_itemTotal _ _ _ Hsnap).
  set (subtotal := fold_left Num.add _ _).
  split_and!; try done.
  intros pid p Hitems Hp Hprice.
  rewrite Hitems in Hsnap.
  inversion Hsnap as [|? line ? rest (p' & Hp' & _ & _ & Hpr & Hq & _) Hrest];
    subst.
  inversion Hrest; subst.
  simpl in Hp'. rewrite Hp in Hp'. injection Hp' as <-.
  assert (subtotal = Num.ofZ 20000) as ->.
  { unfold subtotal. cbn [map fold_left]. rewrite Hpr, Hq, Hprice.
    vm_compute. reflexivity. }
  vm_compute. done.
Qed.

Lemma createOrder_prices_and_reserves_witness :
  ∃ order db',
    createOrder 1700000000000 "K3F9Q" 7 cartA shopDb
    = (Success 201 "Order created successfully" order, db')
    ∧ Pricing.total (Order.pricing order) = Num.ofZ 24000
    ∧ products db' !! 1 = Some (Product.setQuantity 3 productA).
Proof.
  destruct (createOrder_prices_and_reserves 1700000000000 "K3F9Q" 7 cartA shopDb)
    as [Hforward _].
  destruct Hforward
    as (order & db' & Hrun & _ & _ & _ & _ & _ & _ & _ & Hstock & Hex).
  { split_and!.
    - repeat constructor. exists productA. split_and!; [reflexivity..|].
      intros _. vm_compute. discriminate.
    - repeat constructor. vm_compute. discriminate.
    - intros pid p Hp _ Hin. cbn in Hin.
      apply list_elem_of_singleton in Hin as ->.
      vm_compute in Hp. injection Hp as <-. vm_compute. discriminate.
    - split_and!; reflexivity. }
  exists order, db'. split_and!.
  - exact Hrun.
  - apply (Hex 1 productA); reflexivity.
  - rewrite Hstock. reflexivity.
Defined.

(** C1 as stated fails.  Each of three requests has only valid items.  The
    first comes from an address whose e-mail [isEmail] accepts and the
    Order schema's pattern does not: nothing is stored.  The second lists
    three units of a product with five in stock on each of two lines: the
    order is stored, the first line is taken out of the stock, the second is
    refused.  The third is carried through, and its tax,
    149.92499999999998, is not 7.5% of its subtotal of 1999. *)
Lemma createOrder_refuses_valid_items :
  (Forall (itemValid (products shopDb)) (CreateOrderBody.items cartInfo)
   ∧ createOrder 1700000000000 "K3F9Q" 7 cartInfo shopDb
     = (Failure 500 "Server error creating order", shopDb))
  ∧ (Forall (itemValid (products shopDb)) (CreateOrderBody.items cartTwice)
     ∧ ∃ db',
         createOrder 1700000000000 "K3F9Q" 7 cartTwice shopDb
         = (Failure 500 "Server error creating order", db')
         ∧ length (orders db') = 1%nat
         ∧ products db' !! 1 = Some (Product.setQuantity 2 productA))
  ∧ (∃ order db' tax,
       createOrder 1700000000000 "K3F9Q" 7 cartC shopC
       = (Success 201 "Order created successfully" order, db')
       ∧ Pricing.subtotal (Order.pricing order) = Num.ofZ 1999
       ∧ Num.value (Pricing.tax (Order.pricing order)) = Some tax
       ∧ ¬ (tax == 1999 * (75 # 1000))%Q).
Proof.
  assert (itemValid (products shopDb) (ReqItem.mk 1 2)) as H2.
  { exists productA. split_and!; [reflexivity..|].
    intros _. vm_compute. discriminate. }
  assert (itemValid (products shopDb) (ReqItem.mk 1 3)) as H3.
  { exists productA. split_and!; [reflexivity..|].
    intros _. vm_compute. discriminate. }
  split_and!.
  - by repeat constructor.
  - vm_compute. reflexivity.
  - by repeat constructor.
  - eexists. split_and!; [vm_compute; reflexivity|reflexivity|reflexivity].
  - eexists _, _, _. split_and!; [vm_compute; reflexivity|reflexivity
                                  |vm_compute; reflexivity|].
    unfold Qeq. vm_compute. discriminate.
Qed.

Lemma checkItem_rejection ps item message :
  checkItem ps item = inl message → rejection ps item message.
Proof.
  unfold checkItem, rejection.
  destruct (ps !! ReqItem.productId item) as [p|]; [|by intros [= <-]].
  case_bool_decide as Hact; simpl.
  - destruct (Inventory.trackInventory (Product.inventory p)) eqn:Ht; simpl;
      [|done].
    destruct (Z.ltb_spec (Inventory.quantity (Product.inventory p))
                (ReqItem.quantity item)); [|done].
    intros [= <-]. right. done.
  - intros [= <-]. left. done.
Qed.

(** C5.  When some requested item does not validate (product missing, not
    active, or tracked stock below the requested quantity), [createOrder]
    answers 400 with the message naming an offending item of the request, and
    the database it leaves is the one it found: no stock is changed, no order
    is stored. *)
Theorem createOrder_all_or_nothing now rnd user body db :
  Exists (λ item, ¬ itemValid (products db) item) (CreateOrderBody.items body) →
  ∃ item message,
    item ∈ CreateOrderBody.items body
    ∧ ¬ itemValid (products db) item
    ∧ rejection (products db) item message
    ∧ createOrder now rnd user body db = (Failure 400 message, db).
Proof.
  intros HE.
  destruct (validateItems_invalid _ _ HE (Num.ofZ 0) [])
    as (item & message & Hin & Hc & Hv).
  exists item, message. split_and!; [done| |by apply checkItem_rejection|].
  - intros Hvalid. destruct (checkItem_valid _ _ Hvalid) as (p & _ & Hc').
    congruence.
  - unfold createOrder. by rewrite Hv.
Qed.

Lemma createOrder_all_or_nothing_witness :
  ∃ item message,
    item ∈ CreateOrderBody.items cartAB
    ∧ ¬ itemValid (products shopDb) item
    ∧ rejection (products shopDb) item message
    ∧ createOrder 1700000000000 "K3F9Q" 7 cartAB shopDb
      = (Failure 400 message, shopDb).
Proof.
  apply (createOrder_all_or_nothing 1700000000000 "K3F9Q" 7 cartAB shopDb).
  apply Exists_cons_tl, Exists_cons_hd.
  intros (p & Hp & _ & Hq). vm_compute in Hp. injection Hp as <-.
  specialize (Hq eq_refl). vm_compute in Hq. by apply Hq.
Defined.

(** The refused request above, evaluated: product A validated, product B did
    not, and product A's stock is still 5. *)
Example createOrder_cartAB :
  createOrder 1700000000000 "K3F9Q" 7 cartAB shopDb
  = (Failure 400 "Insufficient inventory for Product B. Available: 1", shopDb).
Proof. vm_compute. reflexivity. Qed.

(** C10, as the code has it.  For a request whose items validate: when
    [order.save()] accepts the order (the Order schema accepts its lines,
    its pricing and both addresses, and the order id is not in use), the
    order is stored, with the request's shipping address,
    and its billing address is the shipping address when the request has no
    billing address and the request's billing address, as given, when it has
    one; when [order.save()] refuses the order, the answer is 500 and
    nothing is stored. *)
Theorem createOrder_billing_address now rnd user body db :
  Forall (itemValid (products db)) (CreateOrderBody.items body) →
  let result := createOrder now rnd user body db in
  (savesOrder now rnd body db →
   ∃ order,
     orders result.2 = orders db ++ [order]
     ∧ Order.shippingAddress order = CreateOrderBody.shippingAddress body
     ∧ (CreateOrderBody.billingAddress body = None →
        Order.billingAddress order = Order.shippingAddress order)
     ∧ (∀ billing,
          CreateOrderBody.billingAddress body = Some billing →
          Order.billingAddress order = billing))
  ∧ (¬ savesOrder now rnd body db →
     result = (Failure 500 "Server error creating order", db)).
Proof.
  intros Hvalid. cbv zeta.
  destruct (createOrder_run now rnd user body db Hvalid)
    as (lines & _ & Hrun).
  cbv zeta in Hrun. rewrite Hrun.
  pose proof (savesOrder_guard now rnd body db) as Hguard.
  destruct (negb _ || _).
  - split; [intros Hs; apply Hguard in Hs; done|done].
  - split; [|intros Hn; exfalso; apply Hn; by apply Hguard].
    intros _. eexists. split.
    { by destruct (updateInventory _ _).2. }
    cbn [Order.shippingAddress Order.billingAddress].
    split_and!; [done| |].
    + by intros ->.
    + by intros billing ->.
Qed.

Lemma createOrder_billing_address_witness :
  ∃ order,
    orders (createOrder 1700000000000 "K3F9Q" 7 cartA shopDb).2 = [order]
    ∧ Order.billingAddress order = marina.
Proof.
  destruct (createOrder_billing_address 1700000000000 "K3F9Q" 7 cartA shopDb)
    as [Hstored _].
  { repeat constructor. exists productA. split_and!; [reflexivity..|].
    intros _. vm_compute. discriminate. }
  destruct Hstored as (order & Horders & Hship & Hnone & _).
  { split_and!; reflexivity. }
  exists order. split; [exact Horders|].
  rewrite Hnone, Hship; reflexivity.
Defined.

(** C10 as stated fails: a billing address is not always stored as given.
    One whose e-mail the Order schema's pattern refuses makes the request,
    valid otherwise, fail with 500, and no order is stored. *)
Lemma createOrder_refuses_billing_address :
  Forall (itemValid (products shopDb)) (CreateOrderBody.items cartBilledInfo)
  ∧ CreateOrderBody.billingAddress cartBilledInfo = Some marinaInfo
  ∧ shippingAddressValid (CreateOrderBody.shippingAddress cartBilledInfo) = true
  ∧ createOrder 1700000000000 "K3F9Q" 7 cartBilledInfo shopDb
    = (Failure 500 "Server error creating order", shopDb).
Proof.
  split_and!; [|reflexivity|reflexivity|vm_compute; reflexivity].
  repeat constructor. exists productA. split_and!; [reflexivity..|].
  intros _. vm_compute. discriminate.
Qed.

(** ** Order cancellation *)







(** ** Order status updates *)

Lemma orderPreSave_status now m o :
  Order.status (orderPreSave now m o) = Order.status o.
Proof.
  unfold orderPreSave. destruct m; [|done].
  repeat (match goal with |- context [if ?b then _ else _] => destruct b end);
    done.
Qed.





(** ** Webhooks *)

Lemma paymentPreSave_kept now m p :
  Payment.status (paymentPreSave now m p) = Payment.status p
  ∧ Payment.gatewayReference (paymentPreSave now m p) = Payment.gatewayReference p
  ∧ Payment.order (paymentPreSave now m p) = Payment.order p
  ∧ Payment.user (paymentPreSave now m p) = Payment.user p
  ∧ Payment.amount (paymentPreSave now m p) = Payment.amount p
  ∧ Payment.refunds (paymentPreSave now m p) = Payment.refunds p.
Proof.
  unfold paymentPreSave. destruct m; [|done].
  repeat (match goal with |- context [if ?b then _ else _] => destruct b end);
    done.
Qed.

Lemma paymentPreSave_transaction now m p :
  Payment.gatewayTransactionId (paymentPreSave now m p)
  = Payment.gatewayTransactionId p.
Proof.
  unfold paymentPreSave. destruct m; [|done].
  repeat (match goal with |- context [if ?b then _ else _] => destruct b end);
    done.
Qed.

Lemma markCompleted_fields now tid md p :
  Payment.status (markCompleted now tid md p) = Payment.completed
  ∧ Payment.completedAt (markCompleted now tid md p) = Some now
  ∧ Payment.gatewayReference (markCompleted now tid md p)
    = Payment.gatewayReference p
  ∧ Payment.order (markCompleted now tid md p) = Payment.order p.
Proof.
  unfold markCompleted, savedPayment, paymentPreSave.
  destruct (truthy tid), (bool_decide (0 < size md)); simpl;
    destruct (negb (bool_decide (Payment.status p = Payment.completed)));
    done.
Qed.

Lemma list_find_insert_same {A} (P : A → Prop) `{∀ x, Decision (P x)}
    (l : list A) i x y :
  list_find P l = Some (i, x) → P y → list_find P (<[i := y]> l) = Some (i, y).
Proof.
  intros (Hl & Px & Hmin)%list_find_Some Py. apply list_find_Some.
  split_and!.
  - apply list_lookup_insert_eq. by eapply lookup_lt_Some.
  - done.
  - intros j z Hj Hlt. rewrite list_lookup_insert_ne in Hj by lia.
    by eapply Hmin.
Qed.

Lemma reconcile_not_pending now reference tid md db i p :
  list_find (λ p, Payment.gatewayReference p = reference) (payments db)
  = Some (i, p) →
  Payment.status p ≠ Payment.pending →
  reconcile now reference tid md db = db.
Proof.
  intros Hf Hs. unfold reconcile. rewrite Hf.
  by rewrite bool_decide_eq_false_2.
Qed.

Lemma reconcile_pending now reference tid md db i p :
  list_find (λ p, Payment.gatewayReference p = reference) (payments db)
  = Some (i, p) →
  Payment.status p = Payment.pending →
  payments (reconcile now reference tid md db)
  = <[i := markCompleted now tid md p]> (payments db)
  ∧ products (reconcile now reference tid md db) = products db
  ∧ carts (reconcile now reference tid md db) = carts db
  ∧ orders (reconcile now reference tid md db)
    = match orders db !! Payment.order p with
      | Some order =>
          <[Payment.order p :=
              savedOrder now order (Order.setStatus Order.processing order)]>
            (orders db)
      | None => orders db
      end.
Proof.
  intros Hf Hs. unfold reconcile. rewrite Hf.
  rewrite bool_decide_eq_true_2 by done. cbn [orders setPayments].
  by destruct (orders db !! Payment.order p).
Qed.

(** A second reconciliation of the same reference changes nothing. *)
Lemma reconcile_idempotent now1 now2 reference tid md db :
  reconcile now2 reference tid md (reconcile now1 reference tid md db)
  = reconcile now1 reference tid md db.
Proof.
  destruct (list_find (λ p, Payment.gatewayReference p = reference)
              (payments db)) as [[i p]|] eqn:Hf.
  - destruct (decide (Payment.status p = Payment.pending)) as [Hs|Hs].
    + destruct (reconcile_pending now1 reference tid md db i p Hf Hs)
        as (Hpay & _).
      destruct (markCompleted_fields now1 tid md p) as (Hst & _ & Href & _).
      eapply reconcile_not_pending.
      * rewrite Hpay. eapply list_find_insert_same; [exact Hf|].
        rewrite Href. by apply list_find_Some in Hf as (_ & ? & _).
      * rewrite Hst. done.
    + rewrite (reconcile_not_pending now1 _ _ _ _ _ _ Hf Hs).
      by eapply reconcile_not_pending.
  - assert (∀ now, reconcile now reference tid md db = db) as Hid.
    { intros now. unfold reconcile. by rewrite Hf. }
    by rewrite !Hid.
Qed.

Lemma handleWebhook_charge hmac env d reference :
  validlySigned hmac env d →
  chargeSucceeded d reference →
  ∃ tid md, ∀ now db,
    handleWebhook hmac now env d db
    = (Success 200 "success" (), reconcile now reference tid md db).
Proof.
  destruct d as [signature body|signature body]; simpl.
  - intros (secret & Hne & Hs & ->) (data & -> & Hst & <-).
    eexists _, _. intros now db. unfold webhookFlutterwave.
    rewrite Hs, Hst. simpl.
    rewrite bool_decide_eq_true_2 by done.
    apply String.eqb_neq in Hne. rewrite Hne. reflexivity.
  - intros (secret & Hs & ->) (data & Hev & Hd & <-).
    eexists _, _. intros now db. unfold webhookPaystack.
    rewrite Hs, Hev, Hd. simpl.
    rewrite bool_decide_eq_true_2 by done. reflexivity.
Qed.

(** C2.  For a validly signed charge-succeeded event delivered twice in a
    row, both deliveries are acknowledged with 200, and the second leaves the
    database exactly as the first left it.  When the payment found under the
    event's reference was [pending], the first delivery stores it as
    [completed] (time-stamped with that delivery) and its order as
    [processing]; when it was not [pending], the first delivery changes
    nothing either. *)
Theorem handleWebhook_idempotent hmac now1 now2 env d reference db :
  validlySigned hmac env d →
  chargeSucceeded d reference →
  let first := handleWebhook hmac now1 env d db in
  let second := handleWebhook hmac now2 env d first.2 in
  first.1 = Success 200 "success" ()
  ∧ second.1 = Success 200 "success" ()
  ∧ second.2 = first.2
  ∧ (∀ i p,
       list_find (λ p, Payment.gatewayReference p = reference) (payments db)
       = Some (i, p) →
       Payment.status p = Payment.pending →
       (∃ p', payments first.2 !! i = Some p'
              ∧ Payment.status p' = Payment.completed
              ∧ Payment.completedAt p' = Some now1
              ∧ payments second.2 !! i = Some p')
       ∧ (∀ j, j ≠ i → payments first.2 !! j = payments db !! j)
       ∧ (∀ order, orders db !! Payment.order p = Some order →
            ∃ order', orders first.2 !! Payment.order p = Some order'
                      ∧ Order.status order' = Order.processing))
  ∧ (∀ i p,
       list_find (λ p, Payment.gatewayReference p = reference) (payments db)
       = Some (i, p) →
       Payment.status p ≠ Payment.pending →
       first.2 = db).
Proof.
  intros Hsig Hev.
  destruct (handleWebhook_charge hmac env d reference Hsig Hev)
    as (tid & md & Hrun).
  cbv zeta. rewrite !Hrun. cbn [fst snd].
  rewrite reconcile_idempotent.
  split_and!; [done..| |].
  - intros i p Hf Hs.
    destruct (reconcile_pending now1 reference tid md db i p Hf Hs)
      as (Hpay & _ & _ & Hord).
    destruct (markCompleted_fields now1 tid md p) as (Hst & Hat & _ & _).
    pose proof Hf as (Hi & _ & _)%list_find_Some.
    split_and!.
    + exists (markCompleted now1 tid md p). rewrite Hpay.
      rewrite list_lookup_insert_eq by (by eapply lookup_lt_Some). done.
    + intros j Hj. rewrite Hpay. by rewrite list_lookup_insert_ne.
    + intros order Ho. rewrite Hord, Ho.
      eexists. split.
      * apply list_lookup_insert_eq. by eapply lookup_lt_Some.
      * unfold savedOrder. by rewrite orderPreSave_status.
  - intros i p Hf Hs. by eapply reconcile_not_pending.
Qed.

Lemma handleWebhook_idempotent_witness :
  let first :=
    handleWebhook toyDigest 1700000200000 liveEnv
      (ToFlutterwave (Some "whsec-hash") (Some chargeA))
      (paidShop Order.pending Payment.pending) in
  let second :=
    handleWebhook toyDigest 1700000300000 liveEnv
      (ToFlutterwave (Some "whsec-hash") (Some chargeA)) first.2 in
  first.1 = Success 200 "success" ()
  ∧ second.1 = Success 200 "success" ()
  ∧ second.2 = first.2.
Proof.
  pose proof (handleWebhook_idempotent toyDigest 1700000200000 1700000300000
                liveEnv (ToFlutterwave (Some "whsec-hash") (Some chargeA))
                (Some "shopease-0-1700000100000")
                (paidShop Order.pending Payment.pending)) as H.
  cbv zeta in H. destruct H as (H1 & H2 & H3 & _).
  - exists "whsec-hash". split_and!; [discriminate|reflexivity..].
  - exists chargeA. split_and!; reflexivity.
  - cbv zeta. split_and!; [exact H1|exact H2|exact H3].
Defined.

(** The two deliveries of the scenario above, evaluated: the first completes
    the payment at its own time and moves the order on, the second finds the
    payment [completed] and writes nothing. *)
Example handleWebhook_twice :
  let first :=
    handleWebhook toyDigest 1700000200000 liveEnv
      (ToFlutterwave (Some "whsec-hash") (Some chargeA))
      (paidShop Order.pending Payment.pending) in
  let second :=
    handleWebhook toyDigest 1700000300000 liveEnv
      (ToFlutterwave (Some "whsec-hash") (Some chargeA)) first.2 in
  (Payment.status <$> payments first.2 !! 0) = Some Payment.completed
  ∧ (Payment.completedAt <$> payments second.2 !! 0) = Some (Some 1700000200000%Z)
  ∧ (Order.status <$> orders second.2 !! 0) = Some Order.processing.
Proof. vm_compute. done. Qed.

(** C9.  A delivery whose signature header differs from the value derived
    from the pre-shared secret is answered 401 "Invalid signature" whatever
    the database holds, and the database is returned as it was. *)
Theorem handleWebhook_rejects_bad_signature hmac now env d db :
  signatureMismatch hmac env d →
  handleWebhook hmac now env d db = (Failure 401 "Invalid signature", db).
Proof.
  destruct d as [signature body|signature body]; simpl.
  - intros Hne. unfold webhookFlutterwave.
    rewrite (bool_decide_eq_false_2 _ Hne). by rewrite orb_true_r.
  - intros (secret & Hs & Hne). unfold webhookPaystack. rewrite Hs.
    rewrite bool_decide_eq_false_2; [done|]. congruence.
Qed.

Lemma handleWebhook_rejects_bad_signature_witness :
  handleWebhook toyDigest 1700000200000 liveEnv
    (ToFlutterwave (Some "guess") (Some chargeA))
    (paidShop Order.pending Payment.pending)
  = (Failure 401 "Invalid signature", paidShop Order.pending Payment.pending)
  ∧ handleWebhook toyDigest 1700000200000 liveEnv
      (ToPaystack (Some "sk-live-key:refund")
         (PaystackEvent.mk "charge.success" None))
      (paidShop Order.pending Payment.pending)
    = (Failure 401 "Invalid signature", paidShop Order.pending Payment.pending).
Proof.
  split.
  - apply (handleWebhook_rejects_bad_signature toyDigest).
    simpl. discriminate.
  - apply (handleWebhook_rejects_bad_signature toyDigest).
    exists "sk-live-key". split; [reflexivity|]. vm_compute. discriminate.
Defined.

(** ** Payment verification *)

Lemma markFailed_fields now message p :
  message ≠ "" →
  Payment.status (markFailed now None (Some message) p) = Payment.failed
  ∧ Payment.failedAt (markFailed now None (Some message) p) = Some now
  ∧ Payment.error (markFailed now None (Some message) p)
    = Some (PaymentError.mk None (Some message))
  ∧ Payment.order (markFailed now None (Some message) p) = Payment.order p
  ∧ Payment.amount (markFailed now None (Some message) p) = Payment.amount p.
Proof.
  intros Hne. apply String.eqb_neq in Hne.
  unfold markFailed, savedPayment, paymentPreSave, truthy. rewrite Hne. simpl.
  by destruct (negb (bool_decide (Payment.status p = Payment.failed))).
Qed.

(** C3, as the code has it.  When the provider of a stored payment cannot be
    reached, [verifyPayment] (called by the paying user) answers 400 with the
    message "Payment verification service unavailable" and stores the payment
    as [failed], with [failedAt] set to the time of the call and the message
    recorded as its error.  Every other field of the payment is kept, the
    fee total being recomputed from its parts as on every [save]; the other
    payments, the orders, the products and the carts are as they were. *)
Theorem verifyPayment_unreachable now world user paymentId db payment :
  payments db !! paymentId = Some payment →
  Payment.user payment = user →
  (Payment.gateway payment = "flutterwave"
   ∧ flutterwaveVerify world (Payment.gatewayReference payment) = Unreachable)
  ∨ (Payment.gateway payment = "paystack"
     ∧ paystackVerify world (Payment.gatewayReference payment) = Unreachable) →
  let failed :=
    Payment.mk (Payment.order payment) (Payment.user payment)
      (Payment.amount payment) (Payment.currency payment)
      (Payment.method payment) (Payment.gateway payment)
      (Payment.gatewayReference payment)
      (Payment.gatewayTransactionId payment) Payment.failed
      (Payment.metadata payment) (Payment.refunds payment)
      (Fees.mk (Fees.gateway (Payment.fees payment))
         (Fees.processing (Payment.fees payment))
         (Num.add (Fees.gateway (Payment.fees payment))
            (Fees.processing (Payment.fees payment))))
      (Some (PaymentError.mk None
               (Some "Payment verification service unavailable")))
      (Payment.initiatedAt payment) (Payment.completedAt payment) (Some now) in
  let result := verifyPayment now world user paymentId db in
  result
  = (Failure 400 "Payment verification service unavailable",
     setPayments (<[paymentId := failed]> (payments db)) db)
  ∧ payments result.2 !! paymentId = Some failed
  ∧ (∀ j, j ≠ paymentId → payments result.2 !! j = payments db !! j)
  ∧ orders result.2 = orders db
  ∧ products result.2 = products db
  ∧ carts result.2 = carts db.
Proof.
  intros Hp Hu Hgw. cbv zeta.
  assert (verifyPayment now world user paymentId db
          = (Failure 400 "Payment verification service unavailable",
             setPayments
               (<[paymentId :=
                    markFailed now None
                      (Some "Payment verification service unavailable")
                      payment]> (payments db)) db)) as Hrun.
  { unfold verifyPayment. rewrite Hp.
    rewrite bool_decide_eq_true_2 by done. simpl.
    destruct Hgw as [[Hg Hr]|[Hg Hr]]; rewrite Hg; simpl.
    - unfold verifyFlutterwavePayment. rewrite Hr. done.
    - unfold verifyPaystackPayment. rewrite Hr. done. }
  assert (markFailed now None
            (Some "Payment verification service unavailable") payment
          = Payment.mk (Payment.order payment) (Payment.user payment)
              (Payment.amount payment) (Payment.currency payment)
              (Payment.method payment) (Payment.gateway payment)
              (Payment.gatewayReference payment)
              (Payment.gatewayTransactionId payment) Payment.failed
              (Payment.metadata payment) (Payment.refunds payment)
              (Fees.mk (Fees.gateway (Payment.fees payment))
                 (Fees.processing (Payment.fees payment))
                 (Num.add (Fees.gateway (Payment.fees payment))
                    (Fees.processing (Payment.fees payment))))
              (Some (PaymentError.mk None
                       (Some "Payment verification service unavailable")))
              (Payment.initiatedAt payment) (Payment.completedAt payment)
              (Some now)) as Hfailed.
  { unfold markFailed, savedPayment, paymentPreSave. cbn.
    by destruct (negb (bool_decide (Payment.status payment = Payment.failed))). }
  rewrite Hrun, Hfailed. cbn [snd payments orders products carts setPayments].
  split_and!; try done.
  - apply list_lookup_insert_eq. by eapply lookup_lt_Some.
  - intros j Hj. by rewrite list_lookup_insert_ne.
Qed.

Lemma verifyPayment_unreachable_witness :
  ∃ failed,
    verifyPayment 1700000200000 offline 7 0
      (paidShop Order.pending Payment.pending)
    = (Failure 400 "Payment verification service unavailable",
       setPayments [failed] (paidShop Order.pending Payment.pending))
    ∧ Payment.status failed = Payment.failed
    ∧ Payment.amount failed = Num.ofZ 24000.
Proof.
  destruct (verifyPayment_unreachable 1700000200000 offline 7 0
              (paidShop Order.pending Payment.pending)
              (paymentOfA Payment.pending))
    as (Hrun & _).
  - reflexivity.
  - reflexivity.
  - left. split; reflexivity.
  - eexists. split; [exact Hrun|]. split; reflexivity.
Defined.

(** C3 as stated fails: with the provider unreachable, the stored payment
    does not stay as it was; it becomes [failed], with [failedAt] and an
    error recorded. *)
Lemma verifyPayment_unreachable_changes_payment :
  payments (paidShop Order.pending Payment.pending) !! 0
  = Some (paymentOfA Payment.pending)
  ∧ flutterwaveVerify offline
      (Payment.gatewayReference (paymentOfA Payment.pending)) = Unreachable
  ∧ ∃ failed,
      payments
        (verifyPayment 1700000200000 offline 7 0
           (paidShop Order.pending Payment.pending)).2 !! 0 = Some failed
      ∧ failed ≠ paymentOfA Payment.pending
      ∧ Payment.status failed = Payment.failed
      ∧ Payment.failedAt failed = Some 1700000200000%Z
      ∧ Payment.error failed
        = Some (PaymentError.mk None
                  (Some "Payment verification service unavailable")).
Proof.
  split_and!; [reflexivity..|].
  eexists. split_and!; [reflexivity| |reflexivity..].
  intros H. discriminate H.
Qed.


(** ** Payment initiation *)

Lemma filter_none {A} (P : A → Prop) `{∀ x, Decision (P x)} (l : list A) :
  Forall (λ x, ¬ P x) l → filter P l = [].
Proof.
  induction 1 as [|x l Hx _ IH]; [done|].
  by rewrite filter_cons_False.
Qed.

(** What a first initiation produces for the methods whose gateway the
    schema accepts. *)
Lemma initiatePayment_first now user orderId method db order :
  orders db !! orderId = Some order →
  Order.user order = user →
  Order.status order = Order.pending →
  method ≠ bank_transfer →
  Forall (λ p, ¬ blocksInitiation orderId p) (payments db) →
  ∃ data created,
    initiatePayment now user orderId method db
    = (Success 200 "Payment initiated successfully" data,
       setPayments (payments db ++ [created]) db)
    ∧ Payment.order created = orderId
    ∧ Payment.status created = Payment.pending
    ∧ Payment.amount created = Pricing.total (Order.pricing order).
Proof.
  intros Ho Hu Hs Hm Hnone.
  assert (list_find (blocksInitiation orderId) (payments db) = None) as Hf
    by (by apply list_find_None).
  unfold initiatePayment. rewrite Ho, Hf.
  rewrite !bool_decide_eq_true_2 by done. cbn [negb isSet].
  destruct method; try done; eexists _, _; (split; [vm_compute; reflexivity|done]).
Qed.

(** C4, as the code has it.  For a [pending] order owned by the requester,
    [initiatePayment] succeeds only if the order has no payment whose status
    is [pending], [processing] or [completed]; a payment in any other status
    ([failed] in particular) does not block.  From such a state, a call with
    method card, flutterwave or paystack succeeds and stores one [pending]
    payment for the order's total, and a call that follows it is answered 400
    "Payment already initiated for this order" and stores nothing, so the
    order then has exactly that one payment among the blocking ones. *)
Theorem initiatePayment_duplicate_guard
    now1 now2 user orderId method method2 db order :
  orders db !! orderId = Some order →
  Order.user order = user →
  Order.status order = Order.pending →
  (isSuccess (initiatePayment now1 user orderId method db).1 = true →
   Forall (λ p, ¬ blocksInitiation orderId p) (payments db))
  ∧ (∀ p, Payment.status p = Payment.failed → ¬ blocksInitiation orderId p)
  ∧ (method ≠ bank_transfer →
     Forall (λ p, ¬ blocksInitiation orderId p) (payments db) →
     let first := initiatePayment now1 user orderId method db in
     let second := initiatePayment now2 user orderId method2 first.2 in
     isSuccess first.1 = true
     ∧ second
       = (Failure 400 "Payment already initiated for this order", first.2)
     ∧ ∃ created,
         payments first.2 = payments db ++ [created]
         ∧ filter (blocksInitiation orderId) (payments second.2) = [created]
         ∧ Payment.status created = Payment.pending
         ∧ Payment.amount created = Pricing.total (Order.pricing order)).
Proof.
  intros Ho Hu Hs. split_and!.
  - unfold initiatePayment. rewrite Ho.
    rewrite !bool_decide_eq_true_2 by done. cbn [negb].
    destruct (list_find (blocksInitiation orderId) (payments db)) eqn:Hf;
      [done|].
    intros _. by apply (list_find_None (blocksInitiation orderId)) in Hf.
  - intros p Hp [_ Hin]. rewrite Hp in Hin.
    rewrite !elem_of_cons, elem_of_nil in Hin.
    by destruct Hin as [|[|[|]]].
  - intros Hm Hnone.
    destruct (initiatePayment_first now1 user orderId method db order
                Ho Hu Hs Hm Hnone)
      as (data & created & Hrun & Hord & Hst & Hamt).
    cbv zeta. rewrite Hrun. cbn [fst snd].
    assert (blocksInitiation orderId created) as Hb.
    { split; [done|]. rewrite Hst. by left. }
    assert (initiatePayment now2 user orderId method2
              (setPayments (payments db ++ [created]) db)
            = (Failure 400 "Payment already initiated for this order",
               setPayments (payments db ++ [created]) db)) as Hsecond.
    { unfold initiatePayment. cbn [orders payments setPayments]. rewrite Ho.
      rewrite !bool_decide_eq_true_2 by done. cbn [negb].
      destruct (list_find_elem_of (blocksInitiation orderId)
                  (payments db ++ [created]) created) as [x ->]; [|done..].
      apply elem_of_app. right. by left. }
    rewrite Hsecond. split_and!; [done..|].
    exists created. cbn [snd payments setPayments]. split_and!; [done| |done..].
    rewrite filter_app, filter_none by done.
    by rewrite filter_cons_True.
Qed.

Lemma initiatePayment_duplicate_guard_witness :
  let db := paidShop Order.pending Payment.failed in
  let first := initiatePayment 1700000400000 7 0 paystack db in
  let second := initiatePayment 1700000500000 7 0 card first.2 in
  isSuccess first.1 = true
  ∧ second = (Failure 400 "Payment already initiated for this order", first.2)
  ∧ length (filter (blocksInitiation 0) (payments second.2)) = 1.
Proof.
  pose proof (initiatePayment_duplicate_guard 1700000400000 1700000500000 7 0
                paystack card (paidShop Order.pending Payment.failed)
                (orderOfA Order.pending) eq_refl eq_refl eq_refl)
    as (_ & _ & H).
  cbv zeta in H. destruct H as (H1 & H2 & created & _ & Hfilter & _).
  - discriminate.
  - apply (bool_decide_unpack _). vm_compute. exact I.
  - cbv zeta. split_and!; [exact H1|exact H2|].
    rewrite Hfilter. reflexivity.
Defined.

(** C4 as stated fails: an order whose only payment is [refunded] (a status
    other than [failed]) is not protected; a new payment is initiated. *)
Lemma initiatePayment_despite_refunded :
  let db := paidShop Order.pending Payment.refunded in
  payments db = [paymentOfA Payment.refunded]
  ∧ Payment.order (paymentOfA Payment.refunded) = 0
  ∧ Payment.status (paymentOfA Payment.refunded) ≠ Payment.failed
  ∧ (Order.status <$> orders db !! 0) = Some Order.pending
  ∧ isSuccess (initiatePayment 1700000400000 7 0 paystack db).1 = true
  ∧ length (payments (initiatePayment 1700000400000 7 0 paystack db).2) = 2.
Proof. cbv zeta. split_and!; try reflexivity. discriminate. Qed.

(** The method [bank_transfer] is stored as the gateway, which the schema's
    enum does not contain: the first save is refused and the route answers
    500 without storing a payment. *)
Example initiatePayment_bank_transfer :
  initiatePayment 1700000400000 7 0 bank_transfer (shopWith Order.pending)
  = (Failure 500 "Server error initiating payment", shopWith Order.pending).
Proof. vm_compute. reflexivity. Qed.


(** ** Refunds *)

Lemma Num_positive amount :
  Num.leb amount (Num.ofZ 0) = false ∧ Num.isNaN amount = false
  ↔ Num.ltb (Num.ofZ 0) amount = true.
Proof. destruct amount as [[]|[]| |[] m e]; cbv; intuition congruence. Qed.

Lemma totalRefunded_push p refund q :
  Payment.refunds q = Payment.refunds p ++ [refund] →
  totalRefunded q = Num.add (totalRefunded p) (Refund.amount refund).
Proof. intros Hq. unfold totalRefunded. by rewrite Hq, fold_left_app. Qed.

Lemma addRefund_accepted now amount reason processedBy p p' :
  addRefund now amount reason processedBy p = inr p' →
  Num.ltb (Num.ofZ 0) amount = true
  ∧ Num.ltb (Payment.amount p) (Num.add (totalRefunded p) amount) = false
  ∧ (String.length reason ≤ 500)%nat
  ∧ Payment.refunds p'
    = Payment.refunds p ++ [Refund.mk amount reason processedBy now]
  ∧ Payment.amount p' = Payment.amount p
  ∧ totalRefunded p' = Num.add (totalRefunded p) amount.
Proof.
  unfold addRefund.
  destruct (Num.leb amount (Num.ofZ 0)) eqn:Hpos; [done|].
  destruct (Num.ltb (Payment.amount p) (Num.add (totalRefunded p) amount))
    eqn:Hfit; [done|].
  destruct (Num.isNaN amount) eqn:Hnan; [done|].
  destruct (String.length reason <=? 500)%nat eqn:Hlen; [|done].
  cbn [negb]. intros [= <-].
  apply Nat.leb_le in Hlen.
  unfold savedPayment.
  match goal with
  | |- context [paymentPreSave now ?m ?q] =>
      destruct (paymentPreSave_kept now m q) as (_ & _ & _ & _ & Ha & Hr);
      set (saved := paymentPreSave now m q) in *
  end.
  assert (Payment.refunds saved
          = Payment.refunds p ++ [Refund.mk amount reason processedBy now])
    as Hrefunds.
  { rewrite Hr. by case_match. }
  split_and!; [by apply Num_positive|done|done|done| |].
  - rewrite Ha. by case_match.
  - by rewrite (totalRefunded_push p _ _ Hrefunds).
Qed.

Lemma addRefund_accepts_iff now amount reason processedBy p :
  isInr (addRefund now amount reason processedBy p) = true
  ↔ Num.ltb (Num.ofZ 0) amount = true
    ∧ Num.ltb (Payment.amount p) (Num.add (totalRefunded p) amount) = false
    ∧ (String.length reason ≤ 500)%nat.
Proof.
  split.
  - destruct (addRefund now amount reason processedBy p) as [|p'] eqn:E;
      [done|].
    intros _. destruct (addRefund_accepted _ _ _ _ _ _ E) as (? & ? & ? & _).
    done.
  - intros (H0 & Hfit & Hlen). apply Num_positive in H0 as [Hpos Hnan].
    apply Nat.leb_le in Hlen.
    unfold addRefund. by rewrite Hpos, Hfit, Hnan, Hlen.
Qed.

(** C6, as the code has it.  Amounts are JavaScript Numbers and are added and
    compared as such.  [addRefund] does not look at the payment's status.  It
    accepts a refund exactly when the amount is greater than 0, the refunds
    already recorded plus the amount are not greater than the payment
    amount, and the reason has at most 500 characters; a call whose amount
    would take the refunds above the payment amount throws, and a refused
    call changes nothing.  An accepted call appends the refund, so the
    refunded total becomes the old total plus the amount and is not greater
    than the payment amount.  Over any sequence of calls, however the total
    is split, the refunded total is never greater than the payment amount. *)
Theorem addRefund_never_over_refunds now amount reason processedBy p :
  (∀ s, isInr (addRefund now amount reason processedBy (Payment.setStatus s p))
        = isInr (addRefund now amount reason processedBy p))
  ∧ (isInr (addRefund now amount reason processedBy p) = true
     ↔ Num.ltb (Num.ofZ 0) amount = true
       ∧ Num.ltb (Payment.amount p) (Num.add (totalRefunded p) amount) = false
       ∧ (String.length reason ≤ 500)%nat)
  ∧ (Num.ltb (Payment.amount p) (Num.add (totalRefunded p) amount) = true →
     ∃ message, addRefund now amount reason processedBy p = inl (Thrown message))
  ∧ (∀ p', addRefund now amount reason processedBy p = inr p' →
       Payment.refunds p'
       = Payment.refunds p ++ [Refund.mk amount reason processedBy now]
       ∧ Payment.amount p' = Payment.amount p
       ∧ totalRefunded p' = Num.add (totalRefunded p) amount
       ∧ Num.ltb (Payment.amount p') (totalRefunded p') = false)
  ∧ (∀ requests,
       Num.ltb (Payment.amount p) (totalRefunded p) = false →
       Payment.amount (applyRefunds now requests p) = Payment.amount p
       ∧ Num.ltb (Payment.amount p) (totalRefunded (applyRefunds now requests p))
         = false).
Proof.
  split_and!.
  - intros s. apply eq_true_iff_eq. rewrite !addRefund_accepts_iff. done.
  - apply addRefund_accepts_iff.
  - intros Hover. unfold addRefund. rewrite Hover.
    destruct (Num.leb amount (Num.ofZ 0)); by eexists.
  - intros p' E.
    destruct (addRefund_accepted _ _ _ _ _ _ E)
      as (_ & Hfit & _ & Hr & Ha & Ht).
    split_and!; [done..|]. by rewrite Ht, Ha.
  - intros requests. revert p.
    induction requests as [|[a r] requests IH]; intros p Hinv; [done|].
    cbn [applyRefunds].
    destruct (addRefund now a r None p) as [message|p'] eqn:E.
    + by apply IH.
    + destruct (addRefund_accepted _ _ _ _ _ _ E)
        as (_ & Hfit & _ & _ & Ha & Ht).
      destruct (IH p') as [Ha' Ht'].
      { by rewrite Ht, Ha. }
      rewrite Ha in Ha', Ht'. done.
Qed.

Lemma addRefund_never_over_refunds_witness :
  totalRefunded
    (applyRefunds 1700000600000
       [(Num.ofZ 12000, "damaged item"); (Num.ofZ 12000, "late delivery");
        (Num.ofZ 1, "goodwill")]
       (paymentOfA Payment.completed))
  = Num.ofZ 24000
  ∧ Num.ltb (Num.ofZ 24000)
      (totalRefunded
         (applyRefunds 1700000600000
            [(Num.ofZ 12000, "damaged item"); (Num.ofZ 12000, "late delivery");
             (Num.ofZ 1, "goodwill")]
            (paymentOfA Payment.completed)))
    = false.
Proof.
  pose proof (addRefund_never_over_refunds 1700000600000 (Num.ofZ 1)
                "goodwill" None (paymentOfA Payment.completed))
    as (_ & _ & _ & _ & H).
  destruct (H [(Num.ofZ 12000, "damaged item");
               (Num.ofZ 12000, "late delivery");
               (Num.ofZ 1, "goodwill")]) as [_ Hle].
  - vm_compute. reflexivity.
  - split; [vm_compute; reflexivity|exact Hle].
Defined.

(** C6 as stated fails twice: a refund is accepted on a [pending] payment,
    and a refund of half the amount of a [completed] payment leaves it
    [refunded] although 12000 of 24000 has been refunded. *)
Lemma addRefund_half_marks_refunded :
  isRefundable (paymentOfA Payment.pending) = false
  ∧ isInr (addRefund 1700000600000 (Num.ofZ 12000) "damaged item" None
             (paymentOfA Payment.pending)) = true
  ∧ ∃ p',
      addRefund 1700000600000 (Num.ofZ 12000) "damaged item" None
        (paymentOfA Payment.completed) = inr p'
      ∧ Payment.status p' = Payment.refunded
      ∧ totalRefunded p' = Num.ofZ 12000
      ∧ Payment.amount p' = Num.ofZ 24000
      ∧ Num.ltb (totalRefunded p') (Payment.amount p') = true.
Proof.
  split_and!; [vm_compute; reflexivity..|].
  eexists. split; [vm_compute; reflexivity|].
  split_and!; vm_compute; reflexivity.
Qed.

(** The sums are those of Numbers: on a payment of 0.3, after a refund of
    0.1 a refund of 0.2 is refused, because 0.1 + 0.2 is greater than 0.3;
    a refund that is not a number, or whose reason is longer than 500
    characters, is refused by the closing [save]. *)
Example addRefund_tenths :
  let payment :=
    Payment.mk 0 7 (Num.decimal 3 10) "NGN" "flutterwave" "flutterwave"
      (Some "shopease-0-1700000100000") None Payment.completed ∅ []
      (Fees.mk (Num.ofZ 0) (Num.ofZ 0) (Num.ofZ 0)) None 1700000100000 None
      None in
  ∃ p',
    addRefund 1700000600000 (Num.decimal 1 10) "first" None payment = inr p'
    ∧ addRefund 1700000700000 (Num.decimal 2 10) "second" None p'
      = inl (Thrown "Total refund amount cannot exceed payment amount")
    ∧ addRefund 1700000600000 S754_nan "none" None payment
      = inl (Invalid "refunds.0.amount")
    ∧ addRefund 1700000600000 (Num.decimal 1 10)
        (String.concat "" (repeat "x" 501)) None payment
      = inl (Invalid "refunds.0.reason").
Proof.
  eexists. split; [vm_compute; reflexivity|].
  split_and!; vm_compute; reflexivity.
Qed.

(** * Further properties *)

(** ** Orders: stock across creation and cancellation *)

(** The inventory loop stores no negative quantity, however it ends. *)
Lemma updateInventory_nonneg items :
  ∀ (ps ps' : gmap nat Product.t) ok,
  updateInventory ps items = (ps', ok) →
  ∀ pid p',
    ps' !! pid = Some p' →
    ps !! pid = Some p' ∨ (0 <= Inventory.quantity (Product.inventory p'))%Z.
Proof.
  induction items as [|item items IH]; intros ps ps' ok Hu pid p' Hp'.
  - injection Hu as <- _. by left.
  - cbn [updateInventory] in Hu.
    destruct (ps !! ReqItem.productId item) as [p|] eqn:Hp;
      [|injection Hu as <- _; by left].
    destruct (Inventory.trackInventory (Product.inventory p));
      [|by eapply IH].
    unfold ProductModel.save in Hu.
    cbn [Product.inventory Product.setQuantity Inventory.quantity] in Hu.
    destruct (Z.ltb_spec (Inventory.quantity (Product.inventory p)
                          - ReqItem.quantity item) 0) as [|Hge];
      [injection Hu as <- _; by left|].
    destruct (IH _ _ _ Hu pid p' Hp') as [Hsame|Hpos]; [|by right].
    destruct (decide (pid = ReqItem.productId item)) as [->|Hne].
    + rewrite lookup_insert_eq in Hsame. injection Hsame as <-. by right.
    + rewrite lookup_insert_ne in Hsame by done. by left.
Qed.

(** X1.  [createOrder] never leaves a negative quantity behind, whatever
    the request and however it is answered: afterwards every product is
    either exactly as it was or has a non-negative quantity; so a catalogue
    without negative quantities stays one. *)
Theorem createOrder_writes_nonnegative_stock now rnd user body db :
  (∀ pid p',
     products (createOrder now rnd user body db).2 !! pid = Some p' →
     products db !! pid = Some p'
     ∨ (0 <= Inventory.quantity (Product.inventory p'))%Z)
  ∧ ((∀ pid p, products db !! pid = Some p →
               (0 <= Inventory.quantity (Product.inventory p))%Z) →
     ∀ pid p',
       products (createOrder now rnd user body db).2 !! pid = Some p' →
       (0 <= Inventory.quantity (Product.inventory p'))%Z).
Proof.
  assert (∀ pid p',
            products (createOrder now rnd user body db).2 !! pid = Some p' →
            products db !! pid = Some p'
            ∨ (0 <= Inventory.quantity (Product.inventory p'))%Z) as Hstep.
  { intros pid p'. unfold createOrder.
    destruct (validateItems _ _ _ _) as [message|[subtotal orderItems]];
      [by left|].
    destruct (negb _ || _); [by left|].
    cbn [products setOrders].
    destruct (updateInventory _ _) as [ps ok] eqn:Hu.
    assert (products (setProducts ps
                        (setOrders
                           (orders db
                            ++ [orderPreSave now true
                                  (Order.mk (orderIdOf now rnd) user orderItems
                                     (computePricing subtotal)
                                     (CreateOrderBody.shippingAddress body)
                                     (match CreateOrderBody.billingAddress body with
                                      | Some billing => billing
                                      | None => CreateOrderBody.shippingAddress body
                                      end)
                                     (CreateOrderBody.paymentMethod body)
                                     Order.pending
                                     None None None None None None)]) db))
            = ps) as Hps by done.
    destruct ok; cbn [snd products setCarts setProducts]; intros Hp';
      by eapply updateInventory_nonneg. }
  split; [done|].
  intros Hdb pid p' Hp'. destruct (Hstep pid p' Hp') as [Hsame|Hpos]; [|done].
  by eapply Hdb.
Qed.

(** A request with two lines of three units of a product with five in
    stock: the second [save] is refused and the stock stays at 2. *)
Lemma createOrder_writes_nonnegative_stock_witness :
  ∃ p',
    products (createOrder 1700000000000 "K3F9Q" 7 cartTwice shopDb).2 !! 1
    = Some p'
    ∧ Inventory.quantity (Product.inventory p') = 2%Z
    ∧ (0 <= Inventory.quantity (Product.inventory p'))%Z.
Proof.
  destruct (createOrder_writes_nonnegative_stock 1700000000000 "K3F9Q" 7
              cartTwice shopDb) as [_ H].
  exists (Product.setQuantity 2 productA).
  split; [reflexivity|]. split; [reflexivity|].
  assert (∀ pid p, products shopDb !! pid = Some p →
                   (0 <= Inventory.quantity (Product.inventory p))%Z) as Hdb.
  { intros pid p Hp.
    destruct (decide (pid = 1%nat)) as [->|H1];
      [vm_compute in Hp; injection Hp as <-; vm_compute; discriminate|].
    destruct (decide (pid = 2%nat)) as [->|H2];
      [vm_compute in Hp; injection Hp as <-; vm_compute; discriminate|].
    unfold shopDb in Hp. cbn [products] in Hp.
    rewrite !lookup_insert_ne in Hp by done. done. }
  apply (H Hdb 1%nat). reflexivity.
Defined.









(** ** Webhooks and the other operations *)




Lemma markFailed_reference now code message p :
  Payment.gatewayReference (markFailed now code message p)
  = Payment.gatewayReference p.
Proof.
  unfold markFailed, savedPayment.
  match goal with
  | |- context [paymentPreSave now ?m ?q] =>
      destruct (paymentPreSave_kept now m q) as (_ & -> & _)
  end.
  by case_match.
Qed.

(** What [verifyPayment] does when the provider of the payment cannot be
    reached, in closed form. *)
Lemma verifyPayment_unreachable_run now world user paymentId db payment :
  payments db !! paymentId = Some payment →
  Payment.user payment = user →
  (Payment.gateway payment = "flutterwave"
   ∧ flutterwaveVerify world (Payment.gatewayReference payment) = Unreachable)
  ∨ (Payment.gateway payment = "paystack"
     ∧ paystackVerify world (Payment.gatewayReference payment) = Unreachable) →
  verifyPayment now world user paymentId db
  = (Failure 400 "Payment verification service unavailable",
     setPayments
       (<[paymentId :=
            markFailed now None
              (Some "Payment verification service unavailable") payment]>
          (payments db)) db).
Proof.
  intros Hp Hu Hgw. unfold verifyPayment. rewrite Hp.
  rewrite bool_decide_eq_true_2 by done. simpl.
  destruct Hgw as [[Hg Hr]|[Hg Hr]]; rewrite Hg; simpl.
  - unfold verifyFlutterwavePayment. rewrite Hr. done.
  - unfold verifyPaystackPayment. rewrite Hr. done.
Qed.

(** X5.  A verification that failed for lack of the provider is final for
    the webhook too: after [verifyPayment] has marked the payment [failed]
    because the provider was unreachable, a validly signed charge-succeeded
    event for that payment is acknowledged with 200 and changes nothing; the
    payment stays [failed]. *)
Theorem handleWebhook_after_failed_verification
    hmac now1 now2 world env d reference user i db p :
  list_find (λ p, Payment.gatewayReference p = reference) (payments db)
  = Some (i, p) →
  Payment.user p = user →
  (Payment.gateway p = "flutterwave"
   ∧ flutterwaveVerify world (Payment.gatewayReference p) = Unreachable)
  ∨ (Payment.gateway p = "paystack"
     ∧ paystackVerify world (Payment.gatewayReference p) = Unreachable) →
  validlySigned hmac env d →
  chargeSucceeded d reference →
  let verified := verifyPayment now1 world user i db in
  let delivered := handleWebhook hmac now2 env d verified.2 in
  (Payment.status <$> payments verified.2 !! i) = Some Payment.failed
  ∧ delivered = (Success 200 "success" (), verified.2).
Proof.
  intros Hf Hu Hgw Hsig Hev.
  pose proof Hf as (Hi & Href & _)%list_find_Some.
  destruct (handleWebhook_charge hmac env d reference Hsig Hev)
    as (tid & md & Hhook).
  cbv zeta.
  rewrite (verifyPayment_unreachable_run now1 world user i db p Hi Hu Hgw).
  rewrite Hhook. cbn [fst snd payments setPayments].
  set (failed := markFailed now1 None
                   (Some "Payment verification service unavailable") p).
  assert (Payment.status failed = Payment.failed) as Hst
    by (by apply markFailed_fields).
  split.
  - rewrite list_lookup_insert_eq by (by eapply lookup_lt_Some).
    cbn. by rewrite Hst.
  - f_equal. eapply (reconcile_not_pending _ _ _ _ _ i failed).
    + cbn [payments setPayments].
      eapply list_find_insert_same; [exact Hf|].
      unfold failed. by rewrite markFailed_reference.
    + by rewrite Hst.
Qed.

Lemma handleWebhook_after_failed_verification_witness :
  let verified :=
    verifyPayment 1700000150000 offline 7 0
      (paidShop Order.pending Payment.pending) in
  let delivered :=
    handleWebhook toyDigest 1700000200000 liveEnv
      (ToFlutterwave (Some "whsec-hash") (Some chargeA)) verified.2 in
  (Payment.status <$> payments verified.2 !! 0) = Some Payment.failed
  ∧ delivered = (Success 200 "success" (), verified.2).
Proof.
  apply (handleWebhook_after_failed_verification toyDigest 1700000150000
           1700000200000 offline liveEnv
           (ToFlutterwave (Some "whsec-hash") (Some chargeA))
           (Some "shopease-0-1700000100000") 7 0
           (paidShop Order.pending Payment.pending)
           (paymentOfA Payment.pending)).
  - reflexivity.
  - reflexivity.
  - left. split; reflexivity.
  - exists "whsec-hash". split_and!; [discriminate|reflexivity..].
  - exists chargeA. split_and!; reflexivity.
Defined.




(** An event without a reference: after a card payment, which has no
    reference, was initiated for a pending order, a validly signed
    Flutterwave event with status "successful" and no [tx_ref] completes that
    payment and moves the order to [processing]. *)
Example handleWebhook_without_reference :
  let initiated := initiatePayment 1700000100000 7 0 card (shopWith Order.pending) in
  let delivered :=
    handleWebhook toyDigest 1700000200000 liveEnv
      (ToFlutterwave (Some "whsec-hash")
         (Some (FlwData.mk "successful" None "4975363" (Num.ofZ 24000) "NGN")))
      initiated.2 in
  (Payment.gatewayReference <$> payments initiated.2 !! 0) = Some None
  ∧ (Payment.status <$> payments initiated.2 !! 0) = Some Payment.pending
  ∧ (Payment.status <$> payments delivered.2 !! 0) = Some Payment.completed
  ∧ (Order.status <$> orders delivered.2 !! 0) = Some Order.processing.
Proof. split_and!; vm_compute; reflexivity. Qed.

(** What an initiation through Flutterwave or Paystack stores. *)
Lemma initiatePayment_referenced now user orderId method db order :
  orders db !! orderId = Some order →
  Order.user order = user →
  Order.status order = Order.pending →
  method = flutterwave ∨ method = paystack →
  Forall (λ p, ¬ blocksInitiation orderId p) (payments db) →
  ∃ created,
    initiatePayment now user orderId method db
    = (Success 200 "Payment initiated successfully"
         (PaymentData.mk (length (payments db))
            (Pricing.total (Order.pricing order)) "NGN" (Order.orderId order)
            (Some ("shopease-" +:+ pretty orderId +:+ "-" +:+ pretty now))),
       setPayments (payments db ++ [created]) db)
    ∧ Payment.gatewayReference created
      = Some ("shopease-" +:+ pretty orderId +:+ "-" +:+ pretty now)
    ∧ Payment.status created = Payment.pending
    ∧ Payment.order created = orderId
    ∧ Payment.user created = user
    ∧ Payment.amount created = Pricing.total (Order.pricing order).
Proof.
  intros Ho Hu Hs Hm Hnone.
  assert (list_find (blocksInitiation orderId) (payments db) = None) as Hf
    by (by apply list_find_None).
  unfold initiatePayment. rewrite Ho, Hf.
  rewrite !bool_decide_eq_true_2 by done. cbn [negb isSet].
  destruct Hm as [-> | ->]; eexists; (split; [reflexivity|done]).
Qed.

(** X7.  The reference handed out by [initiatePayment] finds its payment
    again.  After an initiation through Flutterwave or Paystack for a
    [pending] order with no blocking payment, and provided no stored payment
    already carries the new reference, a validly signed charge-succeeded event
    with that reference completes the payment just created, for the order's
    total, and stores the order as [processing]. *)
Theorem initiatePayment_then_handleWebhook
    hmac now1 now2 env d user orderId method db order :
  orders db !! orderId = Some order →
  Order.user order = user →
  Order.status order = Order.pending →
  method = flutterwave ∨ method = paystack →
  Forall (λ p, ¬ blocksInitiation orderId p) (payments db) →
  let reference := "shopease-" +:+ pretty orderId +:+ "-" +:+ pretty now1 in
  Forall (λ p, Payment.gatewayReference p ≠ Some reference) (payments db) →
  validlySigned hmac env d →
  chargeSucceeded d (Some reference) →
  let initiated := initiatePayment now1 user orderId method db in
  let delivered := handleWebhook hmac now2 env d initiated.2 in
  (∃ data,
     initiated.1 = Success 200 "Payment initiated successfully" data
     ∧ PaymentData.reference data = Some reference
     ∧ PaymentData.paymentId data = length (payments db))
  ∧ delivered.1 = Success 200 "success" ()
  ∧ (∃ paid,
       payments delivered.2 !! length (payments db) = Some paid
       ∧ Payment.status paid = Payment.completed
       ∧ Payment.completedAt paid = Some now2
       ∧ Payment.order paid = orderId)
  ∧ (Order.status <$> orders delivered.2 !! orderId) = Some Order.processing.
Proof.
  intros Ho Hu Hs Hm Hnone reference Hfresh Hsig Hev.
  destruct (initiatePayment_referenced now1 user orderId method db order
              Ho Hu Hs Hm Hnone)
    as (created & Hrun & Href & Hst & Hord & _ & _).
  destruct (handleWebhook_charge hmac env d (Some reference) Hsig Hev)
    as (tid & md & Hhook).
  cbv zeta. rewrite Hrun, Hhook. cbn [fst snd].
  assert (list_find (λ p, Payment.gatewayReference p = Some reference)
            (payments (setPayments (payments db ++ [created]) db))
          = Some (length (payments db), created)) as Hf.
  { cbn [payments setPayments]. apply list_find_Some. split_and!.
    - by apply list_lookup_middle.
    - done.
    - intros j q Hj Hlt. rewrite lookup_app_l in Hj by done.
      by eapply (Forall_lookup_1 _ _ _ _ Hfresh). }
  destruct (reconcile_pending now2 (Some reference) tid md _ _ _ Hf Hst)
    as (Hpay & _ & _ & Horders).
  destruct (markCompleted_fields now2 tid md created) as (Hc & Hat & _ & Hco).
  cbn [orders payments setPayments] in Hpay, Horders.
  rewrite Hord, Ho in Horders.
  split_and!.
  - eexists. split_and!; reflexivity.
  - done.
  - exists (markCompleted now2 tid md created). rewrite Hpay.
    rewrite list_lookup_insert_eq by (rewrite length_app; simpl; lia).
    split_and!; [done..|]. by rewrite Hco.
  - rewrite Horders.
    rewrite list_lookup_insert_eq by (by eapply lookup_lt_Some).
    cbn. unfold savedOrder. by rewrite orderPreSave_status.
Qed.

Lemma initiatePayment_then_handleWebhook_witness :
  let db := shopWith Order.pending in
  let initiated := initiatePayment 1700000100000 7 0 flutterwave db in
  let delivered :=
    handleWebhook toyDigest 1700000200000 liveEnv
      (ToFlutterwave (Some "whsec-hash") (Some chargeA)) initiated.2 in
  delivered.1 = Success 200 "success" ()
  ∧ (Order.status <$> orders delivered.2 !! 0) = Some Order.processing.
Proof.
  pose proof (initiatePayment_then_handleWebhook toyDigest 1700000100000
                1700000200000 liveEnv
                (ToFlutterwave (Some "whsec-hash") (Some chargeA))
                7 0 flutterwave (shopWith Order.pending)
                (orderOfA Order.pending) eq_refl eq_refl eq_refl
                (or_introl eq_refl)) as H.
  cbv zeta in H. destruct H as (_ & H1 & _ & H2).
  - constructor.
  - constructor.
  - exists "whsec-hash". split_and!; [discriminate|reflexivity..].
  - exists chargeA. split_and!; reflexivity.
  - cbv zeta. split; [exact H1|exact H2].
Defined.

(** ** Verification replies *)

(** X8.  What [verifyPayment] makes of a Flutterwave reply, whatever the
    payment's and the order's status were.  A reply with status "successful"
    and an amount of at least the payment's amount completes the payment,
    records the provider's transaction id and stores the order as
    [processing]; any other reply marks the payment [failed] with the message
    "Payment verification failed".  The amounts are compared as Numbers. *)
Theorem verifyPayment_flutterwave_reply now world user i db p data :
  payments db !! i = Some p →
  Payment.user p = user →
  Payment.gateway p = "flutterwave" →
  flutterwaveVerify world (Payment.gatewayReference p) = Replied data →
  (FlwData.status data = "successful" →
   Num.leb (Payment.amount p) (FlwData.amount data) = true →
   FlwData.id data ≠ "" →
   ∀ order, orders db !! Payment.order p = Some order →
     ∃ paid saved db',
       verifyPayment now world user i db
       = (Success 200 "Payment verified successfully"
            (VerifiedData.mk i Payment.completed (Payment.amount p)
               (Payment.order p) Order.processing), db')
       ∧ payments db' = <[i := paid]> (payments db)
       ∧ Payment.status paid = Payment.completed
       ∧ Payment.completedAt paid = Some now
       ∧ Payment.gatewayTransactionId paid = Some (FlwData.id data)
       ∧ orders db' = <[Payment.order p := saved]> (orders db)
       ∧ Order.status saved = Order.processing
       ∧ Order.items saved = Order.items order)
  ∧ (FlwData.status data ≠ "successful"
     ∨ Num.leb (Payment.amount p) (FlwData.amount data) = false →
     ∃ failed,
       verifyPayment now world user i db
       = (Failure 400 "Payment verification failed",
          setPayments (<[i := failed]> (payments db)) db)
       ∧ Payment.status failed = Payment.failed
       ∧ Payment.failedAt failed = Some now).
Proof.
  intros Hp Hu Hg Hr. split.
  - intros Hst Hamt Hid order Ho.
    apply String.eqb_neq in Hid.
    unfold verifyPayment. rewrite Hp.
    rewrite bool_decide_eq_true_2 by done. rewrite Hg.
    cbn [negb String.eqb Ascii.eqb Bool.eqb].
    unfold verifyFlutterwavePayment. rewrite Hr, Hst, Hamt.
    cbn [String.eqb Ascii.eqb Bool.eqb andb VerificationResult.verified
         VerificationResult.transactionId VerificationResult.metadata
         orders setPayments].
    rewrite Ho.
    match goal with
    | |- context [markCompleted now ?t ?m p] =>
        destruct (markCompleted_fields now t m p) as (Hc & Hat & _ & _);
        set (paid := markCompleted now t m p) in *
    end.
    assert (Payment.amount paid = Payment.amount p
            ∧ Payment.gatewayTransactionId paid = Some (FlwData.id data))
      as [Ha Htid].
    { unfold paid, markCompleted, savedPayment.
      match goal with
      | |- context [paymentPreSave now ?m ?q] =>
          destruct (paymentPreSave_kept now m q) as (_ & _ & _ & _ & -> & _);
          rewrite (paymentPreSave_transaction now m q)
      end.
      unfold truthy. rewrite Hid. cbn [negb].
      by destruct (bool_decide _). }
    eexists paid, _, _. split.
    + rewrite Hc, Ha. unfold savedOrder. rewrite orderPreSave_status.
      reflexivity.
    + cbn [payments orders setOrders setPayments]. split_and!; try done.
      * unfold savedOrder. by rewrite orderPreSave_status.
      * unfold savedOrder, orderPreSave. by repeat case_match.
  - intros Hbad.
    assert (String.eqb (FlwData.status data) "successful"
            && Num.leb (Payment.amount p) (FlwData.amount data) = false) as Hv.
    { destruct Hbad as [Hne|Hlt].
      - apply String.eqb_neq in Hne. by rewrite Hne.
      - apply andb_false_iff. by right. }
    exists (markFailed now None (Some "Payment verification failed") p).
    split; [|split; by apply markFailed_fields].
    unfold verifyPayment. rewrite Hp.
    rewrite bool_decide_eq_true_2 by done. rewrite Hg.
    cbn [negb String.eqb Ascii.eqb Bool.eqb].
    unfold verifyFlutterwavePayment. rewrite Hr, Hv. done.
Qed.

Lemma verifyPayment_flutterwave_reply_witness :
  ∃ paid saved db',
    verifyPayment 1700000200000 online 7 0
      (paidShop Order.delivered Payment.failed)
    = (Success 200 "Payment verified successfully"
         (VerifiedData.mk 0 Payment.completed (Num.ofZ 24000) 0
            Order.processing), db')
    ∧ payments db' = [paid]
    ∧ Payment.status paid = Payment.completed
    ∧ orders db' = [saved]
    ∧ Order.status saved = Order.processing.
Proof.
  pose proof (verifyPayment_flutterwave_reply 1700000200000 online 7 0
                (paidShop Order.delivered Payment.failed)
                (paymentOfA Payment.failed) chargeA
                eq_refl eq_refl eq_refl eq_refl) as [H _].
  destruct (H eq_refl) with (order := orderOfA Order.delivered)
    as (paid & saved & db' & Hrun & Hpay & Hst & _ & _ & Hord & Host & _).
  - vm_compute. reflexivity.
  - discriminate.
  - reflexivity.
  - exists paid, saved, db'. split_and!; [exact Hrun|exact Hpay|exact Hst|exact Hord|exact Host].
Defined.


(** ** Order status updates: timestamps *)





(** ** Card number check *)

Lemma parseDigit_range c d : parseDigit c = Some d → (0 <= d <= 9)%Z.
Proof.
  unfold parseDigit. cbv zeta.
  destruct (Z.leb_spec 48 (Z.of_N (N_of_ascii c)));
    destruct (Z.leb_spec (Z.of_N (N_of_ascii c)) 57); simpl; try done.
  intros [= <-]. lia.
Qed.

Lemma luhnLoop_NaN chars double : luhnLoop chars None double = None.
Proof.
  revert double. induction chars as [|c chars IH]; intros double; [done|].
  cbn [luhnLoop]. by rewrite IH.
Qed.

Lemma luhnLoop_digits chars digits :
  Forall2 (λ c d, parseDigit c = Some d) chars digits →
  ∀ s double,
    luhnLoop chars (Some s) double = Some (s + luhnSum digits double)%Z.
Proof.
  induction 1 as [|c d chars digits Hc _ IH]; intros s double.
  - simpl. f_equal. lia.
  - cbn [luhnLoop luhnSum]. rewrite Hc.
    destruct double; cbn [luhnWeight negb]; rewrite IH; f_equal; lia.
Qed.

Lemma luhnLoop_non_digit chars :
  Exists (λ c, parseDigit c = None) chars →
  ∀ sum double, luhnLoop chars sum double = None.
Proof.
  induction 1 as [c chars Hc|c chars _ IH]; intros sum double.
  - cbn [luhnLoop]. rewrite Hc.
    destruct double, sum; apply luhnLoop_NaN.
  - cbn [luhnLoop]. apply IH.
Qed.

Lemma list_ascii_of_string_app s t :
  list_ascii_of_string (s +:+ t)
  = list_ascii_of_string s ++ list_ascii_of_string t.
Proof. induction s as [|c s IH]; [done|]. simpl. by rewrite IH. Qed.

(** X10.  [luhnCheck] refuses every card number that contains a character
    other than a decimal digit, wherever it stands. *)
Theorem luhnCheck_rejects_non_digits before c after :
  parseDigit c = None →
  luhnCheck (before +:+ String c after) = false.
Proof.
  intros Hc. unfold luhnCheck.
  rewrite luhnLoop_non_digit; [done|].
  rewrite list_ascii_of_string_app. cbn [list_ascii_of_string].
  apply Exists_exists. exists c. split; [|done].
  apply list_elem_of_In. rewrite <- in_rev. apply in_or_app. right. by left.
Qed.

Lemma luhnCheck_rejects_non_digits_witness :
  luhnCheck "4539 1488 0343 6467" = false.
Proof.
  apply (luhnCheck_rejects_non_digits "4539" " " "1488 0343 6467").
  reflexivity.
Defined.

Lemma digits_of chars :
  Forall (λ c, is_Some (parseDigit c)) chars →
  ∃ digits, Forall2 (λ c d, parseDigit c = Some d) chars digits.
Proof.
  induction 1 as [|c chars [d Hd] _ (digits & IH)]; [by exists []|].
  exists (d :: digits). by constructor.
Qed.

Lemma luhnWeight_range double d :
  (0 <= d <= 9)%Z → (0 <= luhnWeight double d <= 9)%Z.
Proof.
  intros Hd. unfold luhnWeight. destruct double; [|done].
  destruct (Z.ltb_spec 9 (d * 2)); lia.
Qed.

Lemma luhnWeight_inj double d d' :
  (0 <= d <= 9)%Z → (0 <= d' <= 9)%Z →
  luhnWeight double d = luhnWeight double d' → d = d'.
Proof.
  intros Hd Hd'. unfold luhnWeight. destruct double; [|done].
  destruct (Z.ltb_spec 9 (d * 2)), (Z.ltb_spec 9 (d' * 2)); lia.
Qed.

Lemma parseDigit_inj c c' d :
  parseDigit c = Some d → parseDigit c' = Some d → c = c'.
Proof.
  unfold parseDigit. cbv zeta.
  destruct ((_ <=? _)%Z && (_ <=? _)%Z); [|done].
  destruct ((_ <=? _)%Z && (_ <=? _)%Z); [|done].
  intros [= H1] [= H2].
  rewrite <- (ascii_N_embedding c), <- (ascii_N_embedding c').
  f_equal. lia.
Qed.

Lemma parseDigit_digit d :
  (0 <= d <= 9)%Z → parseDigit (ascii_of_N (Z.to_N (48 + d))) = Some d.
Proof.
  intros Hd. unfold parseDigit. cbv zeta.
  rewrite N_ascii_embedding by lia.
  rewrite Z2N.id by lia.
  destruct (Z.leb_spec 48 (48 + d)); [|lia].
  destruct (Z.leb_spec (48 + d) 57); [|lia].
  simpl. f_equal. lia.
Qed.

Lemma luhnCheck_append payload digits c :
  Forall2 (λ c d, parseDigit c = Some d)
    (rev (list_ascii_of_string payload)) digits →
  luhnCheck (payload +:+ String c "")
  = match parseDigit c with
    | Some d => ((d + luhnSum digits true) mod 10 =? 0)%Z
    | None => false
    end.
Proof.
  intros Hd. unfold luhnCheck.
  rewrite list_ascii_of_string_app. cbn [list_ascii_of_string].
  rewrite rev_app_distr. cbn [rev app luhnLoop].
  destruct (parseDigit c) as [d|]; [|by rewrite luhnLoop_NaN].
  cbn [negb]. rewrite (luhnLoop_digits _ _ Hd).
  by replace (0 + d + luhnSum digits true)%Z
    with (d + luhnSum digits true)%Z by lia.
Qed.

(** X11.  Every string of digits has exactly one check digit: among the
    characters that can be appended to it, precisely one makes [luhnCheck]
    accept the result, and it is a digit. *)
Theorem luhnCheck_unique_check_digit payload :
  allDigits payload →
  ∃ c,
    is_Some (parseDigit c)
    ∧ luhnCheck (payload +:+ String c "") = true
    ∧ ∀ c', luhnCheck (payload +:+ String c' "") = true → c' = c.
Proof.
  intros Hall.
  destruct (digits_of (rev (list_ascii_of_string payload))) as (digits & Hd).
  { apply Forall_forall. intros c Hc. apply list_elem_of_In, in_rev in Hc.
    eapply Forall_forall in Hall; [exact Hall|]. by apply list_elem_of_In. }
  set (S := luhnSum digits true).
  set (d := ((- S) mod 10)%Z).
  assert (0 <= d <= 9)%Z as Hrange.
  { unfold d. pose proof (Z.mod_pos_bound (- S) 10). lia. }
  exists (ascii_of_N (Z.to_N (48 + d))). split_and!.
  - rewrite parseDigit_digit by done. by eexists.
  - rewrite (luhnCheck_append _ _ _ Hd), parseDigit_digit by done.
    apply Z.eqb_eq. fold S. unfold d.
    rewrite Z.add_comm, Zplus_mod_idemp_r.
    replace (S + - S)%Z with 0%Z by lia. done.
  - intros c'. rewrite (luhnCheck_append _ _ _ Hd).
    destruct (parseDigit c') as [d'|] eqn:Hc'; [|done].
    intros Hok%Z.eqb_eq. fold S in Hok.
    apply (parseDigit_inj _ _ d'); [done|].
    rewrite parseDigit_digit by done. f_equal.
    pose proof (parseDigit_range _ _ Hc').
    assert (((d + S) mod 10)%Z = 0%Z) as Hd0.
    { unfold d. rewrite Z.add_comm, Zplus_mod_idemp_r.
      replace (S + - S)%Z with 0%Z by lia. done. }
    apply Z.mod_divide in Hok; [|lia]. apply Z.mod_divide in Hd0; [|lia].
    destruct Hok as [k Hk], Hd0 as [k0 Hk0]. lia.
Qed.

Lemma luhnCheck_unique_check_digit_witness :
  ∃ c,
    is_Some (parseDigit c)
    ∧ luhnCheck ("453914880343646" +:+ String c "") = true
    ∧ ∀ c', luhnCheck ("453914880343646" +:+ String c' "") = true → c' = c.
Proof.
  apply (luhnCheck_unique_check_digit "453914880343646").
  unfold allDigits. cbn [list_ascii_of_string].
  repeat (constructor; [by eexists|]). constructor.
Defined.

Lemma luhnSum_app digits1 :
  ∀ double, ∃ double',
    ∀ digits2,
      luhnSum (digits1 ++ digits2) double
      = (luhnSum digits1 double + luhnSum digits2 double')%Z.
Proof.
  induction digits1 as [|d digits1 IH]; intros double.
  - exists double. intros digits2. simpl. lia.
  - destruct (IH (negb double)) as (double' & Hsplit).
    exists double'. intros digits2. cbn [app luhnSum]. rewrite Hsplit. lia.
Qed.

(** X12.  [luhnCheck] detects every substitution of a single digit: if a
    number of digits passes, the number obtained by replacing one of its
    digits by a different digit does not. *)
Theorem luhnCheck_detects_substitution before c c' after :
  allDigits before → allDigits after →
  is_Some (parseDigit c) → is_Some (parseDigit c') → c ≠ c' →
  luhnCheck (before +:+ String c after) = true →
  luhnCheck (before +:+ String c' after) = false.
Proof.
  intros Hb Ha [d Hd] [d' Hd'] Hne.
  destruct (digits_of (rev (list_ascii_of_string after))) as (da & Hda).
  { apply Forall_forall. intros x Hx. apply list_elem_of_In, in_rev in Hx.
    eapply Forall_forall in Ha; [exact Ha|]. by apply list_elem_of_In. }
  destruct (digits_of (rev (list_ascii_of_string before))) as (db & Hdb).
  { apply Forall_forall. intros x Hx. apply list_elem_of_In, in_rev in Hx.
    eapply Forall_forall in Hb; [exact Hb|]. by apply list_elem_of_In. }
  assert (∀ x dx, parseDigit x = Some dx →
            luhnLoop (rev (list_ascii_of_string (before +:+ String x after)))
              (Some 0%Z) false
            = Some (0 + luhnSum (da ++ dx :: db) false)%Z) as Hrun.
  { intros x dx Hx. apply luhnLoop_digits.
    rewrite list_ascii_of_string_app. cbn [list_ascii_of_string].
    rewrite rev_app_distr. cbn [rev]. rewrite <- app_assoc. cbn [app].
    apply Forall2_app; [done|]. by constructor. }
  unfold luhnCheck. rewrite (Hrun c d Hd), (Hrun c' d' Hd').
  destruct (luhnSum_app da false) as (double & Hsplit).
  rewrite !Hsplit. cbn [luhnSum].
  intros Hok%Z.eqb_eq. apply Z.eqb_neq. intros Hok'.
  apply Z.mod_divide in Hok; [|lia]. apply Z.mod_divide in Hok'; [|lia].
  destruct Hok as [k Hk], Hok' as [k' Hk'].
  pose proof (parseDigit_range _ _ Hd) as Hr.
  pose proof (parseDigit_range _ _ Hd') as Hr'.
  pose proof (luhnWeight_range double d Hr).
  pose proof (luhnWeight_range double d' Hr').
  assert (luhnWeight double d = luhnWeight double d') as Hw by lia.
  apply luhnWeight_inj in Hw; [|done..]. subst d'.
  apply Hne. by eapply parseDigit_inj.
Qed.

Lemma luhnCheck_detects_substitution_witness :
  luhnCheck "4539148803436467" = true
  ∧ luhnCheck "4539148803436477" = false.
Proof.
  split; [reflexivity|].
  apply (luhnCheck_detects_substitution "45391488034364" "6" "7" "7");
    try (by eexists); try discriminate; try reflexivity;
    unfold allDigits; cbn [list_ascii_of_string];
    repeat (constructor; [by eexists|]); constructor.
Defined.


(** ** Product and User model methods *)

(** X13.  The Product method [updateInventory] never stores a negative
    quantity: when it succeeds the stored quantity is non-negative, and it is
    the old one plus the change for a tracked product and the old one for an
    untracked product.  Taking units out and putting the same number back
    returns the original document, and two successful changes in a row
    amount to the single change by their sum. *)
Theorem updateInventory_never_negative change p :
  (∀ p', ProductModel.updateInventory change p = inr p' →
     (0 <= Inventory.quantity (Product.inventory p'))%Z
     ∧ p' = if Inventory.trackInventory (Product.inventory p)
            then Product.setQuantity
                   (Inventory.quantity (Product.inventory p) + change)%Z p
            else p)
  ∧ (∀ p', (0 <= Inventory.quantity (Product.inventory p))%Z →
       ProductModel.updateInventory (- change) p = inr p' →
       ProductModel.updateInventory change p' = inr p)
  ∧ (∀ b p1 p2,
       ProductModel.updateInventory change p = inr p1 →
       ProductModel.updateInventory b p1 = inr p2 →
       ProductModel.updateInventory (change + b) p = inr p2).
Proof.
  destruct p as [t pr st [q tr]].
  unfold ProductModel.updateInventory, ProductModel.save, Product.setQuantity.
  cbn. destruct tr; cbn; split_and!.
  - intros p'. destruct (Z.ltb_spec (q + change) 0); [done|].
    intros [= <-]. cbn. done.
  - intros p' Hq. destruct (Z.ltb_spec (q + - change) 0); [done|].
    intros [= <-]. cbn.
    replace (q + - change + change)%Z with q by lia.
    destruct (Z.ltb_spec q 0); [lia|done].
  - intros b p1 p2. destruct (Z.ltb_spec (q + change) 0); [done|].
    intros [= <-]. cbn. destruct (Z.ltb_spec (q + change + b) 0); [done|].
    intros [= <-]. replace (q + (change + b))%Z with (q + change + b)%Z by lia.
    destruct (Z.ltb_spec (q + change + b) 0); [lia|done].
  - intros p'. destruct (Z.ltb_spec q 0); [done|]. intros [= <-]. done.
  - intros p' Hq. destruct (Z.ltb_spec q 0); [done|]. intros [= <-]. cbn.
    destruct (Z.ltb_spec q 0); [lia|done].
  - intros b p1 p2. destruct (Z.ltb_spec q 0); [done|]. intros [= <-]. cbn.
    destruct (Z.ltb_spec q 0); [lia|]. done.
Qed.

Lemma updateInventory_never_negative_witness :
  ProductModel.updateInventory (-2) productA
  = inr (Product.setQuantity 3 productA)
  ∧ ProductModel.updateInventory 2 (Product.setQuantity 3 productA)
    = inr productA.
Proof.
  pose proof (updateInventory_never_negative 2 productA) as (_ & Hback & _).
  split; [reflexivity|].
  apply Hback; [vm_compute; discriminate|reflexivity].
Defined.

Lemma inCart_insert (items : list CartItem.t) i item q pid :
  items !! i = Some item →
  inCart pid (<[i := CartItem.mk (CartItem.product item) q]> items)
  = (inCart pid items
     + (if bool_decide (CartItem.product item = pid)
        then q - CartItem.quantity item else 0))%Z.
Proof.
  revert i. induction items as [|x items IH]; intros i Hi; [done|].
  destruct i as [|i]; simpl in Hi |- *.
  - injection Hi as ->. cbn [CartItem.product CartItem.quantity].
    case_bool_decide; lia.
  - rewrite (IH i Hi). lia.
Qed.

Lemma inCart_app pid (items1 items2 : list CartItem.t) :
  inCart pid (items1 ++ items2) = (inCart pid items1 + inCart pid items2)%Z.
Proof.
  induction items1 as [|x items1 IH]; [done|]. cbn [app inCart].
  rewrite IH. lia.
Qed.

Lemma products_insert (items : list CartItem.t) i item q :
  items !! i = Some item →
  map CartItem.product (<[i := CartItem.mk (CartItem.product item) q]> items)
  = map CartItem.product items.
Proof.
  revert i. induction items as [|x items IH]; intros i Hi; [done|].
  destruct i as [|i]; simpl in Hi |- *.
  - by injection Hi as ->.
  - by rewrite (IH i Hi).
Qed.

Lemma find_line_None (items : list CartItem.t) productId :
  list_find (λ item, CartItem.product item = productId) items = None →
  productId ∉ map CartItem.product items.
Proof.
  intros Hf Hin.
  apply (list_find_None (λ item, CartItem.product item = productId)) in Hf.
  apply list_elem_of_fmap in Hin as (item & -> & Hitem).
  by eapply (proj1 (Forall_forall _ _) Hf).
Qed.

Lemma userSave_inr c c' :
  UserModel.save c = inr c' →
  c' = c ∧ Forall (λ item, (1 <= CartItem.quantity item)%Z) (Cart.items c).
Proof.
  unfold UserModel.save.
  destruct (forallb _ _) eqn:Hall; [|done]. intros [= <-]. split; [done|].
  apply Forall_forall. intros item Hin.
  rewrite forallb_forall in Hall.
  apply list_elem_of_In, Hall in Hin. by apply Z.leb_le in Hin.
Qed.

(** X14.  The User method [addToCart] keeps one line per product.  When
    it succeeds, a cart with one line per product still has one line per
    product, the quantity of the product added grows by the quantity given
    (by 1 when none is given), the quantity of every other product is
    unchanged, and every line holds at least one unit. *)
Theorem addToCart_one_line_per_product now productId quantity c c' :
  UserModel.addToCart now productId quantity c = inr c' →
  (oneLinePerProduct (Cart.items c) → oneLinePerProduct (Cart.items c'))
  ∧ (∀ pid,
       inCart pid (Cart.items c')
       = (inCart pid (Cart.items c)
          + (if bool_decide (pid = productId) then default 1 quantity else 0))%Z)
  ∧ Forall (λ item, (1 <= CartItem.quantity item)%Z) (Cart.items c')
  ∧ Cart.lastUpdated c' = Some now.
Proof.
  unfold UserModel.addToCart. cbv zeta.
  destruct (list_find _ _) as [[i item]|] eqn:Hf.
  - intros [-> Hall]%userSave_inr. cbn [Cart.items Cart.lastUpdated] in *.
    pose proof Hf as (Hi & Hprod & _)%list_find_Some.
    split_and!; [|  |done..].
    + unfold oneLinePerProduct. by rewrite (products_insert _ _ _ _ Hi).
    + intros pid. rewrite (inCart_insert _ _ _ _ _ Hi). rewrite Hprod.
      repeat case_bool_decide; subst; try done; lia.
  - intros [-> Hall]%userSave_inr. cbn [Cart.items Cart.lastUpdated] in *.
    split_and!; [| |done..].
    + unfold oneLinePerProduct. rewrite map_app. cbn. intros Hnd.
      apply NoDup_app. split_and!; [done| |apply NoDup_singleton].
      intros x Hx ->%list_elem_of_singleton.
      by apply (find_line_None _ _ Hf).
    + intros pid. rewrite inCart_app. cbn.
      repeat case_bool_decide; subst; try done; lia.
Qed.

Lemma addToCart_one_line_per_product_witness :
  ∃ c',
    UserModel.addToCart 1700000000000 1 (Some 2%Z)
      (Cart.mk [CartItem.mk 1 1; CartItem.mk 2 1] None) = inr c'
    ∧ inCart 1 (Cart.items c') = 3%Z
    ∧ oneLinePerProduct (Cart.items c').
Proof.
  eexists. split; [reflexivity|].
  destruct (addToCart_one_line_per_product 1700000000000 1 (Some 2%Z)
              (Cart.mk [CartItem.mk 1 1; CartItem.mk 2 1] None) _ eq_refl)
    as (Hnd & Hq & _).
  split.
  - rewrite Hq. reflexivity.
  - apply Hnd. apply (bool_decide_unpack _). vm_compute. exact I.
Defined.

Lemma find_line_Some (items : list CartItem.t) productId :
  productId ∈ map CartItem.product items →
  ∃ i item,
    list_find (λ item, CartItem.product item = productId) items = Some (i, item)
    ∧ items !! i = Some item ∧ CartItem.product item = productId.
Proof.
  intros (item & -> & Hitem)%list_elem_of_fmap.
  destruct (list_find_elem_of (λ x, CartItem.product x = CartItem.product item)
              items item Hitem eq_refl) as [[i x] Hf].
  exists i, x. split; [done|].
  by apply list_find_Some in Hf as (? & ? & _).
Qed.

Lemma inCart_filter_other pid productId (items : list CartItem.t) :
  pid ≠ productId →
  inCart pid (filter (λ item, CartItem.product item ≠ productId) items)
  = inCart pid items.
Proof.
  intros Hne. induction items as [|x items IH]; [done|].
  destruct (decide (CartItem.product x = productId)) as [Heq|Hneq].
  - rewrite filter_cons_False by (intros H; by apply H).
    cbn [inCart]. rewrite IH. rewrite bool_decide_eq_false_2 by congruence. lia.
  - rewrite filter_cons_True by done. cbn [inCart]. by rewrite IH.
Qed.

Lemma inCart_not_in pid (items : list CartItem.t) :
  pid ∉ map CartItem.product items → inCart pid items = 0%Z.
Proof.
  induction items as [|x items IH]; [done|].
  cbn [map inCart]. rewrite not_elem_of_cons. intros [Hne Hnin].
  rewrite bool_decide_eq_false_2 by done. rewrite IH by done. done.
Qed.

(** X15.  The User methods that shrink a cart.  [removeFromCart] leaves no
    line of the product and does not touch the quantity of any other
    product.  [updateCartItemQuantity] throws "Item not found in cart" for a
    product that is not in the cart, is [removeFromCart] for a quantity of
    zero or less, and otherwise, in a cart with one line per product, sets
    the quantity of the product to the given one and leaves the others. *)
Theorem updateCartItemQuantity_cases now productId quantity c :
  (productId ∉ map CartItem.product (Cart.items c) →
   UserModel.updateCartItemQuantity now productId quantity c
   = inl (Thrown "Item not found in cart"))
  ∧ (productId ∈ map CartItem.product (Cart.items c) →
     (quantity <= 0)%Z →
     UserModel.updateCartItemQuantity now productId quantity c
     = UserModel.removeFromCart now productId c)
  ∧ (∀ c', UserModel.removeFromCart now productId c = inr c' →
       (productId ∉ map CartItem.product (Cart.items c'))
       ∧ ∀ pid, pid ≠ productId →
           inCart pid (Cart.items c') = inCart pid (Cart.items c))
  ∧ (∀ c', oneLinePerProduct (Cart.items c) →
       (0 < quantity)%Z →
       UserModel.updateCartItemQuantity now productId quantity c = inr c' →
       inCart productId (Cart.items c') = quantity
       ∧ oneLinePerProduct (Cart.items c')
       ∧ ∀ pid, pid ≠ productId →
           inCart pid (Cart.items c') = inCart pid (Cart.items c)).
Proof.
  split_and!.
  - intros Hnin. unfold UserModel.updateCartItemQuantity.
    destruct (list_find _ _) as [[i item]|] eqn:Hf; [|done].
    exfalso. apply Hnin. apply list_find_Some in Hf as (Hi & <- & _).
    apply list_elem_of_fmap. exists item. split; [done|].
    by eapply list_elem_of_lookup_2.
  - intros (i & item & Hf & _)%find_line_Some Hq.
    unfold UserModel.updateCartItemQuantity. rewrite Hf.
    by destruct (Z.leb_spec quantity 0); [|lia].
  - intros c' [-> _]%userSave_inr. cbn [Cart.items]. split.
    + intros (item & Hp & Hin)%list_elem_of_fmap.
      apply list_elem_of_filter in Hin as [Hne _]. by apply Hne.
    + intros pid Hne. by apply inCart_filter_other.
  - intros c' Hnd Hq. unfold UserModel.updateCartItemQuantity.
    destruct (list_find _ _) as [[i item]|] eqn:Hf; [|done].
    destruct (Z.leb_spec quantity 0); [lia|].
    intros [-> _]%userSave_inr. cbn [Cart.items].
    pose proof Hf as (Hi & Hprod & _)%list_find_Some.
    split_and!.
    + rewrite (inCart_insert _ _ _ _ _ Hi), Hprod.
      rewrite bool_decide_eq_true_2 by done.
      assert (inCart productId (Cart.items c) = CartItem.quantity item) as ->;
        [|lia].
      clear Hf. revert i Hi Hnd. unfold oneLinePerProduct.
      induction (Cart.items c) as [|x items IH]; intros i Hi Hnd; [done|].
      cbn [map] in Hnd. apply NoDup_cons in Hnd as [Hfresh Hnd].
      destruct i as [|i]; cbn in Hi.
      * injection Hi as ->. cbn [inCart].
        rewrite bool_decide_eq_true_2 by done.
        rewrite inCart_not_in; [lia|]. by rewrite <- Hprod.
      * cbn [inCart]. rewrite (IH i Hi Hnd).
        rewrite bool_decide_eq_false_2; [lia|].
        intros Heq. apply Hfresh. rewrite Heq, <- Hprod.
        apply list_elem_of_fmap. exists item. split; [done|].
        by eapply list_elem_of_lookup_2.
    + unfold oneLinePerProduct. by rewrite (products_insert _ _ _ _ Hi).
    + intros pid Hne. rewrite (inCart_insert _ _ _ _ _ Hi), Hprod.
      rewrite bool_decide_eq_false_2 by done. lia.
Qed.

Lemma updateCartItemQuantity_cases_witness :
  UserModel.updateCartItemQuantity 1700000000000 2 0
    (Cart.mk [CartItem.mk 1 1; CartItem.mk 2 4] None)
  = inr (Cart.mk [CartItem.mk 1 1] (Some 1700000000000%Z)).
Proof.
  pose proof (updateCartItemQuantity_cases 1700000000000 2 0
                (Cart.mk [CartItem.mk 1 1; CartItem.mk 2 4] None))
    as (_ & Hzero & _).
  rewrite Hzero; [reflexivity| |done].
  apply (bool_decide_unpack _). vm_compute. exact I.
Defined.

Lemma filter_other_id (productId : nat) (wishlist : list nat) :
  productId ∉ wishlist → filter (λ id, id ≠ productId) wishlist = wishlist.
Proof.
  induction wishlist as [|x wishlist IH]; [done|].
  rewrite not_elem_of_cons. intros [Hne Hnin].
  rewrite filter_cons_True by done. by rewrite IH.
Qed.

(** X16.  The wishlist methods.  [addToWishlist] never stores a product
    twice and adding a product a second time changes nothing;
    [removeFromWishlist] leaves no occurrence of the product; and removing a
    product right after adding it to a wishlist that did not hold it gives
    the wishlist back. *)
Theorem wishlist_add_remove productId wishlist :
  (NoDup wishlist → NoDup (UserModel.addToWishlist productId wishlist))
  ∧ productId ∈ UserModel.addToWishlist productId wishlist
  ∧ UserModel.addToWishlist productId
      (UserModel.addToWishlist productId wishlist)
    = UserModel.addToWishlist productId wishlist
  ∧ (productId ∉ UserModel.removeFromWishlist productId wishlist)
  ∧ (productId ∉ wishlist →
     UserModel.removeFromWishlist productId
       (UserModel.addToWishlist productId wishlist) = wishlist).
Proof.
  assert (productId ∈ UserModel.addToWishlist productId wishlist) as Hin.
  { unfold UserModel.addToWishlist. case_bool_decide; [done|].
    apply elem_of_app. right. by left. }
  split_and!.
  - intros Hnd. unfold UserModel.addToWishlist. case_bool_decide; [done|].
    apply NoDup_app. split_and!; [done| |apply NoDup_singleton].
    by intros x Hx ->%list_elem_of_singleton.
  - done.
  - unfold UserModel.addToWishlist at 1. by rewrite bool_decide_eq_true_2.
  - unfold UserModel.removeFromWishlist.
    intros [Hne _]%list_elem_of_filter. by apply Hne.
  - intros Hnin. unfold UserModel.addToWishlist, UserModel.removeFromWishlist.
    rewrite bool_decide_eq_false_2 by done.
    rewrite filter_app, filter_other_id by done.
    rewrite filter_cons_False by (intros H; by apply H).
    by rewrite app_nil_r.
Qed.

Lemma wishlist_add_remove_witness :
  UserModel.removeFromWishlist 3 (UserModel.addToWishlist 3 [1; 2]) = [1; 2].
Proof.
  pose proof (wishlist_add_remove 3 [1; 2]) as (_ & _ & _ & _ & H).
  apply H. apply (bool_decide_unpack _). vm_compute. exact I.
Defined.


(** ** Cart routes *)

Lemma delete_line (items : list CartItem.t) i line :
  items !! i = Some line →
  oneLinePerProduct items →
  (CartItem.product line ∉ map CartItem.product (delete i items))
  ∧ oneLinePerProduct (delete i items)
  ∧ ∀ pid, pid ≠ CartItem.product line →
      inCart pid (delete i items) = inCart pid items.
Proof.
  unfold oneLinePerProduct. revert i.
  induction items as [|x items IH]; intros i Hi Hnd; [done|].
  cbn [map] in Hnd. apply NoDup_cons in Hnd as [Hfresh Hnd].
  destruct i as [|i]; simpl in Hi |- *.
  - injection Hi as ->. split_and!; [done..|].
    intros pid Hne. rewrite bool_decide_eq_false_2 by done. lia.
  - destruct (IH i Hi Hnd) as (Hgone & Hnd' & Hother).
    assert (CartItem.product line ∈ map CartItem.product items) as Hin.
    { apply list_elem_of_fmap. exists line. split; [done|].
      by eapply list_elem_of_lookup_2. }
    split_and!.
    + rewrite not_elem_of_cons. split; [|done]. intros Heq.
      apply Hfresh. by rewrite <- Heq.
    + apply NoDup_cons. split; [|done].
      intros (y & Hy & Hyin)%list_elem_of_fmap. apply Hfresh.
      apply list_elem_of_fmap. exists y. split; [done|].
      by eapply list_elem_of_delete_inv.
    + intros pid Hne. by rewrite (Hother pid Hne).
Qed.

(** X17.  In the cart routes, setting a line's quantity to the number 0
    is removing the line: [PUT /api/cart/:productId] with the Number 0 and
    [DELETE /api/cart/:productId] leave the same database and succeed or fail
    together.  A zero sent as a string is not [=== 0]: the request does not
    succeed and changes nothing.  For a product that is not in the cart the
    removal answers 404 and changes nothing; in a cart with one line per
    product, it leaves no line of the product and keeps every other product's
    quantity. *)
Theorem updateItem_zero_is_removeItem now user productId db :
  (CartRoutes.updateItem now user productId (CartRoutes.Number 0) db).2
  = (CartRoutes.removeItem now user productId db).2
  ∧ isSuccess
      (CartRoutes.updateItem now user productId (CartRoutes.Number 0) db).1
    = isSuccess (CartRoutes.removeItem now user productId db).1
  ∧ (∀ s, CartRoutes.integerOf s = Some 0%Z →
       (CartRoutes.updateItem now user productId (CartRoutes.Numeral s) db).2
       = db
       ∧ isSuccess
           (CartRoutes.updateItem now user productId (CartRoutes.Numeral s)
              db).1
         = false)
  ∧ ∀ cart, carts db !! user = Some cart →
      (productId ∉ map CartItem.product (Cart.items cart) →
       CartRoutes.removeItem now user productId db
       = (Failure 404 "Item not found in cart", db))
      ∧ (productId ∈ map CartItem.product (Cart.items cart) →
         oneLinePerProduct (Cart.items cart) →
         ∃ cart',
           CartRoutes.removeItem now user productId db
           = (Success 200 "Item removed from cart successfully" (),
              setCarts (<[user := cart']> (carts db)) db)
           ∧ (productId ∉ map CartItem.product (Cart.items cart'))
           ∧ oneLinePerProduct (Cart.items cart')
           ∧ ∀ pid, pid ≠ productId →
               inCart pid (Cart.items cart') = inCart pid (Cart.items cart)).
Proof.
  split_and!.
  - unfold CartRoutes.updateItem, CartRoutes.removeItem.
    change (CartRoutes.quantityValue (CartRoutes.Number 0)) with (Some 0%Z).
    change (CartRoutes.isInt 0 99 (CartRoutes.Number 0)) with true.
    cbn [negb Z.eqb].
    destruct (carts db !! user) as [cart|]; [|done].
    by destruct (list_find _ _) as [[i line]|].
  - unfold CartRoutes.updateItem, CartRoutes.removeItem.
    change (CartRoutes.quantityValue (CartRoutes.Number 0)) with (Some 0%Z).
    change (CartRoutes.isInt 0 99 (CartRoutes.Number 0)) with true.
    cbn [negb Z.eqb].
    destruct (carts db !! user) as [cart|]; [|done].
    by destruct (list_find _ _) as [[i line]|].
  - intros s Hs. unfold CartRoutes.updateItem, CartRoutes.isInt.
    cbn [CartRoutes.quantityValue]. rewrite Hs. cbn [Z.leb Z.compare andb negb].
    destruct (carts db !! user) as [cart|]; [|done].
    destruct (list_find _ _) as [[i line]|]; [|done].
    destruct (products db !! productId) as [product|]; [|done].
    destruct (negb _); [done|].
    destruct (_ && _); [done|]. done.
  - intros cart Hc. unfold CartRoutes.removeItem. rewrite Hc. split.
    + intros Hnin.
      destruct (list_find _ _) as [[i line]|] eqn:Hf; [|done].
      exfalso. apply Hnin. apply list_find_Some in Hf as (Hi & <- & _).
      apply list_elem_of_fmap. exists line. split; [done|].
      by eapply list_elem_of_lookup_2.
    + intros (i & line & Hf & Hi & Hp)%find_line_Some Hnd. rewrite Hf.
      eexists. split; [reflexivity|]. cbn [Cart.items].
      destruct (delete_line _ _ _ Hi Hnd) as (Hgone & Hnd' & Hother).
      rewrite Hp in Hgone, Hother. done.
Qed.

Lemma updateItem_zero_is_removeItem_witness :
  let db := setCarts (<[7 := Cart.mk [CartItem.mk 1 2; CartItem.mk 2 1] None]> ∅)
              shopDb in
  (CartRoutes.updateItem 1700000000000 7 2 (CartRoutes.Number 0) db).2
  = (CartRoutes.removeItem 1700000000000 7 2 db).2
  ∧ carts (CartRoutes.removeItem 1700000000000 7 2 db).2 !! 7
    = Some (Cart.mk [CartItem.mk 1 2] (Some 1700000000000%Z))
  ∧ CartRoutes.updateItem 1700000000000 7 2 (CartRoutes.Numeral "0") db
    = (Failure 500 "Server error updating cart", db).
Proof.
  cbv zeta. split_and!; [|reflexivity|reflexivity].
  apply (updateItem_zero_is_removeItem 1700000000000 7 2).
Defined.

Lemma inCart_single (items : list CartItem.t) i line :
  oneLinePerProduct items →
  items !! i = Some line →
  inCart (CartItem.product line) items = CartItem.quantity line.
Proof.
  unfold oneLinePerProduct. revert i.
  induction items as [|x items IH]; intros i Hnd Hi; [done|].
  cbn [map] in Hnd. apply NoDup_cons in Hnd as [Hfresh Hnd].
  destruct i as [|i]; simpl in Hi.
  - injection Hi as ->. cbn [inCart].
    rewrite bool_decide_eq_true_2 by done.
    rewrite inCart_not_in; [lia|done].
  - cbn [inCart]. rewrite (IH i Hnd Hi).
    rewrite bool_decide_eq_false_2; [lia|].
    intros Heq. apply Hfresh. rewrite Heq.
    apply list_elem_of_fmap. exists line. split; [done|].
    by eapply list_elem_of_lookup_2.
Qed.

Lemma findPopulated_Some ps productId (items : list CartItem.t) entry :
  CartRoutes.findPopulated ps productId items = Some entry →
  ∃ i line,
    items !! i = Some line
    ∧ CartItem.product line = productId
    ∧ CartEntry.quantity entry = CartItem.quantity line
    ∧ ps !! productId = Some (CartEntry.product entry).
Proof.
  induction items as [|x items IH]; [done|].
  cbn [CartRoutes.findPopulated].
  destruct (ps !! CartItem.product x) as [p|] eqn:Hp; [|done].
  case_bool_decide as Heq.
  - intros [= <-]. exists 0, x. rewrite <- Heq. done.
  - intros (i & line & Hi & ?)%IH. by exists (S i), line.
Qed.

Lemma saved_existing ps productId product (items : list CartItem.t) i line n
    entry :
  items !! i = Some line →
  CartItem.product line = productId →
  ps !! productId = Some product →
  CartRoutes.findPopulated ps productId
    (<[i := CartItem.mk (CartItem.product line) n]> items) = Some entry →
  CartEntry.product entry = product
  ∧ (∀ pid,
       inCart pid (<[i := CartItem.mk (CartItem.product line) n]> items)
       = (inCart pid items
          + (if bool_decide (pid = productId)
             then n - CartItem.quantity line else 0))%Z)
  ∧ (oneLinePerProduct items →
     oneLinePerProduct (<[i := CartItem.mk (CartItem.product line) n]> items)
     ∧ CartEntry.quantity entry
       = inCart productId
           (<[i := CartItem.mk (CartItem.product line) n]> items)
     ∧ inCart productId
         (<[i := CartItem.mk (CartItem.product line) n]> items) = n).
Proof.
  intros Hi Hprod Hp Hfp.
  destruct (findPopulated_Some _ _ _ _ Hfp) as (j & l & Hj & Hl & Hql & He).
  rewrite Hp in He. injection He as He.
  split_and!; [done| |].
  - intros pid. rewrite (inCart_insert _ _ _ _ _ Hi), Hprod.
    repeat case_bool_decide; subst; try done; lia.
  - intros Hnd.
    assert (oneLinePerProduct
              (<[i := CartItem.mk (CartItem.product line) n]> items)) as Hnd'.
    { unfold oneLinePerProduct. by rewrite (products_insert _ _ _ _ Hi). }
    assert (inCart productId
              (<[i := CartItem.mk (CartItem.product line) n]> items) = n)
      as Hnew.
    { rewrite (inCart_insert _ _ _ _ _ Hi), Hprod.
      rewrite bool_decide_eq_true_2 by done.
      rewrite <- Hprod, (inCart_single _ _ _ Hnd Hi). lia. }
    split_and!; [done| |done].
    pose proof (inCart_single _ _ _ Hnd' Hj) as E. rewrite Hl in E.
    by rewrite Hql, E.
Qed.

Lemma saved_new ps productId product (items : list CartItem.t) requested entry :
  productId ∉ map CartItem.product items →
  ps !! productId = Some product →
  CartRoutes.findPopulated ps productId
    (items ++ [CartItem.mk productId requested]) = Some entry →
  CartEntry.product entry = product
  ∧ (∀ pid,
       inCart pid (items ++ [CartItem.mk productId requested])
       = (inCart pid items
          + (if bool_decide (pid = productId) then requested else 0))%Z)
  ∧ (oneLinePerProduct items →
     oneLinePerProduct (items ++ [CartItem.mk productId requested])
     ∧ CartEntry.quantity entry
       = inCart productId (items ++ [CartItem.mk productId requested])
     ∧ inCart productId (items ++ [CartItem.mk productId requested])
       = requested).
Proof.
  intros Hnin Hp Hfp.
  destruct (findPopulated_Some _ _ _ _ Hfp) as (j & l & Hj & Hl & Hql & He).
  rewrite Hp in He. injection He as He.
  split_and!; [done| |].
  - intros pid. rewrite inCart_app. cbn.
    repeat case_bool_decide; subst; try done; lia.
  - intros Hnd.
    assert (oneLinePerProduct (items ++ [CartItem.mk productId requested]))
      as Hnd'.
    { unfold oneLinePerProduct. rewrite map_app. cbn.
      apply NoDup_app. split_and!; [done| |apply NoDup_singleton].
      by intros x Hx ->%list_elem_of_singleton. }
    assert (inCart productId (items ++ [CartItem.mk productId requested])
            = requested) as Hnew.
    { rewrite inCart_app, inCart_not_in by done. cbn.
      rewrite bool_decide_eq_true_2 by done. lia. }
    split_and!; [done| |done].
    pose proof (inCart_single _ _ _ Hnd' Hj) as E. rewrite Hl in E.
    by rewrite Hql, E.
Qed.

(** X18.  [POST /api/cart] never puts more of a tracked product into a cart
    than is in stock.  A 400 or 404 answer leaves the database unchanged.
    On success the product is active, the quantity of the request reads as a
    Number from 1 to 99, and no other product's quantity has changed; the
    cart's quantity of the product has grown by the requested quantity when
    it came as a number or the product was not in the cart (a quantity that
    came as a string is appended to the digits of the quantity of the line);
    and in a cart with one line per product there is still one line per
    product, the line shown in the answer carries the cart's quantity of
    the product, and for a tracked product that quantity does not exceed the
    stock. *)
Theorem addItem_respects_stock now user productId quantity db :
  let result := CartRoutes.addItem now user productId quantity db in
  (∀ message,
     result.1 = Failure 400 message ∨ result.1 = Failure 404 message →
     result.2 = db)
  ∧ (∀ code message entry,
       result.1 = Success code message entry →
       ∃ requested added product cart cart',
         CartRoutes.quantityValue quantity = Some requested
         ∧ (1 <= requested <= 99)%Z
         ∧ products db !! productId = Some product
         ∧ Product.status product = Product.active
         ∧ carts db !! user = Some cart
         ∧ result.2 = setCarts (<[user := cart']> (carts db)) db
         ∧ CartEntry.product entry = product
         ∧ (∀ pid,
              inCart pid (Cart.items cart')
              = (inCart pid (Cart.items cart)
                 + (if bool_decide (pid = productId) then added else 0))%Z)
         ∧ (quantity = CartRoutes.Number requested
            ∨ productId ∉ map CartItem.product (Cart.items cart) →
            added = requested)
         ∧ (oneLinePerProduct (Cart.items cart) →
            oneLinePerProduct (Cart.items cart')
            ∧ CartEntry.quantity entry = inCart productId (Cart.items cart')
            ∧ (Inventory.trackInventory (Product.inventory product) = true →
               (inCart productId (Cart.items cart')
                <= Inventory.quantity (Product.inventory product))%Z))).
Proof.
  cbv zeta. unfold CartRoutes.addItem.
  destruct (CartRoutes.quantityValue quantity) as [requested|] eqn:Hval;
    [|by split; intros; simplify_eq].
  unfold CartRoutes.isInt. rewrite Hval.
  destruct (Z.leb_spec 1 requested) as [Hq1|?]; cbn [andb negb];
    [|by split; intros; simplify_eq].
  destruct (Z.leb_spec requested 99) as [Hq2|?]; cbn [andb negb];
    [|by split; intros; simplify_eq].
  destruct (products db !! productId) as [product|] eqn:Hp;
    [|by split; intros; simplify_eq].
  case_bool_decide as Hact; cbn [negb]; [|by split; intros; simplify_eq].
  destruct (Inventory.trackInventory (Product.inventory product)
            && (Inventory.quantity (Product.inventory product) <? requested)%Z)
    eqn:Hfit; [by split; intros; simplify_eq|].
  destruct (carts db !! user) as [cart|] eqn:Hc.
  2:{ split; [by intros ? [|]|by intros]. }
  destruct (list_find _ _) as [[i line]|] eqn:Hf.
  - pose proof Hf as (Hi & Hprod & _)%list_find_Some.
    destruct (CartRoutes.plusQuantity (CartItem.quantity line) quantity)
      as [n|] eqn:Hplus.
    2:{ rewrite andb_false_r. split; [by intros ? [|]|done]. }
    destruct (Inventory.trackInventory (Product.inventory product)
              && (Inventory.quantity (Product.inventory product) <? n)%Z)
      eqn:Hfit'; [by split; intros; simplify_eq|].
    destruct (CartRoutes.findPopulated _ _ _) as [entry|] eqn:Hfp;
      (split; [by intros ? [|]|]); [|done].
    intros code message e [= _ _ <-].
    destruct (saved_existing _ _ _ _ _ _ _ _ Hi Hprod Hp Hfp)
      as (He & Hin & Hone).
    exists requested, (n - CartItem.quantity line)%Z, product, cart.
    eexists. split_and!; try done.
    + intros [->|Hnin].
      * cbn in Hplus, Hval. simplify_eq. lia.
      * exfalso. apply Hnin. rewrite <- Hprod.
        apply list_elem_of_fmap. exists line. split; [done|].
        by eapply list_elem_of_lookup_2.
    + intros Hnd. cbn [Cart.items].
      destruct (Hone Hnd) as (? & ? & Hn). split_and!; [done..|].
      intros Ht. rewrite Hn. rewrite Ht in Hfit'. cbn [andb] in Hfit'.
      by apply Z.ltb_ge in Hfit'.
  - destruct (CartRoutes.findPopulated _ _ _) as [entry|] eqn:Hfp;
      (split; [by intros ? [|]|]); [|done].
    intros code message e [= _ _ <-].
    pose proof (find_line_None _ _ Hf) as Hnin.
    destruct (saved_new _ _ _ _ _ _ Hnin Hp Hfp) as (He & Hin & Hone).
    exists requested, requested, product, cart.
    eexists. split_and!; try done.
    intros Hnd. cbn [Cart.items].
    destruct (Hone Hnd) as (? & ? & Hn). split_and!; [done..|].
    intros Ht. rewrite Hn. rewrite Ht in Hfit. cbn [andb] in Hfit.
    by apply Z.ltb_ge in Hfit.
Qed.

Lemma addItem_respects_stock_witness :
  let db := setCarts (<[7 := Cart.mk [CartItem.mk 1 2] None]> ∅) shopDb in
  (CartRoutes.addItem 1700000000000 7 1 (CartRoutes.Number 4) db).2 = db
  ∧ ∃ entry,
      (CartRoutes.addItem 1700000000000 7 1 (CartRoutes.Number 3) db).1
      = Success 201 "Item added to cart successfully" entry
      ∧ CartEntry.quantity entry = 5%Z.
Proof.
  cbv zeta. split.
  - pose proof (addItem_respects_stock 1700000000000 7 1 (CartRoutes.Number 4)
                  (setCarts (<[7 := Cart.mk [CartItem.mk 1 2] None]> ∅) shopDb))
      as [H _].
    cbv zeta in H.
    apply (H "Cannot add 4 more items. Only 3 additional items available").
    left. reflexivity.
  - eexists. split; reflexivity.
Defined.

(** A quantity that comes as a string: "3" added to a line of 2 of a product
    with 40 in stock leaves a line of 23; "2" added to a line of 1 of a
    product with 5 in stock is refused, as 12 would be too many. *)
Example addItem_numeral :
  (∃ entry,
     CartRoutes.addItem 1700000000000 7 1 (CartRoutes.Numeral "3")
       (mkDb (<[1 := Product.setQuantity 40 productA]> ∅) [] []
          (<[7 := Cart.mk [CartItem.mk 1 2] None]> ∅))
     = (Success 201 "Item added to cart successfully" entry,
        mkDb (<[1 := Product.setQuantity 40 productA]> ∅) [] []
          (<[7 := Cart.mk [CartItem.mk 1 23] (Some 1700000000000%Z)]>
             (<[7 := Cart.mk [CartItem.mk 1 2] None]> ∅)))
     ∧ CartEntry.quantity entry = 23%Z)
  ∧ CartRoutes.addItem 1700000000000 7 1 (CartRoutes.Numeral "2")
      (setCarts (<[7 := Cart.mk [CartItem.mk 1 1] None]> ∅) shopDb)
    = (Failure 400 "Cannot add 2 more items. Only 4 additional items available",
       setCarts (<[7 := Cart.mk [CartItem.mk 1 1] None]> ∅) shopDb).
Proof.
  split; [eexists; split; vm_compute; reflexivity|vm_compute; reflexivity].
Qed.




Lemma validCartItems_entries ps (items : list CartItem.t) :
  Forall (λ e, ps !! CartEntry.productId e = Some (CartEntry.product e)
               ∧ ProductModel.isAvailable (CartEntry.product e) = true
               ∧ CartEntry.itemTotal e
                 = Num.mul (Product.price (CartEntry.product e))
                     (Num.ofZ (CartEntry.quantity e)))
    (CartRoutes.validCartItems ps items).
Proof.
  induction items as [|x items IH]; [constructor|].
  cbn [CartRoutes.validCartItems].
  destruct (ps !! CartItem.product x) as [p|] eqn:Hp; [|done].
  destruct (_ && _)%bool eqn:Hok; [|done].
  constructor; [|done]. cbn. split_and!; [done| |done].
  unfold ProductModel.isAvailable.
  apply andb_true_iff in Hok as [-> Hstock]. cbn [andb].
  by rewrite orb_comm.
Qed.

Lemma validCartItems_length ps (items : list CartItem.t) :
  length (CartRoutes.validCartItems ps items) ≤ length items
  ∧ (length (CartRoutes.validCartItems ps items) = length items →
     map lineOf (CartRoutes.validCartItems ps items) = items).
Proof.
  induction items as [|x items [IHle IHeq]]; [done|].
  cbn [CartRoutes.validCartItems].
  destruct (ps !! CartItem.product x) as [p|]; [|cbn; split; lia].
  destruct (_ && _)%bool; [|cbn; split; lia].
  cbn. split; [lia|]. intros [= Hlen]. rewrite (IHeq Hlen).
  by destruct x.
Qed.

Lemma validCartItems_again ps (items : list CartItem.t) :
  CartRoutes.validCartItems ps (map lineOf (CartRoutes.validCartItems ps items))
  = CartRoutes.validCartItems ps items.
Proof.
  induction items as [|x items IH]; [done|].
  cbn [CartRoutes.validCartItems].
  destruct (ps !! CartItem.product x) as [p|] eqn:Hp; [|done].
  destruct (_ && _)%bool eqn:Hok; [|done].
  cbn [map lineOf CartRoutes.validCartItems CartEntry.productId
       CartEntry.quantity CartItem.product CartItem.quantity].
  by rewrite Hp, Hok, IH.
Qed.

(** X20.  [GET /api/cart] prunes the cart once.  Every line it shows has a
    product that exists and is available; afterwards the stored cart holds
    exactly the lines shown; products, orders and payments are untouched; and
    a second [GET] gives the same answer and changes nothing. *)
Theorem getCart_prunes_once now1 now2 user db cart :
  carts db !! user = Some cart →
  let first := CartRoutes.getCart now1 user db in
  let second := CartRoutes.getCart now2 user first.2 in
  ∃ view,
    first.1 = Success 200 "" view
    ∧ Forall (λ e, products db !! CartEntry.productId e
                   = Some (CartEntry.product e)
                   ∧ ProductModel.isAvailable (CartEntry.product e) = true)
        (CartView.items view)
    ∧ (∃ cart', carts first.2 !! user = Some cart'
                ∧ Cart.items cart' = map lineOf (CartView.items view))
    ∧ products first.2 = products db
    ∧ orders first.2 = orders db
    ∧ payments first.2 = payments db
    ∧ second = first.
Proof.
  intros Hc. cbv zeta.
  set (valid := CartRoutes.validCartItems (products db) (Cart.items cart)).
  destruct (validCartItems_length (products db) (Cart.items cart))
    as [Hle Heq]. fold valid in Hle, Heq.
  assert (∃ cart',
            (CartRoutes.getCart now1 user db).2
            = setCarts (<[user := cart']> (carts db)) db
            ∧ Cart.items cart' = map lineOf valid) as (cart' & Hdb & Hitems).
  { unfold CartRoutes.getCart. rewrite Hc. cbn [snd]. fold valid.
    case_bool_decide as Hlen.
    - eexists. split; [reflexivity|done].
    - exists cart. split.
      + rewrite insert_id by done. by destruct db.
      + symmetry. apply Heq.
        destruct (decide (length valid = length (Cart.items cart)));
          [done|by destruct Hlen]. }
  assert ((CartRoutes.getCart now1 user db).1
          = (CartRoutes.getCart now2 user
               (setCarts (<[user := cart']> (carts db)) db)).1
          ∧ (CartRoutes.getCart now2 user
               (setCarts (<[user := cart']> (carts db)) db)).2
            = setCarts (<[user := cart']> (carts db)) db) as [Hsame Hkeep].
  { unfold CartRoutes.getCart. rewrite Hc.
    cbn [carts products setCarts]. rewrite lookup_insert_eq, Hitems.
    unfold valid. rewrite !validCartItems_again, length_map.
    match goal with
    | |- context [bool_decide (?n ≠ ?n)] =>
        rewrite (bool_decide_eq_false_2 (n ≠ n)) by (intros H; by apply H)
    end.
    done. }
  eexists. split_and!.
  - unfold CartRoutes.getCart. rewrite Hc. reflexivity.
  - cbn [CartView.items]. fold valid.
    eapply Forall_impl; [apply validCartItems_entries|].
    by intros e (? & ? & _).
  - exists cart'. rewrite Hdb. cbn [carts setCarts].
    by rewrite lookup_insert_eq.
  - by rewrite Hdb.
  - by rewrite Hdb.
  - by rewrite Hdb.
  - rewrite Hdb at 1.
    rewrite (surjective_pairing (CartRoutes.getCart now2 user _)).
    rewrite (surjective_pairing (CartRoutes.getCart now1 user db)).
    by rewrite Hkeep, <- Hsame, Hdb.
Qed.

Lemma getCart_prunes_once_witness :
  let db :=
    setCarts (<[7 := Cart.mk [CartItem.mk 1 2; CartItem.mk 9 1] None]> ∅)
      shopDb in
  let first := CartRoutes.getCart 1700000000000 7 db in
  CartRoutes.getCart 1700000100000 7 first.2 = first
  ∧ (Cart.items <$> carts first.2 !! 7) = Some [CartItem.mk 1 2].
Proof.
  cbv zeta.
  edestruct (getCart_prunes_once 1700000000000 1700000100000 7
               (setCarts
                  (<[7 := Cart.mk [CartItem.mk 1 2; CartItem.mk 9 1] None]> ∅)
                  shopDb)
               (Cart.mk [CartItem.mk 1 2; CartItem.mk 9 1] None))
    as (view & _ & _ & _ & _ & _ & _ & Hsame); [reflexivity|].
  split; [exact Hsame|reflexivity].
Defined.


(** ** The cart summary and the order *)

Lemma snapshot_entries ps (entries : list CartEntry.t) :
  Forall (λ e, ps !! CartEntry.productId e = Some (CartEntry.product e)
               ∧ ProductModel.isAvailable (CartEntry.product e) = true
               ∧ CartEntry.itemTotal e
                 = Num.mul (Product.price (CartEntry.product e))
                     (Num.ofZ (CartEntry.quantity e))) entries →
  ∀ lines,
    Forall2 (snapshotOf ps) (map requestOf entries) lines →
    map OrderItem.itemTotal lines = map CartEntry.itemTotal entries.
Proof.
  induction 1 as [|e entries (Hp & _ & Ht) _ IH]; intros lines HF.
  - by inversion HF.
  - cbn [map] in HF.
    inversion HF as [|? line ? rest (p & Hp' & _ & _ & _ & _ & Hl) Hrest];
      subst.
    cbn [map]. rewrite (IH _ Hrest). f_equal.
    cbn in Hp', Hl. rewrite Hp in Hp'. injection Hp' as <-.
    by rewrite Hl, Ht.
Qed.

Lemma fold_left_add_map {A} (f : A → Num) (l : list A) (a : Num) :
  fold_left Num.add (map f l) a = fold_left (λ s e, Num.add s (f e)) l a.
Proof. revert a. induction l as [|x l IH]; intros a; [done|]. apply IH. Qed.

(** X21.  The cart shows what the order will charge.  When the lines a
    [GET /api/cart] shows are ordered as they stand and [createOrder]
    accepts the request, the order is created with the subtotal, tax,
    shipping and total that the cart computed, so the four amounts of the
    cart summary are the two-decimal renderings of the order's. *)
Theorem getCart_total_is_order_total now1 now2 rnd user db cart body :
  carts db !! user = Some cart →
  let shown := CartRoutes.getCart now1 user db in
  ∀ view,
    shown.1 = Success 200 "" view →
    CreateOrderBody.items body = map requestOf (CartView.items view) →
    accepted now2 rnd body shown.2 →
    ∃ order db',
      createOrder now2 rnd user body shown.2
      = (Success 201 "Order created successfully" order, db')
      ∧ CartSummary.subtotal (CartView.summary view)
        = toFixed2 (Pricing.subtotal (Order.pricing order))
      ∧ CartSummary.tax (CartView.summary view)
        = toFixed2 (Pricing.tax (Order.pricing order))
      ∧ CartSummary.shipping (CartView.summary view)
        = toFixed2 (Pricing.shipping (Order.pricing order))
      ∧ CartSummary.total (CartView.summary view)
        = toFixed2 (Pricing.total (Order.pricing order)).
Proof.
  intros Hc. cbv zeta. intros view Hview Hitems Hacc.
  assert (products (CartRoutes.getCart now1 user db).2 = products db) as Hps.
  { unfold CartRoutes.getCart. rewrite Hc. cbn [snd]. by case_bool_decide. }
  destruct (createOrder_valid now2 rnd user body _ Hacc)
    as (lines & ps' & Hrun & Hsnap & _).
  cbv zeta in Hrun. rewrite Hrun. eexists _, _. split; [reflexivity|].
  cbn [Order.pricing].
  unfold CartRoutes.getCart in Hview. rewrite Hc in Hview. cbn [fst] in Hview.
  injection Hview as <-. cbn [CartView.items CartView.summary] in *.
  rewrite Hps, Hitems in Hsnap.
  rewrite (snapshot_entries _ _ (validCartItems_entries _ _) _ Hsnap).
  rewrite fold_left_add_map. done.
Qed.

(** One unit at 1999: the tax shown and charged is 149.92499999999998,
    rendered as 149.92. *)
Lemma getCart_total_is_order_total_witness :
  let db := setCarts (<[7 := Cart.mk [CartItem.mk 3 1] None]> ∅) shopC in
  ∃ view order db',
    (CartRoutes.getCart 1700000000000 7 db).1 = Success 200 "" view
    ∧ createOrder 1700000100000 "K3F9Q" 7 cartC
        (CartRoutes.getCart 1700000000000 7 db).2
      = (Success 201 "Order created successfully" order, db')
    ∧ CartSummary.tax (CartView.summary view) = "149.92"
    ∧ toFixed2 (Pricing.tax (Order.pricing order)) = "149.92"
    ∧ CartSummary.total (CartView.summary view) = "4648.93".
Proof.
  cbv zeta.
  pose proof (getCart_total_is_order_total 1700000000000 1700000100000
                "K3F9Q" 7
                (setCarts (<[7 := Cart.mk [CartItem.mk 3 1] None]> ∅) shopC)
                (Cart.mk [CartItem.mk 3 1] None) cartC) as H.
  cbv zeta in H.
  edestruct H as (order & db' & Hrun & _ & Htax & _ & _).
  - reflexivity.
  - reflexivity.
  - reflexivity.
  - split_and!.
    + repeat constructor. exists productC. split_and!; [reflexivity..|].
      intros _. vm_compute. discriminate.
    + repeat constructor. vm_compute. discriminate.
    + intros pid p Hp _ Hin. cbn in Hin.
      apply list_elem_of_singleton in Hin as ->.
      vm_compute in Hp. injection Hp as <-. vm_compute. discriminate.
    + split_and!; reflexivity.
  - eexists _, order, db'.
    split_and!; [reflexivity|exact Hrun|reflexivity| |reflexivity].
    rewrite <- Htax. reflexivity.
Defined.

(** ** Product reviews *)

(** What [addReview] makes of the reviews, and what [save] then checks. *)
Lemma addReview_run now userId rating comment p :
  let reviews :=
    match list_find (λ review, Review.user review = userId) (Reviewed.reviews p) with
    | Some (i, existingReview) =>
        <[i := Review.mk (Review.user existingReview) rating comment now]>
          (Reviewed.reviews p)
    | None => Reviewed.reviews p ++ [Review.mk userId rating comment now]
    end in
  let average :=
    Num.div
      (fold_left (λ sum review, Num.add sum (Review.rating review)) reviews
         (Num.ofZ 0))
      (Num.ofZ (Z.of_nat (length reviews))) in
  (∀ p', addReview now userId rating comment p = inr p' →
     p' = Reviewed.mk reviews (Ratings.mk average (Z.of_nat (length reviews)))
     ∧ Num.leb (Num.ofZ 1) rating = true
     ∧ Num.leb rating (Num.ofZ 5) = true
     ∧ (∀ text, comment = Some text → String.length text ≤ 500)
     ∧ Num.leb (Num.ofZ 0) average = true
     ∧ Num.leb average (Num.ofZ 5) = true)
  ∧ (Num.leb (Num.ofZ 1) rating && Num.leb rating (Num.ofZ 5) = false →
     isInr (addReview now userId rating comment p) = false)
  ∧ (∀ text, comment = Some text → 500 < String.length text →
     isInr (addReview now userId rating comment p) = false).
Proof.
  cbv zeta. unfold addReview.
  destruct (list_find _ _) as [[i r]|];
    (destruct (Num.leb (Num.ofZ 1) rating && Num.leb rating (Num.ofZ 5))
       eqn:Hrating; cbn [negb];
     [|split_and!; [done|done|];
       intros text -> Hlen; done]);
    apply andb_true_iff in Hrating as [H1 H5];
    (destruct comment as [text|]; cbn [negb];
     [destruct (Nat.leb_spec (String.length text) 500) as [Hlen|Hlen];
      cbn [negb]|]);
    try (split_and!; [done|done|intros ? [= <-] ?; done || lia]);
    try (destruct (Num.leb (Num.ofZ 0) _ && Num.leb _ (Num.ofZ 5)) eqn:Havg;
         cbn [negb];
         [apply andb_true_iff in Havg as [A0 A5];
          split_and!;
            [intros p' [= <-]; split_and!; try done;
             intros ? [= <-]; done
            |done
            |intros ? [= <-] ?; lia || done]
         |split_and!; [done|done|intros ? ? ?; done]]).
Qed.

(** X22.  [addReview] keeps one review per user.  On a product with one
    review per user, a call that [save] accepts leaves one review per
    user: the user's review carries the new rating and comment, every other
    user's review is as before, the list grew by one exactly when the user
    had not reviewed yet, [ratings.count] is the number of reviews and
    [ratings.average] is the sum of the ratings divided by their number, in
    the arithmetic of Numbers, a value that [save] holds between 0 and 5;
    the rating accepted lies between 1 and 5 and the comment has at most 500
    characters.  A rating outside 1 to 5, or one that is not a number, and
    a comment of more than 500 characters are refused by [save]. *)
Theorem addReview_one_per_user now userId rating comment p :
  NoDup (map Review.user (Reviewed.reviews p)) →
  (∀ p',
     addReview now userId rating comment p = inr p' →
     ratingValid (Review.mk userId rating comment now)
     ∧ (∀ text, comment = Some text → String.length text ≤ 500)
     ∧ NoDup (map Review.user (Reviewed.reviews p'))
     ∧ Review.mk userId rating comment now ∈ Reviewed.reviews p'
     ∧ (∀ r, Review.user r ≠ userId →
             r ∈ Reviewed.reviews p' ↔ r ∈ Reviewed.reviews p)
     ∧ length (Reviewed.reviews p')
       = (if bool_decide (userId ∈ map Review.user (Reviewed.reviews p))
          then length (Reviewed.reviews p)
          else S (length (Reviewed.reviews p)))
     ∧ Ratings.count (Reviewed.ratings p')
       = Z.of_nat (length (Reviewed.reviews p'))
     ∧ Ratings.average (Reviewed.ratings p')
       = Num.div
           (fold_left (λ sum review, Num.add sum (Review.rating review))
              (Reviewed.reviews p') (Num.ofZ 0))
           (Num.ofZ (Z.of_nat (length (Reviewed.reviews p'))))
     ∧ Num.leb (Num.ofZ 0) (Ratings.average (Reviewed.ratings p')) = true
     ∧ Num.leb (Ratings.average (Reviewed.ratings p')) (Num.ofZ 5) = true)
  ∧ (¬ ratingValid (Review.mk userId rating comment now) →
     isInr (addReview now userId rating comment p) = false)
  ∧ (∀ text, comment = Some text → 500 < String.length text →
     isInr (addReview now userId rating comment p) = false).
Proof.
  intros Hnd.
  destruct (addReview_run now userId rating comment p)
    as (Hok & Hrating & Hcomment).
  cbv zeta in Hok, Hrating, Hcomment. split_and!; [|
    |exact Hcomment].
  - intros p' Hrun.
    destruct (Hok p' Hrun) as (-> & H1 & H5 & Hlen & A0 & A5).
    cbn [Reviewed.reviews Reviewed.ratings Ratings.count Ratings.average].
    split; [by split|]. split; [done|].
    destruct (list_find _ _) as [[i r]|] eqn:Hf.
    + apply list_find_Some in Hf as (Hi & Hu & Hfirst).
      assert (map Review.user
                (<[i := Review.mk (Review.user r) rating comment now]>
                   (Reviewed.reviews p))
              = map Review.user (Reviewed.reviews p)) as Husers.
      { rewrite list_fmap_insert. apply list_insert_id.
        by rewrite list_lookup_fmap, Hi. }
      split_and!; try done.
      * by rewrite Husers.
      * rewrite Hu. apply list_elem_of_lookup. exists i.
        apply list_lookup_insert_eq. by apply lookup_lt_Some in Hi.
      * intros r' Hr'. rewrite !list_elem_of_lookup. split.
        -- intros [j Hj]. destruct (decide (i = j)) as [->|Hij].
           ++ rewrite list_lookup_insert_eq in Hj
                by (by apply lookup_lt_Some in Hi).
              injection Hj as <-. cbn in Hr'. done.
           ++ rewrite list_lookup_insert_ne in Hj by done. by exists j.
        -- intros [j Hj]. destruct (decide (i = j)) as [->|Hij].
           ++ rewrite Hi in Hj. injection Hj as <-. done.
           ++ exists j. by rewrite list_lookup_insert_ne.
      * rewrite length_insert. rewrite bool_decide_eq_true_2; [done|].
        rewrite <- Hu. apply list_elem_of_fmap. exists r. split; [done|].
        by apply list_elem_of_lookup_2 in Hi.
    + assert (userId ∉ map Review.user (Reviewed.reviews p)) as Hnot.
      { intros (r & Hr & Hin)%list_elem_of_fmap.
        assert (Forall (λ review, ¬ Review.user review = userId)
                  (Reviewed.reviews p)) as HF
          by (by apply (list_find_None (λ review, Review.user review = userId))).
        rewrite Forall_forall in HF. by apply (HF r Hin). }
      split_and!; try done.
      * rewrite map_app. cbn [map]. apply NoDup_app. split_and!; [done| |].
        -- intros u Hu Hu'. apply list_elem_of_singleton in Hu'. by subst.
        -- apply NoDup_singleton.
      * apply elem_of_app. right. by apply list_elem_of_singleton.
      * intros r' Hr'. rewrite elem_of_app, list_elem_of_singleton.
        split; [|by left]. intros [? | ->]; [done|]. cbn in Hr'. done.
      * rewrite length_app. cbn [length].
        rewrite bool_decide_eq_false_2 by done. lia.
  - intros Hbad. apply Hrating. apply not_true_is_false.
    intros [H1 H5]%andb_true_iff. apply Hbad. by split.
Qed.

(** Ratings 1 and 1, then a 2 from a third user: the average stored is
    1.3333333333333333, the Number nearest to 4/3. *)
Lemma addReview_one_per_user_witness :
  let p :=
    Reviewed.mk [Review.mk 3 (Num.ofZ 1) (Some "Flimsy") 1700000000000;
                 Review.mk 5 (Num.ofZ 1) None 1700000100000]
      (Ratings.mk (Num.ofZ 1) 2) in
  ∃ p',
    addReview 1700000200000 7 (Num.ofZ 2) (Some "Better than I thought") p
    = inr p'
    ∧ length (Reviewed.reviews p') = 3%nat
    ∧ Ratings.average (Reviewed.ratings p') = Num.div (Num.ofZ 4) (Num.ofZ 3)
    ∧ Ratings.average (Reviewed.ratings p')
      = S754_finite false 6004799503160661 (-52).
Proof.
  cbv zeta.
  destruct (addReview_one_per_user 1700000200000 7 (Num.ofZ 2)
               (Some "Better than I thought")
               (Reviewed.mk
                  [Review.mk 3 (Num.ofZ 1) (Some "Flimsy") 1700000000000;
                   Review.mk 5 (Num.ofZ 1) None 1700000100000]
                  (Ratings.mk (Num.ofZ 1) 2)))
    as [Hok _].
  - cbn. apply NoDup_cons. split; [|apply NoDup_singleton].
    intros E%list_elem_of_singleton. discriminate.
  - destruct (addReview 1700000200000 7 (Num.ofZ 2)
                (Some "Better than I thought")
                (Reviewed.mk
                   [Review.mk 3 (Num.ofZ 1) (Some "Flimsy") 1700000000000;
                    Review.mk 5 (Num.ofZ 1) None 1700000100000]
                   (Ratings.mk (Num.ofZ 1) 2))) as [rejection|p'] eqn:Hrun;
      [vm_compute in Hrun; discriminate|].
    destruct (Hok p' eq_refl) as (_ & _ & _ & _ & _ & Hlen & _).
    exists p'. split; [reflexivity|]. split; [exact Hlen|].
    vm_compute in Hrun. injection Hrun as <-. split; reflexivity.
Defined.

(** ** Product slugs *)

Lemma kept_char_slugChar (c : ascii) :
  isAlnum (toLowerCase c) || isSpace (toLowerCase c) = true →
  isSpace (toLowerCase c) = false →
  slugChar (toLowerCase c) = true ∧ toLowerCase c ≠ "-"%char.
Proof.
  destruct c as [[] [] [] [] [] [] [] []]; vm_compute; intros H1 H2;
    try discriminate; split; congruence.
Qed.

Lemma noDoubleHyphen_cons (c d : ascii) (t : list ascii) :
  noDoubleHyphen (c :: d :: t)
  = negb (Ascii.eqb c "-" && Ascii.eqb d "-") && noDoubleHyphen (d :: t).
Proof. reflexivity. Qed.

Lemma hyphenate_slugChar (l : list ascii) (inRun : bool) :
  Forall (λ c, isSpace c = false → slugChar c = true ∧ c ≠ "-"%char) l →
  Forall (λ c, slugChar c = true) (hyphenate l inRun)
  ∧ noDoubleHyphen (hyphenate l inRun) = true
  ∧ (inRun = true → head (hyphenate l inRun) ≠ Some "-"%char).
Proof.
  intros H. revert inRun. induction H as [|c l Hc _ IH]; intros inRun.
  - cbn. split_and!; [constructor|done|done].
  - cbn [hyphenate]. destruct (isSpace c) eqn:Es.
    + destruct inRun.
      * apply IH.
      * destruct (IH true) as (IH1 & IH2 & IH3). split_and!.
        -- constructor; [reflexivity|done].
        -- destruct (hyphenate l true) as [|d t] eqn:E; [done|].
           rewrite noDoubleHyphen_cons, IH2, andb_true_r.
           specialize (IH3 eq_refl). cbn [head] in IH3.
           destruct (Ascii.eqb_spec d "-"%char) as [->|]; [done|].
           by rewrite andb_false_r.
        -- done.
    + destruct (Hc eq_refl) as [Hs Hh].
      destruct (IH false) as (IH1 & IH2 & _). split_and!.
      * by constructor.
      * destruct (hyphenate l false) as [|d t] eqn:E; [done|].
        rewrite noDoubleHyphen_cons, IH2, andb_true_r.
        destruct (Ascii.eqb_spec c "-"%char) as [->|]; done.
      * intros _. cbn. congruence.
Qed.

Lemma noDoubleHyphen_take (n : nat) (l : list ascii) :
  noDoubleHyphen l = true → noDoubleHyphen (take n l) = true.
Proof.
  revert l. induction n as [|n IH]; intros l H; [by destruct l|].
  destruct l as [|c [|d t]]; [done|by destruct n|].
  rewrite noDoubleHyphen_cons in H. apply andb_true_iff in H as [H1 H2].
  specialize (IH _ H2).
  destruct n as [|n]; [done|].
  change (take (S (S n)) (c :: d :: t)) with (c :: d :: take n t).
  change (take (S n) (d :: t)) with (d :: take n t) in IH.
  by rewrite noDoubleHyphen_cons, H1, IH.
Qed.

(** X23.  The slug of a product is safe in a URL.  Whatever the title, the
    slug the pre-save hook derives from it holds only the letters [a] to
    [z], the digits and hyphens, never two hyphens in a row, and is at most
    50 characters long. *)
Theorem slugOf_url_safe (title : string) :
  Forall (λ c, slugChar c = true) (list_ascii_of_string (slugOf title))
  ∧ noDoubleHyphen (list_ascii_of_string (slugOf title)) = true
  ∧ (String.length (slugOf title) <= 50)%nat.
Proof.
  unfold slugOf.
  set (kept := List.filter _ _).
  assert (Forall (λ c, isSpace c = false → slugChar c = true ∧ c ≠ "-"%char)
            kept) as Hkept.
  { subst kept. apply List.Forall_forall. intros c Hc.
    apply filter_In in Hc as [Hin Hk].
    apply in_map_iff in Hin as (c0 & <- & _).
    by apply kept_char_slugChar. }
  destruct (hyphenate_slugChar kept false Hkept) as (H1 & H2 & _).
  rewrite list_ascii_of_string_of_list_ascii. split_and!.
  - by apply Forall_take.
  - by apply noDoubleHyphen_take.
  - assert (∀ s, String.length s = length (list_ascii_of_string s)) as Hlen.
    { induction s as [|c s IH]; cbn; congruence. }
    rewrite Hlen, list_ascii_of_string_of_list_ascii, length_take. lia.
Qed.


(** ** Access to orders and payments *)

(** X25.  Who may touch a new order.  After a request that [createOrder]
    accepts, the order stands at the end of the collection: its owner reads
    it back through [GET /api/orders/:id] exactly as it was answered, with
    every line's product populated; an administrator reads the same, but
    anyone else is refused, and neither [cancelOrder] nor [initiatePayment]
    accepts a user other than the owner, administrator or not, and they
    change nothing. *)
Theorem getOrder_after_createOrder now rnd user body db other :
  accepted now rnd body db →
  let created := createOrder now rnd user body db in
  let id := length (orders db) in
  ∃ order populated,
    created.1 = Success 201 "Order created successfully" order
    ∧ getOrder user false id created.2 = Success 200 "" (order, populated)
    ∧ getOrder other true id created.2 = Success 200 "" (order, populated)
    ∧ length populated = length (Order.items order)
    ∧ Forall is_Some populated
    ∧ (other ≠ user →
       getOrder other false id created.2 = Failure 403 "Access denied"
       ∧ (∀ now' reason,
            cancelOrder now' other id reason created.2
            = (Failure 403 "Access denied", created.2))
       ∧ (∀ now' method,
            initiatePayment now' other id method created.2
            = (Failure 403 "Access denied", created.2))).
Proof.
  intros Hacc. cbv zeta.
  destruct (createOrder_valid now rnd user body db Hacc)
    as (lines & ps' & Hrun & Hsnap & Hstock).
  cbv zeta in Hrun. rewrite Hrun. cbn [fst snd].
  eexists _, _. split; [reflexivity|].
  assert (∀ ps carts order,
            orders (mkDb ps (orders db ++ [order]) (payments db) carts)
            !! length (orders db) = Some order) as Hat.
  { intros. cbn [orders]. by apply list_lookup_middle. }
  unfold getOrder, cancelOrder, initiatePayment. rewrite !Hat.
  cbn [Order.user Order.items products].
  rewrite bool_decide_eq_true_2 by done. cbn [negb andb].
  split; [reflexivity|]. rewrite andb_false_r. split; [reflexivity|].
  split; [by rewrite length_map|]. split.
  - assert (∀ pid, is_Some (products db !! pid) → is_Some (ps' !! pid))
      as Hkept.
    { intros pid [p Hp]. rewrite Hstock, Hp. by eexists. }
    clear Hrun Hat Hstock Hacc.
    induction Hsnap as [|item line items lines Hl _ IH]; [constructor|].
    cbn [map]. constructor; [|exact IH].
    destruct Hl as (p & Hp & Hid & _). apply Hkept. rewrite Hid, Hp.
    by eexists.
  - intros Hother.
    rewrite (bool_decide_eq_false_2 (user = other)) by done.
    cbn [negb andb]. done.
Qed.

Lemma getOrder_after_createOrder_witness :
  let created := createOrder 1700000000000 "K3F9Q" 7 cartA shopDb in
  ∃ order populated,
    getOrder 7 false 0 created.2 = Success 200 "" (order, populated)
    ∧ getOrder 8 false 0 created.2 = Failure 403 "Access denied"
    ∧ cancelOrder 1700000100000 8 0 None created.2
      = (Failure 403 "Access denied", created.2).
Proof.
  cbv zeta.
  edestruct (getOrder_after_createOrder 1700000000000 "K3F9Q" 7 cartA shopDb 8)
    as (order & populated & _ & Hown & _ & _ & _ & Hother).
  - split_and!.
    + repeat constructor. exists productA. split_and!; [reflexivity..|].
      intros _. vm_compute. discriminate.
    + repeat constructor. vm_compute. discriminate.
    + intros pid p Hp _ Hin. cbn in Hin.
      apply list_elem_of_singleton in Hin as ->.
      vm_compute in Hp. injection Hp as <-. vm_compute. discriminate.
    + split_and!; reflexivity.
  - destruct Hother as (Hget & Hcancel & _); [discriminate|].
    exists order, populated. split_and!; [exact Hown|exact Hget|].
    apply Hcancel.
Defined.

(** X26.  The payment id answered by [initiatePayment] leads back to the
    payment.  After a first Flutterwave or Paystack initiation for a pending
    order, [GET /api/payments/:id] with the id of the response gives the
    owner, and an administrator, the pending payment with the amount and the
    reference of the response and with the order populated; any other user
    is refused. *)
Theorem getPayment_after_initiatePayment
    now user orderId method db order other :
  orders db !! orderId = Some order →
  Order.user order = user →
  Order.status order = Order.pending →
  method = flutterwave ∨ method = paystack →
  Forall (λ p, ¬ blocksInitiation orderId p) (payments db) →
  let initiated := initiatePayment now user orderId method db in
  ∃ data payment,
    initiated.1 = Success 200 "Payment initiated successfully" data
    ∧ getPayment user false (PaymentData.paymentId data) initiated.2
      = Success 200 "" (payment, Some order)
    ∧ getPayment other true (PaymentData.paymentId data) initiated.2
      = Success 200 "" (payment, Some order)
    ∧ Payment.status payment = Payment.pending
    ∧ Payment.amount payment = PaymentData.amount data
    ∧ Payment.gatewayReference payment = PaymentData.reference data
    ∧ (other ≠ user →
       getPayment other false (PaymentData.paymentId data) initiated.2
       = Failure 403 "Access denied").
Proof.
  intros Ho Hu Hs Hm Hfree. cbv zeta.
  destruct (initiatePayment_referenced now user orderId method db order
              Ho Hu Hs Hm Hfree)
    as (created & Hrun & Hr & Hst & Hord & Hus & Ham).
  rewrite Hrun. cbn [fst snd].
  eexists _, created. split; [reflexivity|].
  cbn [PaymentData.paymentId PaymentData.amount PaymentData.reference].
  unfold getPayment. cbn [payments setPayments orders].
  rewrite list_lookup_middle by done. rewrite Hus, Hord, Ho.
  rewrite bool_decide_eq_true_2 by done. cbn [negb andb].
  rewrite andb_false_r. split_and!; try done.
  intros Hother. by rewrite bool_decide_eq_false_2.
Qed.

Lemma getPayment_after_initiatePayment_witness :
  let initiated :=
    initiatePayment 1700000200000 7 0 flutterwave (shopWith Order.pending) in
  ∃ payment,
    getPayment 7 false 0 initiated.2
    = Success 200 "" (payment, Some (orderOfA Order.pending))
    ∧ getPayment 8 false 0 initiated.2 = Failure 403 "Access denied".
Proof.
  cbv zeta.
  edestruct (getPayment_after_initiatePayment 1700000200000 7 0 flutterwave
               (shopWith Order.pending) (orderOfA Order.pending) 8)
    as (data & payment & Hdata & Hown & _ & _ & _ & _ & Hother);
    [reflexivity|reflexivity|reflexivity|by left|constructor|].
  vm_compute in Hdata. injection Hdata as <-.
  exists payment. split; [exact Hown|]. apply Hother. discriminate.
Defined.
